(** * Vulkan runtime of TVM (src/runtime/vulkan/vulkan.cc): a shallow embedding

    The development follows the source file top-down: Vulkan constants,
    capability discovery ([GetDeviceDescription]), memory-type selection of
    the [VulkanDeviceAPI] constructor, the buffer allocator ([CreateBuffer],
    [AllocDataSpace], [FreeDataSpace]), the per-thread caches
    ([GetOrAllocate]), the copy engine ([CopyDataFromTo]), the pipeline cache
    ([GetPipeline]), the launch front-end ([VulkanWrappedFunc::operator()])
    and the module container ([SaveToBinary], [VulkanModuleLoadBinary]).
    The helpers of initialisation ([find_enabled_extensions], the validation
    layers) and the rest of the device API ([GetAttr], the stream handles)
    come after these.

    Unsigned C++ integers are [Z] values; bit tests are [Z.land]; the Vulkan
    driver is a state component that hands out handles, answers queries and
    logs every call it receives. *)

From Stdlib Require Import ZArith Lia List Bool Sorted DecimalString.
From stdpp Require Import base gmap strings list fin_maps.

Open Scope string_scope.
Open Scope Z_scope.

(* ===================================================================== *)
(** ** Vulkan header constants (vulkan_core.h)                            *)
(* ===================================================================== *)

Module Vk.

Definition VK_MAKE_VERSION (major minor patch : Z) : Z :=
  Z.lor (Z.lor (Z.shiftl major 22) (Z.shiftl minor 12)) patch.
Definition VK_VERSION_MAJOR (version : Z) : Z := Z.shiftr version 22.
Definition VK_VERSION_MINOR (version : Z) : Z :=
  Z.land (Z.shiftr version 12) 1023.
Definition VK_VERSION_PATCH (version : Z) : Z := Z.land version 4095.

Definition VK_API_VERSION_1_0 : Z := Eval cbv in VK_MAKE_VERSION 1 0 0.
Definition VK_API_VERSION_1_1 : Z := Eval cbv in VK_MAKE_VERSION 1 1 0.
Definition VK_API_VERSION_1_2 : Z := Eval cbv in VK_MAKE_VERSION 1 2 0.

Definition VK_NULL_HANDLE : Z := 0.
Definition VK_WHOLE_SIZE : Z := 18446744073709551615.

(* VkBufferUsageFlagBits *)
Definition VK_BUFFER_USAGE_TRANSFER_SRC_BIT : Z := 1.
Definition VK_BUFFER_USAGE_TRANSFER_DST_BIT : Z := 2.
Definition VK_BUFFER_USAGE_UNIFORM_BUFFER_BIT : Z := 16.
Definition VK_BUFFER_USAGE_STORAGE_BUFFER_BIT : Z := 32.

(* VkMemoryPropertyFlagBits *)
Definition VK_MEMORY_PROPERTY_DEVICE_LOCAL_BIT : Z := 1.
Definition VK_MEMORY_PROPERTY_HOST_VISIBLE_BIT : Z := 2.
Definition VK_MEMORY_PROPERTY_HOST_COHERENT_BIT : Z := 4.
Definition VK_MEMORY_PROPERTY_HOST_CACHED_BIT : Z := 8.

(* VkAccessFlagBits *)
Definition VK_ACCESS_SHADER_READ_BIT : Z := 32.
Definition VK_ACCESS_SHADER_WRITE_BIT : Z := 64.
Definition VK_ACCESS_TRANSFER_READ_BIT : Z := 2048.
Definition VK_ACCESS_TRANSFER_WRITE_BIT : Z := 4096.

(* VkPipelineStageFlagBits *)
Definition VK_PIPELINE_STAGE_COMPUTE_SHADER_BIT : Z := 2048.
Definition VK_PIPELINE_STAGE_TRANSFER_BIT : Z := 4096.
Definition VK_PIPELINE_STAGE_HOST_BIT : Z := 16384.

(* VkShaderStageFlagBits, VkQueueFlagBits *)
Definition VK_SHADER_STAGE_COMPUTE_BIT : Z := 32.
Definition VK_QUEUE_GRAPHICS_BIT : Z := 1.
Definition VK_QUEUE_COMPUTE_BIT : Z := 2.

(* VkDescriptorType *)
Inductive VkDescriptorType :=
| VK_DESCRIPTOR_TYPE_UNIFORM_BUFFER
| VK_DESCRIPTOR_TYPE_STORAGE_BUFFER.

#[global] Instance VkDescriptorType_eq_dec : EqDecision VkDescriptorType.
Proof. solve_decision. Defined.

(* VkDescriptorSetLayoutCreateFlagBits, VkDescriptorPoolCreateFlagBits *)
Definition VK_DESCRIPTOR_SET_LAYOUT_CREATE_PUSH_DESCRIPTOR_BIT_KHR : Z := 1.
Definition VK_DESCRIPTOR_POOL_CREATE_FREE_DESCRIPTOR_SET_BIT : Z := 1.

(** The two result codes the runtime distinguishes: [VULKAN_CALL] aborts on
    everything that is not [VK_SUCCESS]. *)
Inductive VkResult :=
| VK_SUCCESS
| VK_ERROR (code : Z).

End Vk.
Export Vk.

(** C++ truth value of an integer expression used as a condition. *)
Definition truthy (z : Z) : bool := negb (z =? 0).

(* ===================================================================== *)
(** ** Capability discovery: [VulkanDeviceAPI::GetDeviceDescription]      *)
(* ===================================================================== *)

Module Caps.

(** What the physical device reports when asked. *)
Record VkPhysicalDeviceLimits := {
  maxComputeWorkGroupInvocations : Z;
  maxComputeWorkGroupSize : Z * Z * Z;
  maxPushConstantsSize : Z;
  maxUniformBufferRange : Z;
  maxStorageBufferRange : Z;
  maxPerStageDescriptorStorageBuffers : Z;
  maxComputeSharedMemorySize : Z
}.

Record VkPhysicalDeviceProperties := {
  apiVersion : Z;
  driverVersion : Z;
  deviceName : string;
  limits : VkPhysicalDeviceLimits
}.

Record VkConformanceVersion := {
  major : Z;
  minor : Z
}.

Record VkPhysicalDeviceSubgroupProperties := {
  subgroupSize : Z;
  supportedStages : Z;
  supportedOperations : Z
}.

Record VkPhysicalDeviceFeatures := {
  shaderFloat64 : bool;
  shaderInt16 : bool;
  shaderInt64 : bool
}.

Record PhysicalDevice := {
  pd_properties : VkPhysicalDeviceProperties;
  pd_conformanceVersion : VkConformanceVersion;
  pd_subgroup : VkPhysicalDeviceSubgroupProperties;
  pd_features : VkPhysicalDeviceFeatures;
  pd_storageBuffer8BitAccess : bool;
  pd_storageBuffer16BitAccess : bool;
  pd_shaderFloat16 : bool;
  pd_shaderInt8 : bool
}.

(** [std::getenv]: the process environment as a finite map. *)
Abbreviation Env := (gmap string string).
Definition getenv (env : Env) (name : string) : option string := env !! name.

(** [disable && *disable]: the variable is set and its value is not the
    empty string. *)
Definition set_and_nonempty (v : option string) : bool :=
  match v with
  | Some s => negb (String.eqb s "")
  | None => false
  end.

(** The [has_extension] lambda: [std::any_of] with [strcmp(..) == 0] over
    the device extensions, then over the instance extensions. *)
Definition has_extension (instance_extensions device_extensions : list string)
    (query : string) : bool :=
  existsb (String.eqb query) device_extensions
  || existsb (String.eqb query) instance_extensions.

(** Values stored in the [Map<String, ObjectRef>] of a [Target]. *)
Inductive ObjectRef :=
| OString (s : string)
| OBool (b : bool)
| OInteger (z : Z).

Abbreviation Target := (gmap string ObjectRef).

Definition GetAttrBool (t : Target) (name : string) : option bool :=
  match t !! name with
  | Some (OBool b) => Some b
  | _ => None
  end.

Definition GetAttrInteger (t : Target) (name : string) : option Z :=
  match t !! name with
  | Some (OInteger z) => Some z
  | _ => None
  end.

Definition zero_conformance : VkConformanceVersion := {| major := 0; minor := 0 |}.
Definition zero_subgroup : VkPhysicalDeviceSubgroupProperties :=
  {| subgroupSize := 0; supportedStages := 0; supportedOperations := 0 |}.

Section Description.
Variable env : Env.
Variable dev : PhysicalDevice.
Variables instance_extensions device_extensions : list string.

Let has := has_extension instance_extensions device_extensions.

(** The chained structures are zero-initialised and only filled by the
    [vkGetPhysicalDeviceProperties2KHR] / [..Features2KHR] calls, which
    are made when [VK_KHR_get_physical_device_properties2] is enabled,
    and only when the structure was linked into the [pNext] chain. *)
Definition queried2 : bool := has "VK_KHR_get_physical_device_properties2".

Definition driver : VkConformanceVersion :=
  if queried2 && has "VK_KHR_driver_properties"
  then pd_conformanceVersion dev else zero_conformance.

Definition subgroup : VkPhysicalDeviceSubgroupProperties :=
  if queried2 && (VK_API_VERSION_1_1 <=? apiVersion (pd_properties dev))
  then pd_subgroup dev else zero_subgroup.

Definition storage_8bit : bool :=
  queried2 && has "VK_KHR_8bit_storage" && pd_storageBuffer8BitAccess dev.
Definition storage_16bit : bool :=
  queried2 && has "VK_KHR_16bit_storage" && pd_storageBuffer16BitAccess dev.
Definition float16_int8_shaderFloat16 : bool :=
  queried2 && has "VK_KHR_shader_float16_int8" && pd_shaderFloat16 dev.
Definition float16_int8_shaderInt8 : bool :=
  queried2 && has "VK_KHR_shader_float16_int8" && pd_shaderInt8 dev.

Definition supported_subgroup_operations : Z :=
  if truthy (Z.land (supportedStages subgroup) VK_SHADER_STAGE_COMPUTE_BIT)
  then supportedOperations subgroup else 0.

Definition thread_warp_size : Z := Z.max (subgroupSize subgroup) 1.

(** The conformance clamp on the API version. *)
Definition vulkan_api_version : Z :=
  let vulkan_api_version := apiVersion (pd_properties dev) in
  if has "VK_KHR_driver_properties" then
    let api_major := VK_VERSION_MAJOR vulkan_api_version in
    let api_minor := VK_VERSION_MINOR vulkan_api_version in
    if (major driver <? api_major)
       || ((api_major =? major driver) && (minor driver <? api_minor))
    then VK_MAKE_VERSION (major driver) (minor driver) 0
    else vulkan_api_version
  else vulkan_api_version.

(** [max_spirv_version], written as the source writes it: a default
    followed by an if / else-if chain of assignments. *)
Definition derive_max_spirv_version (vulkan_api_version : Z)
    (has_spirv_1_4 : bool) : Z :=
  let max_spirv_version := 65536 (* 0x10000 *) in
  if VK_API_VERSION_1_2 <=? vulkan_api_version then 66816 (* 0x10500 *)
  else if has_spirv_1_4 then 66560 (* 0x10400 *)
  else if VK_API_VERSION_1_1 <=? vulkan_api_version then 66304 (* 0x10300 *)
  else max_spirv_version.

Definition max_spirv_version : Z :=
  derive_max_spirv_version vulkan_api_version (has "VK_KHR_spirv_1_4").

Definition supports_push_descriptor : bool :=
  let supports_push_descriptor :=
    has "VK_KHR_push_descriptor" && has "VK_KHR_descriptor_update_template" in
  let disable := getenv env "TVM_VULKAN_DISABLE_PUSH_DESCRIPTOR" in
  if set_and_nonempty disable then false else supports_push_descriptor.

Definition supports_dedicated_allocation : bool :=
  let supports_dedicated_allocation :=
    has "VK_KHR_get_memory_requirements2" && has "VK_KHR_dedicated_allocation" in
  let disable := getenv env "TVM_VULKAN_DISABLE_DEDICATED_ALLOCATION" in
  if set_and_nonempty disable then false else supports_dedicated_allocation.

Definition config : list (string * ObjectRef) :=
  let p := pd_properties dev in
  let l := limits p in
  [ ("kind", OString "vulkan");
    ("supports_float16", OBool float16_int8_shaderFloat16);
    ("supports_float32", OBool true);
    ("supports_float64", OBool (shaderFloat64 (pd_features dev)));
    ("supports_int8", OBool float16_int8_shaderInt8);
    ("supports_int16", OBool (shaderInt16 (pd_features dev)));
    ("supports_int32", OBool true);
    ("supports_int64", OBool (shaderInt64 (pd_features dev)));
    ("supports_8bit_buffer", OBool storage_8bit);
    ("supports_16bit_buffer", OBool storage_16bit);
    ("supports_storage_buffer_storage_class",
      OBool (has "VK_KHR_storage_buffer_storage_class"));
    ("supports_push_descriptor", OBool supports_push_descriptor);
    ("supports_dedicated_allocation", OBool supports_dedicated_allocation);
    ("supported_subgroup_operations", OInteger supported_subgroup_operations);
    ("max_num_threads", OInteger (maxComputeWorkGroupInvocations l));
    ("thread_warp_size", OInteger thread_warp_size);
    ("max_block_size_x", OInteger (maxComputeWorkGroupSize l).1.1);
    ("max_block_size_y", OInteger (maxComputeWorkGroupSize l).1.2);
    ("max_block_size_z", OInteger (maxComputeWorkGroupSize l).2);
    ("max_push_constants_size", OInteger (maxPushConstantsSize l));
    ("max_uniform_buffer_range", OInteger (maxUniformBufferRange l));
    ("max_storage_buffer_range", OInteger (maxStorageBufferRange l));
    ("max_per_stage_descriptor_storage_buffer",
      OInteger (maxPerStageDescriptorStorageBuffers l));
    ("max_shared_memory_per_block", OInteger (maxComputeSharedMemorySize l));
    ("device_name", OString (deviceName p));
    ("driver_version", OInteger (driverVersion p));
    ("vulkan_api_version", OInteger vulkan_api_version);
    ("max_spirv_version", OInteger max_spirv_version) ].

Definition GetDeviceDescription : Target := list_to_map config.

End Description.

End Caps.

(* ===================================================================== *)
(** ** The device model and the runtime state                             *)
(* ===================================================================== *)

Module Rt.

(** *** What a device answers *)

Record VkMemoryType := {
  propertyFlags : Z;
  heapIndex : nat
}.

Record VkPhysicalDeviceMemoryProperties := {
  memoryTypes : list VkMemoryType;     (* memoryTypeCount = length *)
  memoryHeaps : list Z                 (* heap sizes; memoryHeapCount = length *)
}.

(** [VkMemoryDedicatedRequirementsKHR] chained to [VkMemoryRequirements2KHR]. *)
Record DedicatedRequirements := {
  requiresDedicatedAllocation : bool;
  prefersDedicatedAllocation : bool;
  memoryRequirements_size : Z
}.

Record DeviceModel := {
  dm_caps : Caps.PhysicalDevice;
  dm_memory : VkPhysicalDeviceMemoryProperties;
  (* memoryTypeBits reported for a buffer of the given usage *)
  dm_memoryTypeBits : Z -> Z;
  (* answer of vkGetBufferMemoryRequirements2KHR for (size, usage) *)
  dm_requirements2 : Z -> Z -> DedicatedRequirements;
  (* queueFlags of each queue family *)
  dm_queueFlags : list Z
}.

(** *** [VulkanContext] *)

(** Modelled from the spec: [VulkanContext] is declared in vulkan_common.h;
    the fields are those of the spec's DeviceContext that vulkan.cc reads and
    writes.  The two optional function tables are [std::unique_ptr]s, of
    which only null-ness is observed. *)
Record VulkanContext := {
  phy_device : DeviceModel;
  phy_device_prop : Caps.VkPhysicalDeviceProperties;
  target : Caps.Target;
  device : Z;
  queue : Z;
  queue_family_index : Z;
  staging_mtype_index : Z;
  coherent_staging : bool;
  compute_mtype_index : Z;
  descriptor_template_khr_functions : bool;
  get_buffer_memory_requirements_2_functions : bool
}.

(** Modelled from the spec: [UseImmediate()] holds exactly when the
    descriptor-template function table is present. *)
Definition UseImmediate (vctx : VulkanContext) : bool :=
  descriptor_template_khr_functions vctx.

(** *** Objects of vulkan.cc *)

Record VulkanBuffer := {
  buffer : Z;
  memory : Z
}.

Record VulkanHostVisibleBuffer := {
  hv_device : Z;      (* VkDevice, 0 = nullptr *)
  vk_buf : Z;         (* VulkanBuffer*, 0 = nullptr *)
  host_addr : Z;      (* void*, 0 = nullptr *)
  hv_size : Z
}.

Definition empty_host_visible_buffer : VulkanHostVisibleBuffer :=
  {| hv_device := 0; vk_buf := 0; host_addr := 0; hv_size := 0 |}.

Record VulkanPipeline := {
  shader : Z;
  descriptor_set_layout : Z;
  descriptor_pool : Z;
  descriptor_set : Z;
  pipeline_layout : Z;
  pipeline : Z;
  descriptor_update_template : Z;
  use_ubo : bool
}.

(** Default member initialisers of [VulkanPipeline]. *)
Definition new_pipeline : VulkanPipeline :=
  {| shader := VK_NULL_HANDLE; descriptor_set_layout := VK_NULL_HANDLE;
     descriptor_pool := VK_NULL_HANDLE; descriptor_set := VK_NULL_HANDLE;
     pipeline_layout := VK_NULL_HANDLE; pipeline := VK_NULL_HANDLE;
     descriptor_update_template := VK_NULL_HANDLE; use_ubo := false |}.

Record VkDescriptorBufferInfo := {
  bi_buffer : Z;
  bi_offset : Z;
  bi_range : Z
}.

Record VkDescriptorSetLayoutBinding := {
  bd_binding : Z;
  bd_descriptorType : VkDescriptorType;
  bd_descriptorCount : Z;
  bd_stageFlags : Z
}.

Record VkDescriptorUpdateTemplateEntryKHR := {
  tpl_dstBinding : Z;
  tpl_dstArrayElement : Z;
  tpl_descriptorCount : Z;
  tpl_descriptorType : VkDescriptorType;
  tpl_offset : Z;
  tpl_stride : Z
}.

Record VkDescriptorPoolSize := {
  ps_type : VkDescriptorType;
  ps_descriptorCount : Z
}.

Record VkWriteDescriptorSet := {
  wr_dstSet : Z;
  wr_dstBinding : Z;
  wr_descriptorCount : Z;
  wr_descriptorType : VkDescriptorType;
  wr_pBufferInfo : VkDescriptorBufferInfo
}.

Record VkPushConstantRange := {
  pc_stageFlags : Z;
  pc_offset : Z;
  pc_size : Z
}.

(** Modelled from the spec: [VulkanStreamToken] (vulkan_stream.h), the
    descriptor set together with the buffer handles it was written with. *)
Record VulkanStreamToken := {
  descriptor_set_ : Z;
  buffers_ : list Z
}.

#[global] Instance VulkanStreamToken_eq_dec : EqDecision VulkanStreamToken.
Proof. solve_decision. Defined.

(** Modelled from the spec: [VulkanStream] / [VulkanStreamState]
    (vulkan_stream.h): one command pool, one primary command buffer, one
    fence, the recording flag and the set of already initialised tokens. *)
Record VulkanStream := {
  stream_device_id : Z;
  cmd_pool_ : Z;
  cmd_buffer_ : Z;
  fence_ : Z;
  recording : bool;
  deferred_tokens_ : list VulkanStreamToken
}.

(** *** Everything the driver is asked to do *)

Inductive VkCall :=
| vkCreateBuffer (dev size usage buf : Z)
| vkGetBufferMemoryRequirements (dev buf : Z)
| vkGetBufferMemoryRequirements2KHR (dev buf : Z)
| vkAllocateMemory (dev allocationSize memoryTypeIndex : Z) (dedicated : option Z) (mem : Z)
| vkBindBufferMemory (dev buf mem offset : Z)
| vkMapMemory (dev mem offset size addr : Z)
| vkUnmapMemory (dev mem : Z)
| vkFreeMemory (dev mem : Z)
| vkDestroyBuffer (dev buf : Z)
| vkInvalidateMappedMemoryRanges (dev mem offset size : Z)
| vkFlushMappedMemoryRanges (dev mem offset size : Z)
| vkCreateCommandPool (dev family pool : Z)
| vkAllocateCommandBuffers (dev pool cmd : Z)
| vkCreateFence (dev fence : Z)
| vkBeginCommandBuffer (cmd : Z)
| vkEndCommandBuffer (cmd : Z)
| vkQueueSubmit (q cmd fence : Z)
| vkWaitForFences (dev fence : Z)
| vkResetCommandBuffer (cmd : Z)
| vkCmdCopyBuffer (cmd src dst srcOffset dstOffset size : Z)
| vkCmdPipelineBarrier (cmd srcStageMask dstStageMask srcAccessMask dstAccessMask : Z)
| vkCmdBindPipeline (cmd pipe : Z)
| vkCmdBindDescriptorSets (cmd layout set : Z)
| vkCmdPushDescriptorSetWithTemplateKHR (cmd tpl layout : Z) (infos : list VkDescriptorBufferInfo)
| vkCmdPushConstants (cmd layout stageFlags offset size : Z) (values : list Z)
| vkCmdDispatch (cmd x y z : Z)
| vkUpdateDescriptorSets (dev : Z) (writes : list VkWriteDescriptorSet)
| vkCreateShaderModule (dev codeSize : Z) (code : list Z) (sh : Z)
| vkCreateDescriptorSetLayout (dev flags : Z) (bindings : list VkDescriptorSetLayoutBinding) (layout : Z)
| vkCreateDescriptorPool (dev flags maxSets : Z) (sizes : list VkDescriptorPoolSize) (pool : Z)
| vkAllocateDescriptorSets (dev pool layout set : Z)
| vkCreatePipelineLayout (dev setLayout : Z) (ranges : list VkPushConstantRange) (layout : Z)
| vkCreateComputePipelines (dev sh : Z) (pName : string) (layout pipe : Z)
| vkCreateDescriptorUpdateTemplateKHR (dev : Z) (entries : list VkDescriptorUpdateTemplateEntryKHR)
    (setLayout layout tpl : Z)
(* host-side actions the runtime performs between driver calls *)
| host_memcpy (dst src nbytes : Z)
| host_memcpy_scalars (dst : Z) (slots : list Z) (nbytes : Z)
| StreamSynchronize (device_id : Z).

(** The driver: a supply of fresh non-null handles, the results it is going
    to return for the fallible calls that follow (success once the list is
    exhausted), and the log of calls, oldest first. *)
Record Driver := {
  next_handle : positive;
  script : list VkResult;
  calls : list VkCall
}.

Record VulkanThreadEntry := {
  te_device_id : Z;                                   (* device.device_id *)
  streams_ : gmap Z VulkanStream;
  staging_buffers_ : gmap Z VulkanHostVisibleBuffer;
  uniform_buffers_ : gmap Z VulkanHostVisibleBuffer
}.

(** The process: the [VulkanDeviceAPI] singleton's contexts, the C++ heap of
    [VulkanBuffer] objects, the calling thread's entry and the driver. *)
Record World := {
  context_ : list VulkanContext;
  heap : gmap Z VulkanBuffer;
  next_ptr : positive;
  thread : VulkanThreadEntry;
  drv : Driver
}.

Inductive Error :=
| CheckFailed (what : string)      (* ICHECK / CHECK / LOG(FATAL) *)
| VulkanCallFailed (code : Z)      (* VULKAN_CALL on a code other than VK_SUCCESS *)
| InvalidPointer.                  (* use of a pointer to no live object *)

Inductive result (A : Type) :=
| Ok (a : A)
| Fail (e : Error).
Arguments Ok {A} a.
Arguments Fail {A} e.

Definition is_Ok {A} (r : result A) : bool :=
  match r with
  | Ok _ => true
  | Fail _ => false
  end.

(** State and failure: the world is kept up to the point of failure. *)
Definition M (A : Type) : Type := World -> result A * World.

Definition ret {A} (a : A) : M A := fun w => (Ok a, w).
Definition fail {A} (e : Error) : M A := fun w => (Fail e, w).
Definition bind {A B} (c : M A) (k : A -> M B) : M B :=
  fun w => match c w with
           | (Ok a, w') => k a w'
           | (Fail e, w') => (Fail e, w')
           end.

Declare Scope rt_scope.
Delimit Scope rt_scope with rt.
Notation "x <- c1 ;; c2" := (bind c1 (fun x => c2))
  (at level 100, c1 at next level, c2 at level 200, right associativity) : rt_scope.
Notation "c1 ;; c2" := (bind c1 (fun _ => c2))
  (at level 100, c2 at level 200, right associativity) : rt_scope.
Open Scope rt_scope.

Definition ICHECK (cond : bool) (what : string) : M unit :=
  if cond then ret tt else fail (CheckFailed what).

Definition get : M World := fun w => (Ok w, w).
Definition modify (f : World -> World) : M unit := fun w => (Ok tt, f w).

(** *** Record updates *)

Definition set_drv (f : Driver -> Driver) (w : World) : World :=
  {| context_ := context_ w; heap := heap w; next_ptr := next_ptr w;
     thread := thread w; drv := f (drv w) |}.
Definition set_thread (f : VulkanThreadEntry -> VulkanThreadEntry) (w : World) : World :=
  {| context_ := context_ w; heap := heap w; next_ptr := next_ptr w;
     thread := f (thread w); drv := drv w |}.
Definition set_heap (f : gmap Z VulkanBuffer -> gmap Z VulkanBuffer) (w : World) : World :=
  {| context_ := context_ w; heap := f (heap w); next_ptr := next_ptr w;
     thread := thread w; drv := drv w |}.

Definition set_streams (f : gmap Z VulkanStream -> gmap Z VulkanStream)
    (t : VulkanThreadEntry) : VulkanThreadEntry :=
  {| te_device_id := te_device_id t; streams_ := f (streams_ t);
     staging_buffers_ := staging_buffers_ t; uniform_buffers_ := uniform_buffers_ t |}.
Definition set_staging_buffers
    (f : gmap Z VulkanHostVisibleBuffer -> gmap Z VulkanHostVisibleBuffer)
    (t : VulkanThreadEntry) : VulkanThreadEntry :=
  {| te_device_id := te_device_id t; streams_ := streams_ t;
     staging_buffers_ := f (staging_buffers_ t); uniform_buffers_ := uniform_buffers_ t |}.
Definition set_uniform_buffers
    (f : gmap Z VulkanHostVisibleBuffer -> gmap Z VulkanHostVisibleBuffer)
    (t : VulkanThreadEntry) : VulkanThreadEntry :=
  {| te_device_id := te_device_id t; streams_ := streams_ t;
     staging_buffers_ := staging_buffers_ t; uniform_buffers_ := f (uniform_buffers_ t) |}.

(** The driver never fails: no failure is scripted. *)
Definition cooperative (w : World) : Prop := script (drv w) = [].

(** One more entry in the call log. *)
Definition emit (c : VkCall) (w : World) : World :=
  set_drv (fun d => {| next_handle := next_handle d; script := script d;
                       calls := calls d ++ [c] |}) w.

(** One handle handed out. *)
Definition bump (w : World) : World :=
  set_drv (fun d => {| next_handle := Pos.succ (next_handle d); script := script d;
                       calls := calls d |}) w.

Definition handle (w : World) : Z := Z.pos (next_handle (drv w)).

(** *** Talking to the driver *)

Definition log (c : VkCall) : M unit :=
  modify (set_drv (fun d =>
    {| next_handle := next_handle d; script := script d; calls := calls d ++ [c] |})).

(** The [VkResult] of the next fallible call. *)
Definition next_result : M VkResult :=
  fun w => match script (drv w) with
           | [] => (Ok VK_SUCCESS, w)
           | r :: rest =>
               (Ok r, set_drv (fun d => {| next_handle := next_handle d; script := rest;
                                           calls := calls d |}) w)
           end.

Definition fresh_handle : M Z :=
  fun w => (Ok (Z.pos (next_handle (drv w))),
            set_drv (fun d => {| next_handle := Pos.succ (next_handle d);
                                 script := script d; calls := calls d |}) w).

(** A call that returns no [VkResult]. *)
Definition vk_void (c : VkCall) : M unit := log c.

(** [VULKAN_CALL(f(..))] for a call without an output handle. *)
Definition VULKAN_CALL (c : VkCall) : M unit :=
  r <- next_result;;
  log c;;
  match r with
  | VK_SUCCESS => ret tt
  | VK_ERROR code => fail (VulkanCallFailed code)
  end.

(** [VULKAN_CALL(vkCreate..(.., &handle))]: on success the driver has
    written a fresh non-null handle. *)
Definition VULKAN_CALL_create (mk : Z -> VkCall) : M Z :=
  r <- next_result;;
  match r with
  | VK_SUCCESS => h <- fresh_handle;; log (mk h);; ret h
  | VK_ERROR code => log (mk VK_NULL_HANDLE);; fail (VulkanCallFailed code)
  end.

(** [VulkanDeviceAPI::context]: [ICHECK_LT(device_id, context_.size())] on
    the [size_t] value of the id. *)
Definition context (device_id : Z) : M VulkanContext :=
  w <- get;;
  match (if 0 <=? device_id then context_ w !! Z.to_nat device_id else None) with
  | Some vctx => ret vctx
  | None => fail (CheckFailed "device_id < context_.size()")
  end.

(** *** The heap of [VulkanBuffer] objects *)

Definition new_VulkanBuffer (b : VulkanBuffer) : M Z :=
  fun w =>
    let p := Z.pos (next_ptr w) in
    (Ok p, {| context_ := context_ w; heap := <[p := b]> (heap w);
              next_ptr := Pos.succ (next_ptr w); thread := thread w; drv := drv w |}).

Definition deref_VulkanBuffer (p : Z) : M VulkanBuffer :=
  w <- get;;
  match heap w !! p with
  | Some b => ret b
  | None => fail InvalidPointer
  end.

Definition delete_VulkanBuffer (p : Z) : M unit :=
  _ <- deref_VulkanBuffer p;;
  modify (set_heap (delete p)).

(** *** [FindMemoryType], [MakeBufferCreateInfo], [CreateBuffer] *)

Record VkBufferCreateInfo := {
  info_size : Z;
  info_usage : Z;
  info_queueFamilyIndex : Z
}.

Definition MakeBufferCreateInfo (vctx : VulkanContext) (nbytes usage : Z) : VkBufferCreateInfo :=
  {| info_size := nbytes; info_usage := usage;
     info_queueFamilyIndex := queue_family_index vctx |}.

(** The [for] loop of [FindMemoryType]: [type_bits] is shifted right once per
    memory type that is passed over. *)
Fixpoint FindMemoryType_loop (types : list VkMemoryType) (i type_bits req_prop : Z)
  : option Z :=
  match types with
  | [] => None
  | ty :: rest =>
      if (Z.land type_bits 1 =? 1) && (Z.land (propertyFlags ty) req_prop =? req_prop)
      then Some i
      else FindMemoryType_loop rest (i + 1) (Z.shiftr type_bits 1) req_prop
  end.

Definition FindMemoryType (vctx : VulkanContext) (info : VkBufferCreateInfo) (req_prop : Z)
  : M Z :=
  buffer <- VULKAN_CALL_create (vkCreateBuffer (device vctx) (info_size info) (info_usage info));;
  vk_void (vkGetBufferMemoryRequirements (device vctx) buffer);;
  let type_bits := dm_memoryTypeBits (phy_device vctx) (info_usage info) in
  match FindMemoryType_loop (memoryTypes (dm_memory (phy_device vctx))) 0 type_bits req_prop with
  | Some i => ret i
  | None => fail (CheckFailed "Requested memory type not found")
  end.

Definition CreateBuffer (vctx : VulkanContext) (nbytes usage mem_type_index : Z) : M Z :=
  let info := MakeBufferCreateInfo vctx nbytes usage in
  (* create buffer *)
  buffer <- VULKAN_CALL_create (vkCreateBuffer (device vctx) (info_size info) (info_usage info));;
  (* bind to memory *)
  req <- (if get_buffer_memory_requirements_2_functions vctx then
            vk_void (vkGetBufferMemoryRequirements2KHR (device vctx) buffer);;
            let dedicated_req := dm_requirements2 (phy_device vctx) (info_size info) usage in
            ret (requiresDedicatedAllocation dedicated_req
                 || prefersDedicatedAllocation dedicated_req,
                 memoryRequirements_size dedicated_req)
          else ret (false, 0));;
  let dedicated_allocation := fst req in
  let req2_size := snd req in
  memory <- (if negb dedicated_allocation then
               VULKAN_CALL_create
                 (vkAllocateMemory (device vctx) (info_size info) mem_type_index None)
             else
               VULKAN_CALL_create
                 (vkAllocateMemory (device vctx) req2_size mem_type_index (Some buffer)));;
  VULKAN_CALL (vkBindBufferMemory (device vctx) buffer memory 0);;
  new_VulkanBuffer {| buffer := buffer; memory := memory |}.

(** *** The per-thread stream *)

Definition set_stream (device_id : Z) (s : VulkanStream) : M unit :=
  modify (set_thread (set_streams <[device_id := s]>)).

Definition stream_deref (s : Z) : M VulkanStream :=
  w <- get;;
  match streams_ (thread w) !! s with
  | Some st => ret st
  | None => fail InvalidPointer
  end.

(** Modelled from the spec: the constructor of [VulkanStream]
    (vulkan_stream.h) creates the command pool, the command buffer and the
    fence the spec's Stream owns; recording starts lazily. *)
Definition new_VulkanStream (device_id : Z) (vctx : VulkanContext) : M VulkanStream :=
  pool <- VULKAN_CALL_create (vkCreateCommandPool (device vctx) (queue_family_index vctx));;
  cmd <- VULKAN_CALL_create (vkAllocateCommandBuffers (device vctx) pool);;
  fence <- VULKAN_CALL_create (vkCreateFence (device vctx));;
  ret {| stream_device_id := device_id; cmd_pool_ := pool; cmd_buffer_ := cmd;
         fence_ := fence; recording := false; deferred_tokens_ := [] |}.

(** [VulkanThreadEntry::Stream]; the result designates the stream of
    [device_id] in [streams_]. *)
Definition Stream (device_id : Z) : M Z :=
  w <- get;;
  match streams_ (thread w) !! device_id with
  | Some _ => ret device_id
  | None =>
      vctx <- context device_id;;
      st <- new_VulkanStream device_id vctx;;
      set_stream device_id st;;
      ret device_id
  end.

Definition begin_recording (s : Z) : M VulkanStream :=
  st <- stream_deref s;;
  if recording st then ret st
  else
    VULKAN_CALL (vkBeginCommandBuffer (cmd_buffer_ st));;
    let st' := {| stream_device_id := stream_device_id st; cmd_pool_ := cmd_pool_ st;
                  cmd_buffer_ := cmd_buffer_ st; fence_ := fence_ st; recording := true;
                  deferred_tokens_ := deferred_tokens_ st |} in
    set_stream s st';;
    ret st'.

(** Modelled from the spec (4.7): [Launch] begins recording lazily and
    invokes the function with the current command buffer, which stays open. *)
Definition Launch (s : Z) (kernel : VulkanStream -> M unit) : M unit :=
  st <- begin_recording s;;
  kernel st.

(** Modelled from the spec (4.7): [LaunchDeferred] runs the initializer
    unless the token is among the already initialised ones, adds the token,
    and records the kernel. *)
Definition LaunchDeferred (s : Z) (deferred_initializer : M unit)
    (deferred_kernel : VulkanStream -> M unit) (deferred_token : VulkanStreamToken) : M unit :=
  st <- stream_deref s;;
  (if bool_decide (deferred_token ∈ deferred_tokens_ st) then ret tt
   else
     deferred_initializer;;
     st <- stream_deref s;;
     set_stream s {| stream_device_id := stream_device_id st; cmd_pool_ := cmd_pool_ st;
                     cmd_buffer_ := cmd_buffer_ st; fence_ := fence_ st;
                     recording := recording st;
                     deferred_tokens_ := deferred_token :: deferred_tokens_ st |});;
  st <- begin_recording s;;
  deferred_kernel st.

(** Modelled from the spec (4.7): [Synchronize] ends recording, submits the
    command buffer with the fence, waits on it, resets the command buffer and
    clears the token set.  [StreamSynchronize] marks the invocation in the
    log. *)
Definition Synchronize (s : Z) : M unit :=
  st <- stream_deref s;;
  vctx <- context (stream_device_id st);;
  log (StreamSynchronize (stream_device_id st));;
  VULKAN_CALL (vkEndCommandBuffer (cmd_buffer_ st));;
  VULKAN_CALL (vkQueueSubmit (queue vctx) (cmd_buffer_ st) (fence_ st));;
  VULKAN_CALL (vkWaitForFences (device vctx) (fence_ st));;
  VULKAN_CALL (vkResetCommandBuffer (cmd_buffer_ st));;
  set_stream s {| stream_device_id := stream_device_id st; cmd_pool_ := cmd_pool_ st;
                  cmd_buffer_ := cmd_buffer_ st; fence_ := fence_ st; recording := false;
                  deferred_tokens_ := [] |}.

(** *** The device API: allocation *)

Definition kDLCPU : Z := 1.
Definition kDLVulkan : Z := 7.

Record Device := {
  device_type : Z;
  device_id : Z
}.

Record DLDataType := {
  code : Z;
  bits : Z;
  lanes : Z
}.

Definition storage_usage : Z :=
  Z.lor (Z.lor VK_BUFFER_USAGE_TRANSFER_SRC_BIT VK_BUFFER_USAGE_TRANSFER_DST_BIT)
        VK_BUFFER_USAGE_STORAGE_BUFFER_BIT.

Definition staging_usage : Z :=
  Z.lor VK_BUFFER_USAGE_TRANSFER_SRC_BIT VK_BUFFER_USAGE_TRANSFER_DST_BIT.

Definition AllocDataSpace (dev : Device) (nbytes alignment : Z) (type_hint : DLDataType)
  : M Z :=
  let nbytes := if nbytes =? 0 then 1 else nbytes in
  vctx <- context (device_id dev);;
  let usage := storage_usage in
  CreateBuffer vctx nbytes usage (compute_mtype_index vctx).

Definition StreamSync (dev : Device) (stream : Z) : M unit :=
  ICHECK (stream =? 0) "stream == nullptr";;
  s <- Stream (device_id dev);;
  Synchronize s.

Definition FreeDataSpace (dev : Device) (ptr : Z) : M unit :=
  StreamSync dev 0;;
  vctx <- context (device_id dev);;
  pbuf <- deref_VulkanBuffer ptr;;
  vk_void (vkDestroyBuffer (device vctx) (buffer pbuf));;
  vk_void (vkFreeMemory (device vctx) (memory pbuf));;
  delete_VulkanBuffer ptr.

(** *** The staging and uniform-buffer caches of the thread entry *)

(** The [buffers_ptr] argument of [GetOrAllocate] points to one of the two
    maps of the thread entry. *)
Inductive Cache :=
| staging_buffers
| uniform_buffers.

Definition cache_map (c : Cache) (t : VulkanThreadEntry) : gmap Z VulkanHostVisibleBuffer :=
  match c with
  | staging_buffers => staging_buffers_ t
  | uniform_buffers => uniform_buffers_ t
  end.

Definition cache_store (c : Cache) (device_id : Z) (b : VulkanHostVisibleBuffer) : M unit :=
  match c with
  | staging_buffers => modify (set_thread (set_staging_buffers <[device_id := b]>))
  | uniform_buffers => modify (set_thread (set_uniform_buffers <[device_id := b]>))
  end.

Definition cache_load (c : Cache) (device_id : Z) : M VulkanHostVisibleBuffer :=
  w <- get;;
  match cache_map c (thread w) !! device_id with
  | Some b => ret b
  | None => fail InvalidPointer
  end.

Definition DeleteHostVisibleBuffer (buf : VulkanHostVisibleBuffer) : M VulkanHostVisibleBuffer :=
  if negb (vk_buf buf =? 0) then
    vb <- deref_VulkanBuffer (vk_buf buf);;
    (if negb (host_addr buf =? 0)
     then vk_void (vkUnmapMemory (hv_device buf) (memory vb)) else ret tt);;
    (if negb (memory vb =? VK_NULL_HANDLE)
     then vk_void (vkFreeMemory (hv_device buf) (memory vb)) else ret tt);;
    (if negb (buffer vb =? VK_NULL_HANDLE)
     then vk_void (vkDestroyBuffer (hv_device buf) (buffer vb)) else ret tt);;
    delete_VulkanBuffer (vk_buf buf);;
    ret {| hv_device := hv_device buf; vk_buf := vk_buf buf; host_addr := 0;
           hv_size := hv_size buf |}
  else ret buf.

Definition GetOrAllocate (device_id size usage mem_type_index : Z) (buffers_ptr : Cache)
    (sync_before_realloc : bool) : M VulkanHostVisibleBuffer :=
  w <- get;;
  (match cache_map buffers_ptr (thread w) !! device_id with
   | None => cache_store buffers_ptr device_id empty_host_visible_buffer
   | Some _ => ret tt
   end);;
  buf <- cache_load buffers_ptr device_id;;
  (if negb (hv_device buf =? 0) && (hv_size buf <? size) then
     (* free previous buffer *)
     (if sync_before_realloc then
        s <- Stream device_id;;
        Synchronize s
      else ret tt);;
     buf' <- DeleteHostVisibleBuffer buf;;
     cache_store buffers_ptr device_id buf'
   else ret tt);;
  vctx <- context device_id;;
  buf <- cache_load buffers_ptr device_id;;
  (if hv_device buf =? 0 then
     cache_store buffers_ptr device_id
       {| hv_device := device vctx; vk_buf := vk_buf buf; host_addr := host_addr buf;
          hv_size := hv_size buf |}
   else ret tt);;
  buf <- cache_load buffers_ptr device_id;;
  (if host_addr buf =? 0 then
     p <- CreateBuffer vctx size usage mem_type_index;;
     cache_store buffers_ptr device_id
       {| hv_device := hv_device buf; vk_buf := p; host_addr := host_addr buf;
          hv_size := hv_size buf |};;
     vb <- deref_VulkanBuffer p;;
     addr <- VULKAN_CALL_create (vkMapMemory (device vctx) (memory vb) 0 size);;
     cache_store buffers_ptr device_id
       {| hv_device := hv_device buf; vk_buf := p; host_addr := addr; hv_size := size |}
   else ret tt);;
  cache_load buffers_ptr device_id.

Definition StagingBuffer (device_id size : Z) : M VulkanHostVisibleBuffer :=
  vctx <- context device_id;;
  let usage := staging_usage in
  GetOrAllocate device_id size usage (staging_mtype_index vctx) staging_buffers false.

Definition AllocateUniformBuffer (device_id size : Z) : M unit :=
  vctx <- context device_id;;
  let prop := Z.lor VK_MEMORY_PROPERTY_HOST_VISIBLE_BIT VK_MEMORY_PROPERTY_HOST_COHERENT_BIT in
  let info := MakeBufferCreateInfo vctx size VK_BUFFER_USAGE_UNIFORM_BUFFER_BIT in
  mem_type_index <- FindMemoryType vctx info prop;;
  _ <- GetOrAllocate device_id size VK_BUFFER_USAGE_UNIFORM_BUFFER_BIT mem_type_index
         uniform_buffers true;;
  ret tt.

Definition GetUniformBuffer (device_id size : Z) : M VulkanHostVisibleBuffer :=
  w <- get;;
  match uniform_buffers_ (thread w) !! device_id with
  | None => fail (CheckFailed "buf")
  | Some buf =>
      ICHECK (size <=? hv_size buf) "buf->size >= size";;
      ret buf
  end.

(** *** The device API: copies *)

Definition transfer_barrier_dstAccessMask : Z :=
  Z.lor (Z.lor (Z.lor VK_ACCESS_TRANSFER_READ_BIT VK_ACCESS_TRANSFER_WRITE_BIT)
               VK_ACCESS_SHADER_READ_BIT) VK_ACCESS_SHADER_WRITE_BIT.

Definition transfer_or_compute_stage : Z :=
  Z.lor VK_PIPELINE_STAGE_TRANSFER_BIT VK_PIPELINE_STAGE_COMPUTE_SHADER_BIT.

(** The closure launched by the device-to-device branch. *)
Definition copy_device_to_device (from from_offset to to_offset size : Z)
    (dev_from dev_to : Device) (state : VulkanStream) : M unit :=
  (* 1: copy *)
  from_buf <- deref_VulkanBuffer from;;
  to_buf <- deref_VulkanBuffer to;;
  vk_void (vkCmdCopyBuffer (cmd_buffer_ state) (buffer from_buf) (buffer to_buf)
             from_offset to_offset size);;
  (* 2: barrier(transfer -> compute|transfer) *)
  ICHECK (device_id dev_from =? device_id dev_to) "Vulkan disallow cross device copy.";;
  vk_void (vkCmdPipelineBarrier (cmd_buffer_ state) VK_PIPELINE_STAGE_TRANSFER_BIT
             transfer_or_compute_stage VK_ACCESS_TRANSFER_WRITE_BIT
             transfer_barrier_dstAccessMask).

Definition CopyDataFromTo (from from_offset to to_offset size : Z) (dev_from dev_to : Device)
    (type_hint : DLDataType) (stream : Z) : M unit :=
  ICHECK (stream =? 0) "stream == nullptr";;
  let from_dev_type := device_type dev_from in
  let to_dev_type := device_type dev_to in
  if (from_dev_type =? kDLVulkan) && (to_dev_type =? kDLVulkan) then
    s <- Stream (device_id dev_from);;
    Launch s (copy_device_to_device from from_offset to to_offset size dev_from dev_to)
  else if (from_dev_type =? kDLVulkan) && (to_dev_type =? kDLCPU) then
    vctx <- context (device_id dev_from);;
    _ <- StagingBuffer (device_id dev_from) size;;
    s <- Stream (device_id dev_from);;
    Launch s (fun state =>
      from_buf <- deref_VulkanBuffer from;;
      temp <- cache_load staging_buffers (device_id dev_from);;
      temp_buf <- deref_VulkanBuffer (vk_buf temp);;
      vk_void (vkCmdCopyBuffer (cmd_buffer_ state) (buffer from_buf) (buffer temp_buf)
                 from_offset 0 size));;
    s <- Stream (device_id dev_from);;
    Synchronize s;;
    temp <- cache_load staging_buffers (device_id dev_from);;
    (if negb (coherent_staging vctx) then
       temp_buf <- deref_VulkanBuffer (vk_buf temp);;
       VULKAN_CALL (vkInvalidateMappedMemoryRanges (device vctx) (memory temp_buf) 0
                      VK_WHOLE_SIZE)
     else ret tt);;
    log (host_memcpy (to + to_offset) (host_addr temp) size)
  else if (from_dev_type =? kDLCPU) && (to_dev_type =? kDLVulkan) then
    vctx <- context (device_id dev_to);;
    temp <- StagingBuffer (device_id dev_to) size;;
    log (host_memcpy (host_addr temp) (from + from_offset) size);;
    (* host side flush if access is not coherent *)
    (if negb (coherent_staging vctx) then
       temp_buf <- deref_VulkanBuffer (vk_buf temp);;
       VULKAN_CALL (vkFlushMappedMemoryRanges (device vctx) (memory temp_buf) 0
                      VK_WHOLE_SIZE)
     else ret tt);;
    s <- Stream (device_id dev_to);;
    Launch s (fun state =>
      (* 0: barrier(host -> transfer) *)
      vk_void (vkCmdPipelineBarrier (cmd_buffer_ state) VK_PIPELINE_STAGE_HOST_BIT
                 VK_PIPELINE_STAGE_TRANSFER_BIT 0 VK_ACCESS_TRANSFER_WRITE_BIT);;
      (* 1: copy *)
      temp_buf <- deref_VulkanBuffer (vk_buf temp);;
      to_buf <- deref_VulkanBuffer to;;
      vk_void (vkCmdCopyBuffer (cmd_buffer_ state) (buffer temp_buf) (buffer to_buf)
                 0 to_offset size));;
    s <- Stream (device_id dev_to);;
    Synchronize s
  else
    fail (CheckFailed "Expect copy from/to Vulkan or between Vulkan").

(** *** The module and its pipeline cache *)

(** Wrap-around of a value stored in a [uint32_t]. *)
Definition u32 (z : Z) : Z := z mod 4294967296.

Definition kVulkanMaxNumDevice : Z := 8.
Definition kVulkanModuleMagic : Z := 40894503. (* 0x02700027 *)
Definition kTVMOpaqueHandle : Z := 3.
Definition sizeof_ArgUnion64 : Z := 8.
Definition sizeof_VkDescriptorBufferInfo : Z := 24.

(** Bit position of the UBO flag in a shader's [flag] word
    ([ShaderMetaDataFlagMask::kUseUBO], vulkan_shader.h). *)
Definition kUseUBO : Z := 0.

Record VulkanShader := {
  flag : Z;
  data : list Z
}.

Record FunctionInfo := {
  name : string;
  arg_types : list DLDataType;
  thread_axis_tags : list string
}.

Record VulkanModuleNode := {
  smap_ : gmap string VulkanShader;
  fmap_ : gmap string FunctionInfo;
  fmt_ : string;
  source_ : string;
  (* std::array<std::unordered_map<..>, kVulkanMaxNumDevice>, by device id *)
  ecache_ : gmap Z (gmap string VulkanPipeline)
}.

Definition VulkanModuleCreate (smap : gmap string VulkanShader)
    (fmap : gmap string FunctionInfo) (source : string) : VulkanModuleNode :=
  {| smap_ := smap; fmap_ := fmap; fmt_ := "vulkan"; source_ := source; ecache_ := ∅ |}.

Definition ecache_lookup (m : VulkanModuleNode) (device_id : Z) (func_name : string)
  : option VulkanPipeline :=
  ecache_ m !! device_id ≫= fun c => c !! func_name.

Definition ecache_store (m : VulkanModuleNode) (device_id : Z) (func_name : string)
    (pe : VulkanPipeline) : VulkanModuleNode :=
  {| smap_ := smap_ m; fmap_ := fmap_ m; fmt_ := fmt_ m; source_ := source_ m;
     ecache_ := <[device_id := <[func_name := pe]> (default ∅ (ecache_ m !! device_id))]>
                  (ecache_ m) |}.

(** The three vectors the [push_arg_info] lambda appends to. *)
Record ArgInfo := {
  arg_binding : list VkDescriptorSetLayoutBinding;
  arg_template : list VkDescriptorUpdateTemplateEntryKHR;
  descriptor_set_pool_sizes : list VkDescriptorPoolSize
}.

(** [std::find_if] on the pool sizes, then either a new entry of count 1 or
    an increment of the entry found. *)
Fixpoint bump_pool_size (sizes : list VkDescriptorPoolSize) (desc_type : VkDescriptorType)
  : list VkDescriptorPoolSize :=
  match sizes with
  | [] => [ {| ps_type := desc_type; ps_descriptorCount := 1 |} ]
  | psize :: rest =>
      if bool_decide (ps_type psize = desc_type)
      then {| ps_type := ps_type psize;
              ps_descriptorCount := u32 (ps_descriptorCount psize + 1) |} :: rest
      else psize :: bump_pool_size rest desc_type
  end.

Definition push_arg_info (a : ArgInfo) (binding : Z) (desc_type : VkDescriptorType) : ArgInfo :=
  {| descriptor_set_pool_sizes := bump_pool_size (descriptor_set_pool_sizes a) desc_type;
     arg_binding := arg_binding a ++
       [ {| bd_binding := binding; bd_descriptorType := desc_type; bd_descriptorCount := 1;
            bd_stageFlags := VK_SHADER_STAGE_COMPUTE_BIT |} ];
     arg_template := arg_template a ++
       [ {| tpl_dstBinding := binding; tpl_dstArrayElement := 0; tpl_descriptorCount := 1;
            tpl_descriptorType := desc_type;
            tpl_offset := u32 (binding * sizeof_VkDescriptorBufferInfo);
            tpl_stride := sizeof_VkDescriptorBufferInfo |} ] |}.

(** The loop over [arg_types]: the state is (vectors, num_pod, num_buffer). *)
Fixpoint scan_arg_types (types : list DLDataType) (a : ArgInfo) (num_pod num_buffer : Z)
  : ArgInfo * Z * Z :=
  match types with
  | [] => (a, num_pod, num_buffer)
  | arg_type :: rest =>
      if code arg_type =? kTVMOpaqueHandle
      then scan_arg_types rest (push_arg_info a num_buffer VK_DESCRIPTOR_TYPE_STORAGE_BUFFER)
             num_pod (u32 (num_buffer + 1))
      else scan_arg_types rest a (u32 (num_pod + 1)) num_buffer
  end.

(** The part of [GetPipeline] after the cache miss.  A field of [pe] that is
    not written keeps the [VK_NULL_HANDLE] of its member initialiser. *)
Definition build_pipeline (m : VulkanModuleNode) (vctx : VulkanContext) (device_id : Z)
    (func_name : string) (num_pack_args : Z) : M VulkanPipeline :=
  (* create shader *)
  sit <- match smap_ m !! func_name with
         | Some sh => ret sh
         | None => fail (CheckFailed "sit != smap_.end()")
         end;;
  let pe_use_ubo := truthy (Z.land (flag sit) (Z.shiftl 1 kUseUBO)) in
  pe_shader <- VULKAN_CALL_create
                 (vkCreateShaderModule (device vctx) (Z.of_nat (length (data sit)) * 4) (data sit));;
  fit <- match fmap_ m !! func_name with
         | Some fi => ret fi
         | None => fail (CheckFailed "fit != fmap_.end()")
         end;;
  let '(a, num_pod, num_buffer) :=
    scan_arg_types (arg_types fit)
      {| arg_binding := []; arg_template := []; descriptor_set_pool_sizes := [] |} 0 0 in
  let nbytes_scalars := num_pod * sizeof_ArgUnion64 in
  a <- (if pe_use_ubo then
          (* Use UBO instead of push constants *)
          let a := push_arg_info a num_buffer VK_DESCRIPTOR_TYPE_UNIFORM_BUFFER in
          AllocateUniformBuffer device_id nbytes_scalars;;
          ret a
        else ret a);;
  let descrip_flags :=
    if UseImmediate vctx
    then Z.lor 0 VK_DESCRIPTOR_SET_LAYOUT_CREATE_PUSH_DESCRIPTOR_BIT_KHR else 0 in
  pe_descriptor_set_layout <-
    VULKAN_CALL_create (vkCreateDescriptorSetLayout (device vctx) descrip_flags (arg_binding a));;
  pool_set <-
    (if negb (UseImmediate vctx) then
       pool <- VULKAN_CALL_create
                 (vkCreateDescriptorPool (device vctx)
                    VK_DESCRIPTOR_POOL_CREATE_FREE_DESCRIPTOR_SET_BIT 1
                    (descriptor_set_pool_sizes a));;
       set <- VULKAN_CALL_create
                (vkAllocateDescriptorSets (device vctx) pool pe_descriptor_set_layout);;
       ret (pool, set)
     else ret (VK_NULL_HANDLE, VK_NULL_HANDLE));;
  let crange := {| pc_stageFlags := VK_SHADER_STAGE_COMPUTE_BIT; pc_offset := 0;
                   pc_size := u32 (sizeof_ArgUnion64 * num_pack_args) |} in
  ranges <-
    (if (0 <? nbytes_scalars) && negb pe_use_ubo then
       ICHECK (pc_size crange <=? Caps.maxPushConstantsSize (Caps.limits (phy_device_prop vctx)))
         "crange.size <= maxPushConstantsSize";;
       ret [crange]
     else ret []);;
  pe_pipeline_layout <-
    VULKAN_CALL_create (vkCreatePipelineLayout (device vctx) pe_descriptor_set_layout ranges);;
  pe_pipeline <-
    VULKAN_CALL_create
      (vkCreateComputePipelines (device vctx) pe_shader func_name pe_pipeline_layout);;
  pe_template <-
    (if UseImmediate vctx then
       VULKAN_CALL_create
         (vkCreateDescriptorUpdateTemplateKHR (device vctx) (arg_template a)
            pe_descriptor_set_layout pe_pipeline_layout)
     else ret VK_NULL_HANDLE);;
  ret {| shader := pe_shader; descriptor_set_layout := pe_descriptor_set_layout;
         descriptor_pool := fst pool_set; descriptor_set := snd pool_set;
         pipeline_layout := pe_pipeline_layout; pipeline := pe_pipeline;
         descriptor_update_template := pe_template; use_ubo := pe_use_ubo |}.

Definition GetPipeline (m : VulkanModuleNode) (device_id : Z) (func_name : string)
    (num_pack_args : Z) : M (VulkanPipeline * VulkanModuleNode) :=
  vctx <- context device_id;;
  match ecache_lookup m device_id func_name with
  | Some cp => ret (cp, m)
  | None =>
      (* Create new pipeline *)
      pe <- build_pipeline m vctx device_id func_name num_pack_args;;
      ret (pe, ecache_store m device_id func_name pe)
  end.

(** *** The launch front-end: [VulkanWrappedFunc] *)

(** The grid dimensions of a [ThreadWorkLoad]. *)
Record ThreadWorkLoad := {
  grid_dim : Z * Z * Z
}.

(** [thread_axis_cfg_] is a [ThreadAxisConfig] (thread_storage_scope.h); all
    that is used of it is its [Extract] method. *)
Record VulkanWrappedFunc := {
  func_name_ : string;
  num_buffer_args_ : nat;
  num_pack_args_ : nat;
  thread_axis_cfg_Extract : list Z -> ThreadWorkLoad;
  (* std::array<std::shared_ptr<VulkanPipeline>, kVulkanMaxNumDevice> *)
  scache_ : gmap Z VulkanPipeline
}.

Definition Init (func_name : string) (num_buffer_args num_pack_args : nat)
    (extract : list Z -> ThreadWorkLoad) : VulkanWrappedFunc :=
  {| func_name_ := func_name; num_buffer_args_ := num_buffer_args;
     num_pack_args_ := num_pack_args; thread_axis_cfg_Extract := extract; scache_ := ∅ |}.

Definition set_scache (f : VulkanWrappedFunc) (device_id : Z) (pe : VulkanPipeline)
  : VulkanWrappedFunc :=
  {| func_name_ := func_name_ f; num_buffer_args_ := num_buffer_args_ f;
     num_pack_args_ := num_pack_args_ f;
     thread_axis_cfg_Extract := thread_axis_cfg_Extract f;
     scache_ := <[device_id := pe]> (scache_ f) |}.

(** [args[i]] read as a [void*]: [TVMArgs::operator[]] checks the index. *)
Definition arg_handle (args : list Z) (i : nat) : M Z :=
  match args !! i with
  | Some v => ret v
  | None => fail (CheckFailed "i < num_args")
  end.

(** The loop filling [descriptor_buffers[i]] for [i < num_buffer_args_]:
    [count] entries starting at index [i]. *)
Fixpoint buffer_infos (args : list Z) (i count : nat) : M (list VkDescriptorBufferInfo) :=
  match count with
  | O => ret []
  | S count' =>
      buf <- arg_handle args i;;
      vb <- deref_VulkanBuffer buf;;
      let binfo := {| bi_buffer := buffer vb; bi_offset := 0; bi_range := VK_WHOLE_SIZE |} in
      rest <- buffer_infos args (S i) count';;
      ret (binfo :: rest)
  end.

(** The vector [descriptor_buffers] as it stands when the launch protocol is
    chosen. *)
Definition assemble_descriptor_buffers (f : VulkanWrappedFunc) (pl : VulkanPipeline)
    (device_id : Z) (args : list Z) : M (list VkDescriptorBufferInfo) :=
  descriptor_buffers <- buffer_infos args 0 (num_buffer_args_ f);;
  let nbytes_scalars := Z.of_nat (num_pack_args_ f) * sizeof_ArgUnion64 in
  if use_ubo pl then
    ubo <- GetUniformBuffer device_id nbytes_scalars;;
    ICHECK (negb (host_addr ubo =? 0)) "The UBO host buffer is not allocated";;
    ubo_buf <- deref_VulkanBuffer (vk_buf ubo);;
    let binfo := {| bi_buffer := buffer ubo_buf; bi_offset := 0; bi_range := VK_WHOLE_SIZE |} in
    ret (descriptor_buffers ++ [binfo])%list
  else ret descriptor_buffers.

Definition shader_rw : Z := Z.lor VK_ACCESS_SHADER_WRITE_BIT VK_ACCESS_SHADER_READ_BIT.

Definition post_dispatch_barrier (state : VulkanStream) : VkCall :=
  vkCmdPipelineBarrier (cmd_buffer_ state) VK_PIPELINE_STAGE_COMPUTE_SHADER_BIT
    transfer_or_compute_stage shader_rw transfer_barrier_dstAccessMask.

(** The scalars [pack_args] points to: slot [i] is [pack_args i]. *)
Definition read_slots (pack_args : nat -> Z) (n : nat) : list Z :=
  map pack_args (seq 0 n).

(** The closure of the immediate path. *)
Definition immediate_kernel (f : VulkanWrappedFunc) (pl : VulkanPipeline)
    (wl : ThreadWorkLoad) (descriptor_buffers : list VkDescriptorBufferInfo)
    (device_id : Z) (pack_args : nat -> Z) (state : VulkanStream) : M unit :=
  let nbytes_scalars := Z.of_nat (num_pack_args_ f) * sizeof_ArgUnion64 in
  vk_void (vkCmdBindPipeline (cmd_buffer_ state) (pipeline pl));;
  ICHECK (negb (descriptor_update_template pl =? VK_NULL_HANDLE))
    "pipeline->descriptor_update_template != VK_NULL_HANDLE";;
  vk_void (vkCmdPushDescriptorSetWithTemplateKHR (cmd_buffer_ state)
             (descriptor_update_template pl) (pipeline_layout pl)
             descriptor_buffers);;
  (if use_ubo pl then
     ubo <- GetUniformBuffer device_id nbytes_scalars;;
     log (host_memcpy_scalars (host_addr ubo) (read_slots pack_args (num_pack_args_ f))
            nbytes_scalars)
   else if (0 <? Z.of_nat (num_pack_args_ f)) then
     vk_void (vkCmdPushConstants (cmd_buffer_ state) (pipeline_layout pl)
                VK_SHADER_STAGE_COMPUTE_BIT 0
                (u32 (Z.of_nat (num_pack_args_ f) * sizeof_ArgUnion64))
                (read_slots pack_args (num_pack_args_ f)))
   else ret tt);;
  vk_void (vkCmdDispatch (cmd_buffer_ state) (grid_dim wl).1.1 (grid_dim wl).1.2
             (grid_dim wl).2);;
  vk_void (post_dispatch_barrier state).

(** The one-shot initializer of the deferred path. *)
Definition deferred_initializer (vctx : VulkanContext) (pl : VulkanPipeline)
    (descriptor_buffers : list VkDescriptorBufferInfo) : M unit :=
  let n := Z.of_nat (length descriptor_buffers) in
  let write_descriptor_sets :=
    imap (fun i binfo =>
            {| wr_dstSet := descriptor_set pl; wr_dstBinding := u32 (Z.of_nat i);
               wr_descriptorCount := 1;
               wr_descriptorType :=
                 if use_ubo pl && (Z.of_nat i =? n - 1)
                 then VK_DESCRIPTOR_TYPE_UNIFORM_BUFFER (* the last binding is for UBO *)
                 else VK_DESCRIPTOR_TYPE_STORAGE_BUFFER;
               wr_pBufferInfo := binfo |}) descriptor_buffers in
  vk_void (vkUpdateDescriptorSets (device vctx) write_descriptor_sets).

(** The kernel closure of the deferred path; it owns [pack_args_storage]. *)
Definition deferred_kernel (f : VulkanWrappedFunc) (pl : VulkanPipeline)
    (wl : ThreadWorkLoad) (pack_args_storage : list Z) (nbytes_scalars device_id : Z)
    (state : VulkanStream) : M unit :=
  vk_void (vkCmdBindPipeline (cmd_buffer_ state) (pipeline pl));;
  vk_void (vkCmdBindDescriptorSets (cmd_buffer_ state) (pipeline_layout pl)
             (descriptor_set pl));;
  (if use_ubo pl then
     ubo <- GetUniformBuffer device_id nbytes_scalars;;
     log (host_memcpy_scalars (host_addr ubo) pack_args_storage nbytes_scalars)
   else if (0 <? Z.of_nat (num_pack_args_ f)) then
     vk_void (vkCmdPushConstants (cmd_buffer_ state) (pipeline_layout pl)
                VK_SHADER_STAGE_COMPUTE_BIT 0
                (u32 (Z.of_nat (length pack_args_storage) * sizeof_ArgUnion64))
                pack_args_storage)
   else ret tt);;
  vk_void (vkCmdDispatch (cmd_buffer_ state) (grid_dim wl).1.1 (grid_dim wl).1.2
             (grid_dim wl).2);;
  vk_void (post_dispatch_barrier state).

(** [VulkanWrappedFunc::operator()].  The callee mutates its own [scache_]
    and the module's [ecache_]; both are returned. *)
Definition VulkanWrappedFunc_call (f : VulkanWrappedFunc) (m : VulkanModuleNode)
    (args : list Z) (pack_args : nat -> Z) : M (VulkanWrappedFunc * VulkanModuleNode) :=
  w <- get;;
  let device_id := te_device_id (thread w) in
  ICHECK (device_id <? kVulkanMaxNumDevice) "device_id < kVulkanMaxNumDevice";;
  vctx <- context device_id;;
  cached <- match scache_ f !! device_id with
            | Some pl => ret (pl, f, m)
            | None =>
                r <- GetPipeline m device_id (func_name_ f) (Z.of_nat (num_pack_args_ f));;
                ret (fst r, set_scache f device_id (fst r), snd r)
            end;;
  let '(pl, f, m) := cached in
  let wl := thread_axis_cfg_Extract f args in
  descriptor_buffers <- assemble_descriptor_buffers f pl device_id args;;
  let nbytes_scalars := Z.of_nat (num_pack_args_ f) * sizeof_ArgUnion64 in
  if UseImmediate vctx then
    s <- Stream device_id;;
    Launch s (immediate_kernel f pl wl descriptor_buffers device_id pack_args);;
    ret (f, m)
  else
    (* Otherwise, the more expensive deferred path. *)
    let pack_args_storage := read_slots pack_args (num_pack_args_ f) in
    let deferred_token :=
      {| descriptor_set_ := descriptor_set pl;
         buffers_ := map bi_buffer descriptor_buffers |} in
    s <- Stream device_id;;
    LaunchDeferred s (deferred_initializer vctx pl descriptor_buffers)
      (deferred_kernel f pl wl pack_args_storage nbytes_scalars device_id)
      deferred_token;;
    ret (f, m).

End Rt.

(* ===================================================================== *)
(** ** The constructor [VulkanDeviceAPI::VulkanDeviceAPI], per device     *)
(* ===================================================================== *)

Module Setup.
Import Rt.

(** [GetComputeQueueFamilies]: compute-only families first, then the
    families that have compute and graphics. *)
Fixpoint queue_families_where (p : Z -> bool) (queue_props : list Z) (i : Z) : list Z :=
  match queue_props with
  | [] => []
  | queueFlags :: rest =>
      if p queueFlags then i :: queue_families_where p rest (i + 1)
      else queue_families_where p rest (i + 1)
  end.

Definition GetComputeQueueFamilies (phy_dev : DeviceModel) : list Z :=
  let queue_props := dm_queueFlags phy_dev in
  (queue_families_where
     (fun queueFlags => negb (Z.land VK_QUEUE_COMPUTE_BIT queueFlags =? 0)
                        && (Z.land VK_QUEUE_GRAPHICS_BIT queueFlags =? 0)) queue_props 0
   ++ queue_families_where
     (fun queueFlags => negb (Z.land VK_QUEUE_COMPUTE_BIT queueFlags =? 0)
                        && negb (Z.land VK_QUEUE_GRAPHICS_BIT queueFlags =? 0)) queue_props 0)%list.

(** [prop.memoryHeaps[ty.heapIndex].size].  Vulkan guarantees
    [heapIndex < memoryHeapCount]; an index outside the list reads 0. *)
Definition heap_size_of (prop : VkPhysicalDeviceMemoryProperties) (ty : VkMemoryType) : Z :=
  default 0 (memoryHeaps prop !! heapIndex ty).

(** State of the staging loop: [win_rank], [ctx.staging_mtype_index],
    [ctx.coherent_staging]. *)
Record StagingChoice := {
  st_win_rank : Z;
  st_index : Z;
  st_coherent : bool
}.

Fixpoint staging_loop (prop : VkPhysicalDeviceMemoryProperties) (req_staging : Z)
    (types : list VkMemoryType) (k : Z) (acc : StagingChoice) : StagingChoice :=
  match types with
  | [] => acc
  | ty :: rest =>
      let heap_size := heap_size_of prop ty in
      let acc' :=
        (* host visible *)
        if negb (truthy (Z.land (propertyFlags ty) VK_MEMORY_PROPERTY_HOST_VISIBLE_BIT)) then acc
        (* match copy requirment *)
        else if negb (truthy (Z.land req_staging (Z.shiftl 1 k))) then acc
        else if heap_size <? 1024 then acc
        else
          let rank := 0 + Z.land (propertyFlags ty) VK_MEMORY_PROPERTY_HOST_CACHED_BIT in
          if st_win_rank acc <? rank then
            {| st_win_rank := rank; st_index := k;
               st_coherent :=
                 truthy (Z.land (propertyFlags ty) VK_MEMORY_PROPERTY_HOST_COHERENT_BIT) |}
          else acc in
      staging_loop prop req_staging rest (k + 1) acc'
  end.

(** State of the compute loop: [win_rank], [ctx.compute_mtype_index]. *)
Record ComputeChoice := {
  cp_win_rank : Z;
  cp_index : Z
}.

(** The second loop.  It receives both requirement masks that are in scope
    at that point of the constructor; the test it makes is the one the
    source makes. *)
Fixpoint compute_loop (prop : VkPhysicalDeviceMemoryProperties) (req_staging req_compute : Z)
    (types : list VkMemoryType) (k : Z) (acc : ComputeChoice) : ComputeChoice :=
  match types with
  | [] => acc
  | ty :: rest =>
      let heap_size := heap_size_of prop ty in
      let acc' :=
        if negb (truthy (Z.land (propertyFlags ty) VK_MEMORY_PROPERTY_DEVICE_LOCAL_BIT)) then acc
        (* match copy requirment *)
        else if negb (truthy (Z.land req_staging (Z.shiftl 1 k))) then acc
        else if heap_size <? 1024 then acc
        else
          (* prefer not host visible *)
          let rank :=
            0 + (if truthy (Z.land (propertyFlags ty) VK_MEMORY_PROPERTY_HOST_VISIBLE_BIT)
                 then 0 else 1) in
          if cp_win_rank acc <? rank then {| cp_win_rank := rank; cp_index := k |}
          else acc in
      compute_loop prop req_staging req_compute rest (k + 1) acc'
  end.

(** The memory-type indices chosen for a device. *)
Record MemoryTypeChoice := {
  chosen_staging_mtype_index : Z;
  chosen_coherent_staging : bool;
  chosen_compute_mtype_index : Z
}.

(** From "get staging requirement" to the second [ICHECK_GE]: the two probe
    buffers give [req_staging] and [req_compute]; [init] holds the values the
    three context fields have before the loops. *)
Definition select_memory_types (phy_dev : DeviceModel) (init : MemoryTypeChoice)
  : result MemoryTypeChoice :=
  let req_staging := dm_memoryTypeBits phy_dev staging_usage in
  let req_compute := dm_memoryTypeBits phy_dev storage_usage in
  let prop := dm_memory phy_dev in
  let s := staging_loop prop req_staging (memoryTypes prop) 0
             {| st_win_rank := -1; st_index := chosen_staging_mtype_index init;
                st_coherent := chosen_coherent_staging init |} in
  if st_win_rank s <? 0 then Fail (CheckFailed "Cannot find suitable staging memory on device.")
  else
    let c := compute_loop prop req_staging req_compute (memoryTypes prop) 0
               {| cp_win_rank := -1; cp_index := chosen_compute_mtype_index init |} in
    if cp_win_rank c <? 0 then Fail (CheckFailed "Cannot find suitable local memory on device.")
    else Ok {| chosen_staging_mtype_index := st_index s;
               chosen_coherent_staging := st_coherent s;
               chosen_compute_mtype_index := cp_index c |}.

Definition zero_choice : MemoryTypeChoice :=
  {| chosen_staging_mtype_index := 0; chosen_coherent_staging := false;
     chosen_compute_mtype_index := 0 |}.

(** The body of the loop over physical devices, from [GetDeviceDescription]
    on, for a device whose logical device and queue have been created:
    [None] when the device is skipped for want of a compute queue. *)
Definition init_context (env : Caps.Env) (instance_extensions device_extensions : list string)
    (phy_dev : DeviceModel) (device_handle queue_handle : Z)
  : option (result VulkanContext) :=
  match GetComputeQueueFamilies phy_dev with
  | [] => None
  | queue_family_index :: _ =>
      let target :=
        Caps.GetDeviceDescription env (dm_caps phy_dev) instance_extensions
          device_extensions in
      Some
        match select_memory_types phy_dev zero_choice with
        | Fail e => Fail e
        | Ok choice =>
            match Caps.GetAttrBool target "supports_push_descriptor",
                  Caps.GetAttrBool target "supports_dedicated_allocation" with
            | Some push, Some dedicated =>
                Ok {| phy_device := phy_dev;
                      phy_device_prop := Caps.pd_properties (dm_caps phy_dev);
                      target := target;
                      device := device_handle;
                      queue := queue_handle;
                      queue_family_index := queue_family_index;
                      staging_mtype_index := chosen_staging_mtype_index choice;
                      coherent_staging := chosen_coherent_staging choice;
                      compute_mtype_index := chosen_compute_mtype_index choice;
                      descriptor_template_khr_functions := push;
                      get_buffer_memory_requirements_2_functions := dedicated |}
            | _, _ => Fail (CheckFailed "GetAttr<Bool>(..).value()")
            end
        end
  end.

End Setup.

(* ===================================================================== *)
(** ** The module container: [SaveToBinary], [VulkanModuleLoadBinary]     *)
(* ===================================================================== *)

Module Ser.
Import Rt.

(** [dmlc::Stream] is an interface; what is written to it ends up as a
    sequence of cells (bytes, for the streams the runtime uses).  A type
    that can be written has an encoder; [stream_Read s x] is [stream->Read(&x)]: it
    returns the success flag, the new content of [x] and the rest of the
    stream. *)
Class Serializable (Cell T : Type) := {
  stream_Write : T -> list Cell;
  stream_Read : list Cell -> T -> bool * T * list Cell
}.

(** What a stream codec owes its users: reading at the position where a
    value was written gives that value back and stops after it. *)
Class Lawful (Cell T : Type) `{Serializable Cell T} : Prop :=
  read_write : forall (x d : T) (rest : list Cell),
    stream_Read (stream_Write x ++ rest)%list d = (true, x, rest).

Section Container.
Context {Cell : Type}.
Context `{Serializable Cell string}.
Context `{Serializable Cell (gmap string FunctionInfo)}.
Context `{Serializable Cell (gmap string VulkanShader)}.

Definition SaveToBinary (m : VulkanModuleNode) (stream : list Cell) : list Cell :=
  let stream := (stream ++ stream_Write (fmt_ m))%list in
  let stream := (stream ++ stream_Write (fmap_ m))%list in
  let stream := (stream ++ stream_Write (smap_ m))%list in
  stream.

(** The results of the three [Read]s are not looked at. *)
Definition VulkanModuleLoadBinary (stream : list Cell) : VulkanModuleNode * list Cell :=
  let smap : gmap string VulkanShader := ∅ in
  let fmap : gmap string FunctionInfo := ∅ in
  let fmt := "" in
  let '(_, fmt, stream) := stream_Read stream fmt in
  let '(_, fmap, stream) := stream_Read stream fmap in
  let '(_, smap, stream) := stream_Read stream smap in
  (VulkanModuleCreate smap fmap "", stream).

End Container.

(** A concrete stream whose cells are whole records, used to run the
    container code. *)
Inductive Chunk :=
| RString (s : string)
| RFunctionInfoMap (m : gmap string FunctionInfo)
| RShaderMap (m : gmap string VulkanShader).

#[global] Instance string_records : Serializable Chunk string := {
  stream_Write s := [RString s];
  stream_Read stream d := match stream with
                   | RString s :: rest => (true, s, rest)
                   | _ => (false, d, stream)
                   end
}.

#[global] Instance fmap_records : Serializable Chunk (gmap string FunctionInfo) := {
  stream_Write m := [RFunctionInfoMap m];
  stream_Read stream d := match stream with
                   | RFunctionInfoMap m :: rest => (true, m, rest)
                   | _ => (false, d, stream)
                   end
}.

#[global] Instance smap_records : Serializable Chunk (gmap string VulkanShader) := {
  stream_Write m := [RShaderMap m];
  stream_Read stream d := match stream with
                   | RShaderMap m :: rest => (true, m, rest)
                   | _ => (false, d, stream)
                   end
}.

End Ser.

(* ===================================================================== *)
(** ** Sample devices and processes                                       *)
(* ===================================================================== *)

Module Sample.
Import Rt.

Definition limits : Caps.VkPhysicalDeviceLimits :=
  {| Caps.maxComputeWorkGroupInvocations := 1024;
     Caps.maxComputeWorkGroupSize := (1024, 1024, 64);
     Caps.maxPushConstantsSize := 128;
     Caps.maxUniformBufferRange := 65536;
     Caps.maxStorageBufferRange := 4294967295;
     Caps.maxPerStageDescriptorStorageBuffers := 16;
     Caps.maxComputeSharedMemorySize := 32768 |}.

Definition caps : Caps.PhysicalDevice :=
  {| Caps.pd_properties :=
       {| Caps.apiVersion := VK_API_VERSION_1_1; Caps.driverVersion := 1;
          Caps.deviceName := "gpu0"; Caps.limits := limits |};
     Caps.pd_conformanceVersion := {| Caps.major := 1; Caps.minor := 1 |};
     Caps.pd_subgroup :=
       {| Caps.subgroupSize := 32; Caps.supportedStages := 32;
          Caps.supportedOperations := 255 |};
     Caps.pd_features :=
       {| Caps.shaderFloat64 := true; Caps.shaderInt16 := true; Caps.shaderInt64 := true |};
     Caps.pd_storageBuffer8BitAccess := true;
     Caps.pd_storageBuffer16BitAccess := true;
     Caps.pd_shaderFloat16 := true;
     Caps.pd_shaderInt8 := true |}.

Definition no_dedicated (size usage : Z) : DedicatedRequirements :=
  {| requiresDedicatedAllocation := false; prefersDedicatedAllocation := false;
     memoryRequirements_size := size |}.

(** A discrete GPU: two device-local memory types and a host-visible,
    coherent one; every buffer may live in every type. *)
Definition gpu : DeviceModel :=
  {| dm_caps := caps;
     dm_memory :=
       {| memoryTypes :=
            [ {| propertyFlags := 1; heapIndex := 0 |};
              {| propertyFlags := 1; heapIndex := 0 |};
              {| propertyFlags := 6; heapIndex := 1 |} ];
          memoryHeaps := [4294967296; 4294967296] |};
     dm_memoryTypeBits := fun _ => 7;
     dm_requirements2 := no_dedicated;
     dm_queueFlags := [3; 2] |}.

(** The same GPU with a driver that does not place storage buffers in memory
    type 0: the mask reported for the compute probe buffer (usage
    TRANSFER_SRC | TRANSFER_DST | STORAGE_BUFFER) lacks bit 0. *)
Definition gpu_storage_restricted : DeviceModel :=
  {| dm_caps := caps;
     dm_memory := dm_memory gpu;
     dm_memoryTypeBits := fun usage => if usage =? storage_usage then 6 else 7;
     dm_requirements2 := no_dedicated;
     dm_queueFlags := [3; 2] |}.

Definition push_extensions : list string :=
  ["VK_KHR_push_descriptor"; "VK_KHR_descriptor_update_template"].

(** The context the constructor builds for [gpu]. *)
Definition gpu_context (env : Caps.Env) (device_extensions : list string)
    (device_handle queue_handle : Z) : VulkanContext :=
  {| phy_device := gpu;
     phy_device_prop := Caps.pd_properties caps;
     target := Caps.GetDeviceDescription env caps [] device_extensions;
     device := device_handle;
     queue := queue_handle;
     queue_family_index := 1;
     staging_mtype_index := 2;
     coherent_staging := true;
     compute_mtype_index := 0;
     descriptor_template_khr_functions :=
       Caps.supports_push_descriptor env [] device_extensions;
     get_buffer_memory_requirements_2_functions :=
       Caps.supports_dedicated_allocation env [] device_extensions |}.

Definition vulkan0 : Device := {| device_type := kDLVulkan; device_id := 0 |}.
Definition vulkan1 : Device := {| device_type := kDLVulkan; device_id := 1 |}.
Definition float32 : DLDataType := {| code := 2; bits := 32; lanes := 1 |}.

(** A process with one GPU right after initialisation, the driver being
    cooperative. *)
Definition world (env : Caps.Env) (device_extensions : list string) : World :=
  {| context_ := [gpu_context env device_extensions 101 102];
     heap := ∅;
     next_ptr := 1;
     thread := {| te_device_id := 0; streams_ := ∅; staging_buffers_ := ∅;
                  uniform_buffers_ := ∅ |};
     drv := {| next_handle := 1000; script := []; calls := [] |} |}.

Definition immediate_world : World := world ∅ push_extensions.
Definition deferred_world : World := world ∅ [].

(** The same process later on: two tensors are allocated, and the thread
    has an 8-byte staging buffer and an 8-byte uniform buffer for device 0. *)
Definition busy_world (env : Caps.Env) (device_extensions : list string) : World :=
  {| context_ := [gpu_context env device_extensions 101 102];
     heap := {[ 1 := {| buffer := 10; memory := 11 |};
                2 := {| buffer := 20; memory := 21 |};
                3 := {| buffer := 30; memory := 31 |};
                4 := {| buffer := 40; memory := 41 |} ]};
     next_ptr := 5;
     thread :=
       {| te_device_id := 0; streams_ := ∅;
          staging_buffers_ :=
            {[ 0 := {| hv_device := 101; vk_buf := 3; host_addr := 32; hv_size := 8 |} ]};
          uniform_buffers_ :=
            {[ 0 := {| hv_device := 101; vk_buf := 4; host_addr := 42; hv_size := 8 |} ]} |};
     drv := {| next_handle := 1000; script := []; calls := [] |} |}.

(** A module with one kernel of two buffers and one scalar. *)
Definition sample_module (source : string) : Rt.VulkanModuleNode :=
  Rt.VulkanModuleCreate
    {[ "copy_kernel" := {| Rt.flag := 0; Rt.data := [119734787; 66560] |} ]}
    {[ "copy_kernel" :=
         {| Rt.name := "copy_kernel";
            Rt.arg_types :=
              [ {| Rt.code := 3; Rt.bits := 64; Rt.lanes := 1 |};
                {| Rt.code := 3; Rt.bits := 64; Rt.lanes := 1 |};
                {| Rt.code := 0; Rt.bits := 32; Rt.lanes := 1 |} ];
            Rt.thread_axis_tags := ["blockIdx.x"; "threadIdx.x"] |} ]}
    source.

(** The wrapped function of [copy_kernel]: two buffers, one scalar. *)
Definition copy_kernel_func : Rt.VulkanWrappedFunc :=
  Rt.Init "copy_kernel" 2 1 (fun _ => {| Rt.grid_dim := (1, 1, 1) |}).

End Sample.

(* ===================================================================== *)
(** ** Observations on runs: what the properties are stated with          *)
(* ===================================================================== *)

Module Obs.
Import Rt.

(** What makes memory type [k] a candidate of the staging loop. *)
Definition staging_candidate (prop : Rt.VkPhysicalDeviceMemoryProperties) (req : Z)
    (k : Z) (ty : Rt.VkMemoryType) : Prop :=
  truthy (Z.land (Rt.propertyFlags ty) VK_MEMORY_PROPERTY_HOST_VISIBLE_BIT) = true /\
  truthy (Z.land req (Z.shiftl 1 k)) = true /\
  1024 <= Setup.heap_size_of prop ty.

(** What makes memory type [k] a candidate of the compute loop; [req] is the
    mask the loop tests. *)
Definition compute_candidate (prop : Rt.VkPhysicalDeviceMemoryProperties) (req : Z)
    (k : Z) (ty : Rt.VkMemoryType) : Prop :=
  truthy (Z.land (Rt.propertyFlags ty) VK_MEMORY_PROPERTY_DEVICE_LOCAL_BIT) = true /\
  truthy (Z.land req (Z.shiftl 1 k)) = true /\
  1024 <= Setup.heap_size_of prop ty.

(** The calls [CreateBuffer] makes when the driver cooperates; [h] is the
    first handle the driver hands out. *)
Definition CreateBuffer_calls (vctx : VulkanContext) (nbytes usage mem_type_index h : Z)
  : list VkCall :=
  let req := dm_requirements2 (phy_device vctx) nbytes usage in
  let dedicated :=
    get_buffer_memory_requirements_2_functions vctx
    && (requiresDedicatedAllocation req || prefersDedicatedAllocation req) in
  ([vkCreateBuffer (device vctx) nbytes usage h]
   ++ (if get_buffer_memory_requirements_2_functions vctx
       then [vkGetBufferMemoryRequirements2KHR (device vctx) h] else [])
   ++ [vkAllocateMemory (device vctx)
         (if dedicated then memoryRequirements_size req else nbytes) mem_type_index
         (if dedicated then Some h else None) (h + 1);
       vkBindBufferMemory (device vctx) h (h + 1) 0])%list.

(** Every stream of the thread entry is filed under its own device id. *)
Definition streams_filed (w : World) : Prop :=
  forall id st, streams_ (thread w) !! id = Some st -> stream_device_id st = id.

Definition nbytes_allocated (nbytes : Z) : Z := if nbytes =? 0 then 1 else nbytes.

Definition stream_creation_calls (vctx : VulkanContext) (h : Z) : list VkCall :=
  [vkCreateCommandPool (device vctx) (queue_family_index vctx) h;
   vkAllocateCommandBuffers (device vctx) h (h + 1);
   vkCreateFence (device vctx) (h + 2)].

Definition synchronize_calls (vctx : VulkanContext) (st : VulkanStream) : list VkCall :=
  [StreamSynchronize (stream_device_id st);
   vkEndCommandBuffer (cmd_buffer_ st);
   vkQueueSubmit (queue vctx) (cmd_buffer_ st) (fence_ st);
   vkWaitForFences (device vctx) (fence_ st);
   vkResetCommandBuffer (cmd_buffer_ st)].

Definition cache_set (c : Cache) (device_id : Z) (b : VulkanHostVisibleBuffer) (w : World)
  : World :=
  match c with
  | staging_buffers => set_thread (set_staging_buffers <[device_id := b]>) w
  | uniform_buffers => set_thread (set_uniform_buffers <[device_id := b]>) w
  end.

(** The calls [DeleteHostVisibleBuffer] makes for a mapped buffer. *)
Definition release_calls (buf : VulkanHostVisibleBuffer) (vb : VulkanBuffer) : list VkCall :=
  [vkUnmapMemory (hv_device buf) (memory vb);
   vkFreeMemory (hv_device buf) (memory vb);
   vkDestroyBuffer (hv_device buf) (buffer vb)].

(** A cache entry as a successful [GetOrAllocate] leaves it. *)
Definition mapped_entry (w : World) (buf : VulkanHostVisibleBuffer) (vb : VulkanBuffer) : Prop :=
  hv_device buf <> 0 /\ vk_buf buf <> 0 /\ host_addr buf <> 0 /\
  heap w !! vk_buf buf = Some vb /\
  buffer vb <> VK_NULL_HANDLE /\ memory vb <> VK_NULL_HANDLE.

(** The allocation that ends [GetOrAllocate], from the [context] lookup on. *)
Definition GetOrAllocate_tail (device_id size usage mem_type_index : Z) (buffers_ptr : Cache)
  : M VulkanHostVisibleBuffer :=
  vctx <- context device_id;;
  buf <- cache_load buffers_ptr device_id;;
  (if hv_device buf =? 0 then
     cache_store buffers_ptr device_id
       {| hv_device := device vctx; vk_buf := vk_buf buf; host_addr := host_addr buf;
          hv_size := hv_size buf |}
   else ret tt);;
  buf <- cache_load buffers_ptr device_id;;
  (if host_addr buf =? 0 then
     p <- CreateBuffer vctx size usage mem_type_index;;
     cache_store buffers_ptr device_id
       {| hv_device := hv_device buf; vk_buf := p; host_addr := host_addr buf;
          hv_size := hv_size buf |};;
     vb <- deref_VulkanBuffer p;;
     addr <- VULKAN_CALL_create (vkMapMemory (device vctx) (memory vb) 0 size);;
     cache_store buffers_ptr device_id
       {| hv_device := hv_device buf; vk_buf := p; host_addr := addr; hv_size := size |}
   else ret tt);;
  cache_load buffers_ptr device_id.

(** The devices on whose stream [Synchronize] was invoked, in order. *)
Definition synchronizations (l : list Rt.VkCall) : list Z :=
  omap (fun c => match c with Rt.StreamSynchronize id => Some id | _ => None end) l.

Definition is_release (c : Rt.VkCall) : bool :=
  match c with
  | Rt.vkUnmapMemory _ _ | Rt.vkFreeMemory _ _ | Rt.vkDestroyBuffer _ _ => true
  | _ => false
  end.

(** The calls that give a buffer or its memory back to the driver. *)
Definition releases (l : list Rt.VkCall) : list Rt.VkCall := List.filter is_release l.

(** A computation that fails in every world. *)
Definition fails {A} (c : M A) : Prop := forall w, exists e w', c w = (Fail e, w').

Definition copy_barrier_calls (cmd src dst from_offset to_offset size : Z) : list VkCall :=
  [vkCmdCopyBuffer cmd src dst from_offset to_offset size;
   vkCmdPipelineBarrier cmd VK_PIPELINE_STAGE_TRANSFER_BIT
     (Z.lor VK_PIPELINE_STAGE_TRANSFER_BIT VK_PIPELINE_STAGE_COMPUTE_SHADER_BIT)
     VK_ACCESS_TRANSFER_WRITE_BIT
     (Z.lor (Z.lor (Z.lor VK_ACCESS_TRANSFER_READ_BIT VK_ACCESS_TRANSFER_WRITE_BIT)
                   VK_ACCESS_SHADER_READ_BIT) VK_ACCESS_SHADER_WRITE_BIT)].

(** What precedes the recorded commands: the lazy creation of the stream and
    the lazy start of recording. *)
Definition is_stream_setup (c : VkCall) : bool :=
  match c with
  | vkCreateCommandPool _ _ _ | vkAllocateCommandBuffers _ _ _ | vkCreateFence _ _
  | vkBeginCommandBuffer _ => true
  | _ => false
  end.

(** The launch protocol a pipeline was built for, read off its handles. *)
Definition pipeline_matches_protocol (vctx : Rt.VulkanContext) (pe : Rt.VulkanPipeline) : Prop :=
  (Rt.descriptor_update_template pe <> VK_NULL_HANDLE <-> Rt.UseImmediate vctx = true) /\
  (Rt.descriptor_pool pe <> VK_NULL_HANDLE <-> Rt.UseImmediate vctx = false) /\
  (Rt.descriptor_set pe <> VK_NULL_HANDLE <-> Rt.UseImmediate vctx = false).

(** Whatever the outcome, [c] only appends calls that satisfy [P]. *)
Definition emits_only {A} (P : VkCall -> Prop) (c : M A) : Prop :=
  forall w r w', c w = (r, w') ->
    exists new, calls (drv w') = (calls (drv w) ++ new)%list /\ Forall P new.

(** The calls that hand kernel arguments to the driver: descriptors and
    push constants. *)
Definition is_argument_call (c : Rt.VkCall) : bool :=
  match c with
  | Rt.vkCmdPushConstants _ _ _ _ _ _
  | Rt.vkCmdPushDescriptorSetWithTemplateKHR _ _ _ _
  | Rt.vkUpdateDescriptorSets _ _ => true
  | _ => false
  end.

Definition is_synchronize (c : Rt.VkCall) : bool :=
  match c with Rt.StreamSynchronize _ => true | _ => false end.

(** The push-constants call of a launch, if there is one. *)
Definition push_constants_call (f : VulkanWrappedFunc) (pl : VulkanPipeline)
    (state : VulkanStream) (pack_args : nat -> Z) : list VkCall :=
  if use_ubo pl then []
  else if (0 <? Z.of_nat (num_pack_args_ f)) then
    [vkCmdPushConstants (cmd_buffer_ state) (pipeline_layout pl) VK_SHADER_STAGE_COMPUTE_BIT 0
       (Z.of_nat (num_pack_args_ f) * 8) (read_slots pack_args (num_pack_args_ f))]
  else [].

(** Runs that add no argument call to the log. *)
Definition silent {A} (c : M A) : Prop :=
  emits_only (fun x => is_argument_call x = false) c.

(** The descriptor write of the deferred path: none when the token was
    already initialised, else one with a write per assembled info. *)
Definition descriptor_update (vctx : VulkanContext) (infos : list VkDescriptorBufferInfo)
    (init : list VkCall) : Prop :=
  init = [] \/
  exists writes,
    init = [vkUpdateDescriptorSets (device vctx) writes] /\
    map wr_pBufferInfo writes = infos.

Definition is_push_constants (c : Rt.VkCall) : bool :=
  match c with Rt.vkCmdPushConstants _ _ _ _ _ _ => true | _ => false end.

(** The outcome of a sample call, as far as the claim goes. *)
Definition call_outcome
    (r : Rt.result (Rt.VulkanWrappedFunc * Rt.VulkanModuleNode) * Rt.World) : Prop :=
  match r with
  | (Rt.Ok (f', _), w') =>
      exists pl (infos : list Rt.VkDescriptorBufferInfo) st,
        Rt.scache_ f' !! 0 = Some pl /\
        length infos = (2 + if Rt.use_ubo pl then 1 else 0)%nat /\
        List.filter is_push_constants (Rt.calls (Rt.drv w'))
        = List.filter is_push_constants
            (push_constants_call Sample.copy_kernel_func pl st (fun _ => 1024))
  | _ => False
  end.

End Obs.
Import Obs.

(* ===================================================================== *)
(** ** Initialisation helpers, the rest of the device API, observations    *)
(* ===================================================================== *)

Module Boot.
Import Rt.

(** [VkExtensionProperties], as far as it is read. *)
Record VkExtensionProperties := {
  extensionName : string;
  specVersion : Z
}.

(** The first loop of [find_enabled_extensions]: the [std::set] of the
    names listed with a [specVersion] above 0. *)
Fixpoint collect_available (ext_prop : list VkExtensionProperties)
    (available_extensions : gset string) : gset string :=
  match ext_prop with
  | [] => available_extensions
  | prop :: rest =>
      collect_available rest
        (if 0 <? specVersion prop
         then {[extensionName prop]} ∪ available_extensions
         else available_extensions)
  end.

(** The loop over the required extensions. *)
Fixpoint push_required (available_extensions : gset string)
    (required_extensions enabled_extensions : list string) : result (list string) :=
  match required_extensions with
  | [] => Ok enabled_extensions
  | ext :: rest =>
      if bool_decide (ext ∈ available_extensions)
      then push_required available_extensions rest (enabled_extensions ++ [ext])
      else Fail (CheckFailed "available_extensions.count(ext)")
  end.

(** The loop over the optional extensions. *)
Fixpoint push_optional (available_extensions : gset string)
    (optional_extensions enabled_extensions : list string) : list string :=
  match optional_extensions with
  | [] => enabled_extensions
  | ext :: rest =>
      push_optional available_extensions rest
        (if bool_decide (ext ∈ available_extensions)
         then enabled_extensions ++ [ext] else enabled_extensions)
  end.

Definition find_enabled_extensions (ext_prop : list VkExtensionProperties)
    (required_extensions optional_extensions : list string) : result (list string) :=
  let available_extensions := collect_available ext_prop ∅ in
  match push_required available_extensions required_extensions [] with
  | Fail e => Fail e
  | Ok enabled_extensions =>
      Ok (push_optional available_extensions optional_extensions enabled_extensions)
  end.


(** The [layers] lambda of the constructor, after the two enumeration
    calls: the loop over the layers the driver lists. *)
Fixpoint push_validation_layers (inst_layer_prop : list string) (l : list string)
  : list string :=
  match inst_layer_prop with
  | [] => l
  | layerName :: rest =>
      let l := if String.eqb layerName "VK_LAYER_LUNARG_standard_validation"
               then (l ++ ["VK_LAYER_LUNARG_standard_validation"])%list else l in
      let l := if String.eqb layerName "VK_LAYER_LUNARG_parameter_validation"
               then (l ++ ["VK_LAYER_LUNARG_parameter_validation"])%list else l in
      let l := if String.eqb layerName "VK_LAYER_KHRONOS_validation"
               then (l ++ ["VK_LAYER_KHRONOS_validation"])%list else l in
      push_validation_layers rest l
  end.

Definition layers (env : Caps.Env) (inst_layer_prop : list string) : list string :=
  let l := [] in
  let enable := Caps.getenv env "TVM_VULKAN_ENABLE_VALIDATION_LAYERS" in
  let validation_enabled := Caps.set_and_nonempty enable in
  if validation_enabled then push_validation_layers inst_layer_prop l else l.

End Boot.

Module Api.
Import Rt.

(** *** The stream handles of the device API *)

Definition CreateStream (dev : Device) : M Z := ret 0.

Definition FreeStream (dev : Device) (stream : Z) : M unit :=
  ICHECK (stream =? 0) "stream == nullptr".

Definition SyncStreamFromTo (dev : Device) (event_src event_dst : Z) : M unit :=
  ICHECK (event_src =? 0) "event_src == nullptr";;
  ICHECK (event_dst =? 0) "event_dst == nullptr".

Definition SetStream (dev : Device) (stream : Z) : M unit :=
  ICHECK (stream =? 0) "stream == nullptr".

(** [SetDevice]: of the stored [Device] the runtime reads the id. *)
Definition SetDevice (dev : Device) : M unit :=
  modify (set_thread (fun t =>
    {| te_device_id := device_id dev; streams_ := streams_ t;
       staging_buffers_ := staging_buffers_ t; uniform_buffers_ := uniform_buffers_ t |})).

Definition GenerateTarget (device_id : Z) : M Caps.Target :=
  vctx <- context device_id;;
  ret (target vctx).

(** *** [GetAttr] *)

(** The kinds the [switch] of [GetAttr] lists. *)
Inductive DeviceAttrKind :=
| kExist
| kMaxThreadsPerBlock
| kWarpSize
| kMaxSharedMemoryPerBlock
| kComputeVersion
| kDeviceName
| kMaxClockRate
| kMultiProcessorCount
| kMaxThreadDimensions
| kMaxRegistersPerBlock
| kGcnArch
| kApiVersion
| kDriverVersion.

(** What [*rv] holds: an [int], a [std::string], or an object reference,
    which is null for an [Optional] without value. *)
Inductive TVMRetValue :=
| RInt (v : Z)
| RStr (s : string)
| RObjectRef (o : option Caps.ObjectRef).

(** [Optional<T>::value()]. *)
Definition value {A} (o : option A) : M A :=
  match o with
  | Some a => ret a
  | None => fail (CheckFailed "Optional::value()")
  end.

Definition GetAttrString (t : Caps.Target) (name : string) : option string :=
  match t !! name with
  | Some (Caps.OString s) => Some s
  | _ => None
  end.

(** [os << n] for a number, in decimal. *)
Definition decimal (n : Z) : string := NilZero.string_of_int (Z.to_int n).

(** [os << VK_VERSION_MAJOR(value) << "." << VK_VERSION_MINOR(value) << "."
    << VK_VERSION_PATCH(value)]; the macros convert to [uint32_t] first. *)
Definition version_string (value : Z) : string :=
  decimal (VK_VERSION_MAJOR (u32 value)) ++ "." ++ decimal (VK_VERSION_MINOR (u32 value))
  ++ "." ++ decimal (VK_VERSION_PATCH (u32 value)).

(** [GetAttr]; [rv] is the content of [*rv] on entry, the result its
    content on return.  [VK_HEADER_VERSION] is the version of the Vulkan
    headers the runtime was built with. *)
Definition GetAttr (VK_HEADER_VERSION : Z) (dev : Device) (kind : DeviceAttrKind)
    (rv : TVMRetValue) : M TVMRetValue :=
  w <- get;;
  let index := device_id dev in
  let in_range := (0 <=? index) && (index <? Z.of_nat (length (context_ w))) in
  match kind with
  | kExist => ret (RInt (if in_range then 1 else 0))
  | _ =>
      ICHECK in_range "Invalid device id";;
      vctx <- context index;;
      let target := target vctx in
      match kind with
      | kMaxThreadsPerBlock =>
          v <- value (Caps.GetAttrInteger target "max_num_threads");;
          ret (RObjectRef (Some (Caps.OInteger v)))
      | kMaxSharedMemoryPerBlock =>
          ret (RObjectRef (option_map Caps.OInteger
                             (Caps.GetAttrInteger target "max_shared_memory_per_block")))
      | kWarpSize =>
          v <- value (Caps.GetAttrInteger target "thread_warp_size");;
          ret (RObjectRef (Some (Caps.OInteger v)))
      | kComputeVersion =>
          value <- value (Caps.GetAttrInteger target "vulkan_api_version");;
          ret (RStr (version_string value))
      | kDeviceName =>
          v <- value (GetAttrString target "device_name");;
          ret (RObjectRef (Some (Caps.OString v)))
      | kMaxClockRate => ret rv
      | kMultiProcessorCount => ret rv
      | kExist => ret rv
      | kMaxThreadDimensions =>
          x <- value (Caps.GetAttrInteger target "max_block_size_x");;
          y <- value (Caps.GetAttrInteger target "max_block_size_y");;
          z <- value (Caps.GetAttrInteger target "max_block_size_z");;
          ret (RStr ("[" ++ decimal x ++ ", " ++ decimal y ++ ", " ++ decimal z ++ "]"))
      | kMaxRegistersPerBlock => ret rv
      | kGcnArch => ret rv
      | kApiVersion => ret (RInt VK_HEADER_VERSION)
      | kDriverVersion =>
          value <- value (Caps.GetAttrInteger target "driver_version");;
          ret (RStr (version_string value))
      end
  end.

End Api.

Module Trace.
Import Rt.

(** An extension name the driver lists with a non-zero [specVersion]. *)
Definition listed (ext_prop : list Boot.VkExtensionProperties) (ext : string) : bool :=
  existsb (fun prop => String.eqb (Boot.extensionName prop) ext && (0 <? Boot.specVersion prop))
    ext_prop.

(** Memory type [n] fits a request: the buffer may live in it and it has all
    the requested property flags. *)
Definition fits (types : list Rt.VkMemoryType) (type_bits req_prop : Z) (n : nat) : Prop :=
  exists ty, types !! n = Some ty /\ Z.testbit type_bits (Z.of_nat n) = true /\
             Z.land (Rt.propertyFlags ty) req_prop = req_prop.

(** The layout binding and the update-template entry [push_arg_info] appends
    for binding [i]. *)
Definition binding_of (desc_type : VkDescriptorType) (i : nat) : VkDescriptorSetLayoutBinding :=
  {| bd_binding := Z.of_nat i; bd_descriptorType := desc_type; bd_descriptorCount := 1;
     bd_stageFlags := VK_SHADER_STAGE_COMPUTE_BIT |}.

Definition template_entry_of (desc_type : VkDescriptorType) (i : nat)
  : VkDescriptorUpdateTemplateEntryKHR :=
  {| tpl_dstBinding := Z.of_nat i; tpl_dstArrayElement := 0; tpl_descriptorCount := 1;
     tpl_descriptorType := desc_type; tpl_offset := 24 * Z.of_nat i; tpl_stride := 24 |}.

(** The pool sizes after [n] storage buffers. *)
Definition storage_pool_sizes (n : nat) : list VkDescriptorPoolSize :=
  match n with
  | O => []
  | S _ => [ {| ps_type := VK_DESCRIPTOR_TYPE_STORAGE_BUFFER; ps_descriptorCount := Z.of_nat n |} ]
  end.

Definition is_handle (arg_type : DLDataType) : bool := code arg_type =? kTVMOpaqueHandle.

Definition is_validation_layer (layerName : string) : bool :=
  String.eqb layerName "VK_LAYER_LUNARG_standard_validation"
  || String.eqb layerName "VK_LAYER_LUNARG_parameter_validation"
  || String.eqb layerName "VK_LAYER_KHRONOS_validation".

(** What [CreateBuffer] may ask of the driver for [nbytes] bytes of usage
    [usage]: the dedicated-requirements query only through the function
    table, and an allocation that is dedicated, of the size the driver
    reported, exactly when the table is there and the driver requires or
    prefers it. *)
Definition allocation_as_required (vctx : VulkanContext) (nbytes usage : Z) (c : VkCall)
  : Prop :=
  match c with
  | vkGetBufferMemoryRequirements2KHR _ _ =>
      get_buffer_memory_requirements_2_functions vctx = true
  | vkAllocateMemory _ allocationSize _ dedicated _ =>
      let req := dm_requirements2 (phy_device vctx) nbytes usage in
      if get_buffer_memory_requirements_2_functions vctx
         && (requiresDedicatedAllocation req || prefersDedicatedAllocation req)
      then allocationSize = memoryRequirements_size req /\ is_Some dedicated
      else allocationSize = nbytes /\ dedicated = None
  | _ => True
  end.

Definition valid_device (w : World) (id : Z) : Prop :=
  0 <= id < Z.of_nat (length (context_ w)).

(** Whatever the outcome, [c] leaves the component [f] of the world as it
    was. *)
Definition keeps {A X} (f : World -> X) (c : M A) : Prop :=
  forall w r w', c w = (r, w') -> f w' = f w.

(** A cache entry that is either unmapped or has its device set. *)
Definition entry_coherent (o : option VulkanHostVisibleBuffer) : Prop :=
  forall b, o = Some b -> host_addr b <> 0 -> hv_device b <> 0 /\ vk_buf b <> 0.



(** A run that fails the check [what] and leaves the world [w] as it was. *)
Definition rejected {A} (what : string) (w : World) (r : result A * World) : Prop :=
  r = (Fail (CheckFailed what), w).

(** The events of a transfer between host and device memory. *)
Definition is_transfer_event (c : VkCall) : bool :=
  match c with
  | vkCmdCopyBuffer _ _ _ _ _ _ | vkCmdPipelineBarrier _ _ _ _ _
  | vkInvalidateMappedMemoryRanges _ _ _ _ | vkFlushMappedMemoryRanges _ _ _ _
  | host_memcpy _ _ _ | StreamSynchronize _ => true
  | _ => false
  end.

Definition transfer_events (l : list VkCall) : list VkCall := List.filter is_transfer_event l.

(** What a transfer through host memory needs: the host-side copy, the
    synchronisation of the stream and the handling of the staging memory. *)
Definition is_host_side (c : VkCall) : bool :=
  match c with
  | host_memcpy _ _ _ | StreamSynchronize _
  | vkInvalidateMappedMemoryRanges _ _ _ _ | vkFlushMappedMemoryRanges _ _ _ _
  | vkMapMemory _ _ _ _ _ | vkUnmapMemory _ _ | vkQueueSubmit _ _ _ | vkWaitForFences _ _ => true
  | _ => false
  end.

(** The creation of the Vulkan objects of a pipeline. *)
Definition is_pipeline_creation (c : VkCall) : bool :=
  match c with
  | vkCreateShaderModule _ _ _ _ | vkCreateDescriptorSetLayout _ _ _ _
  | vkCreateDescriptorPool _ _ _ _ _ | vkAllocateDescriptorSets _ _ _ _
  | vkCreatePipelineLayout _ _ _ _ | vkCreateComputePipelines _ _ _ _ _
  | vkCreateDescriptorUpdateTemplateKHR _ _ _ _ _ => true
  | _ => false
  end.

(** The kernel dispatch. *)
Definition is_dispatch (c : VkCall) : bool :=
  match c with vkCmdDispatch _ _ _ _ => true | _ => false end.


(** What building a pipeline may cost: the creation of its objects, the
    allocation and mapping of a uniform buffer, and a synchronisation of the
    stream. *)
Definition is_build_work (c : VkCall) : bool :=
  is_pipeline_creation c || is_synchronize c ||
  match c with
  | vkCreateBuffer _ _ _ _ | vkAllocateMemory _ _ _ _ _ | vkMapMemory _ _ _ _ _ => true
  | _ => false
  end.

End Trace.

(* ===================================================================== *)
(** * Properties                                                          *)
(* ===================================================================== *)

(** ** Capability discovery *)

Lemma has_extension_In (instance_extensions device_extensions : list string) (q : string) :
  Caps.has_extension instance_extensions device_extensions q = true <->
  In q (device_extensions ++ instance_extensions)%list.
Proof.
  unfold Caps.has_extension.
  rewrite orb_true_iff, in_app_iff, !existsb_exists.
  split.
  - intros [[x [Hx He]] | [x [Hx He]]]; apply String.eqb_eq in He; subst; auto.
  - intros [Hq | Hq]; [left | right]; exists q; split; auto; apply String.eqb_refl.
Qed.

Lemma set_and_nonempty_true (v : option string) :
  Caps.set_and_nonempty v = true <-> exists s, v = Some s /\ s <> "".
Proof.
  destruct v as [s|]; simpl.
  - rewrite negb_true_iff. split.
    + intros Hs. exists s. split; [reflexivity|]. intros ->. discriminate.
    + intros [s' [[= <-] Hne]]. apply String.eqb_neq. exact Hne.
  - split; [discriminate|]. intros [s [Hs _]]. discriminate.
Qed.

(** C6.  [max_spirv_version] follows the table of the specification: 1.5
    (0x10500) when the derived API version is at least 1.2, else 1.4
    (0x10400) when VK_KHR_spirv_1_4 is present, else 1.3 (0x10300) when the
    API version is at least 1.1, else 1.0 (0x10000); and it is monotone
    non-decreasing in the API version and in the presence of the extension. *)
Theorem max_spirv_version_table_monotone :
  (forall dev instance_extensions device_extensions,
     let api := Caps.vulkan_api_version dev instance_extensions device_extensions in
     let spirv_1_4 :=
       Caps.has_extension instance_extensions device_extensions "VK_KHR_spirv_1_4" in
     let v := Caps.max_spirv_version dev instance_extensions device_extensions in
     (VK_MAKE_VERSION 1 2 0 <= api -> v = 66816) /\
     (api < VK_MAKE_VERSION 1 2 0 -> spirv_1_4 = true -> v = 66560) /\
     (api < VK_MAKE_VERSION 1 2 0 -> spirv_1_4 = false ->
      VK_MAKE_VERSION 1 1 0 <= api -> v = 66304) /\
     (api < VK_MAKE_VERSION 1 1 0 -> spirv_1_4 = false -> v = 65536)) /\
  (forall api1 api2 ext1 ext2,
     api1 <= api2 -> (ext1 = true -> ext2 = true) ->
     Caps.derive_max_spirv_version api1 ext1 <= Caps.derive_max_spirv_version api2 ext2).
Proof.
  split.
  - intros dev ie de api spirv_1_4 v.
    unfold v, Caps.max_spirv_version, Caps.derive_max_spirv_version.
    fold api. fold spirv_1_4.
    change (VK_MAKE_VERSION 1 2 0) with VK_API_VERSION_1_2.
    change (VK_MAKE_VERSION 1 1 0) with VK_API_VERSION_1_1.
    unfold VK_API_VERSION_1_2, VK_API_VERSION_1_1.
    repeat split; intros;
      repeat match goal with
             | |- context [?a <=? ?b] => destruct (Z.leb_spec a b); try lia
             | |- context [if spirv_1_4 then _ else _] => destruct spirv_1_4; try discriminate
             end; reflexivity.
  - intros api1 api2 ext1 ext2 Hapi Hext.
    unfold Caps.derive_max_spirv_version, VK_API_VERSION_1_2, VK_API_VERSION_1_1.
    destruct ext1, ext2;
      try (specialize (Hext eq_refl); discriminate);
      repeat match goal with
             | |- context [?a <=? ?b] => destruct (Z.leb_spec a b)
             end; lia.
Qed.

Lemma max_spirv_version_monotone_witness :
  Caps.derive_max_spirv_version (VK_MAKE_VERSION 1 1 0) false
  <= Caps.derive_max_spirv_version (VK_MAKE_VERSION 1 2 0) true.
Proof.
  apply (proj2 max_spirv_version_table_monotone).
  - vm_compute. discriminate.
  - discriminate.
Defined.

Lemma supports_push_descriptor_iff (env : Caps.Env)
    (instance_extensions device_extensions : list string) :
  Caps.supports_push_descriptor env instance_extensions device_extensions = true <->
  In "VK_KHR_push_descriptor" (device_extensions ++ instance_extensions)%list /\
  In "VK_KHR_descriptor_update_template" (device_extensions ++ instance_extensions)%list /\
  ~ (exists v, env !! "TVM_VULKAN_DISABLE_PUSH_DESCRIPTOR" = Some v /\ v <> "").
Proof.
  unfold Caps.supports_push_descriptor, Caps.getenv.
  rewrite <- !has_extension_In, <- set_and_nonempty_true.
  destruct (Caps.set_and_nonempty _); rewrite ?andb_true_iff; intuition congruence.
Qed.

Lemma target_supports_push_descriptor (env : Caps.Env) (dev : Caps.PhysicalDevice)
    (instance_extensions device_extensions : list string) :
  Caps.GetAttrBool
    (Caps.GetDeviceDescription env dev instance_extensions device_extensions)
    "supports_push_descriptor"
  = Some (Caps.supports_push_descriptor env instance_extensions device_extensions).
Proof.
  unfold Caps.GetAttrBool, Caps.GetDeviceDescription, Caps.config.
  cbn [list_to_map foldr fst snd uncurry].
  repeat (rewrite lookup_insert_ne by (intros ?; discriminate)).
  rewrite lookup_insert_eq. reflexivity.
Qed.

Lemma target_supports_dedicated_allocation (env : Caps.Env) (dev : Caps.PhysicalDevice)
    (instance_extensions device_extensions : list string) :
  Caps.GetAttrBool
    (Caps.GetDeviceDescription env dev instance_extensions device_extensions)
    "supports_dedicated_allocation"
  = Some (Caps.supports_dedicated_allocation env instance_extensions device_extensions).
Proof.
  unfold Caps.GetAttrBool, Caps.GetDeviceDescription, Caps.config.
  cbn [list_to_map foldr fst snd uncurry].
  repeat (rewrite lookup_insert_ne by (intros ?; discriminate)).
  rewrite lookup_insert_eq. reflexivity.
Qed.

(** Every context the constructor builds uses the immediate protocol exactly
    when its target reports [supports_push_descriptor]. *)
Lemma init_context_UseImmediate env instance_extensions device_extensions phy_dev d q ctx :
  Setup.init_context env instance_extensions device_extensions phy_dev d q = Some (Rt.Ok ctx) ->
  Rt.UseImmediate ctx
  = Caps.supports_push_descriptor env instance_extensions device_extensions.
Proof.
  unfold Setup.init_context.
  destruct (Setup.GetComputeQueueFamilies phy_dev) as [|qf ?]; [discriminate|].
  destruct (Setup.select_memory_types phy_dev Setup.zero_choice) as [choice|e]; [|discriminate].
  rewrite target_supports_push_descriptor, target_supports_dedicated_allocation.
  intros [= <-]. reflexivity.
Qed.

(** C3, as amended.  [supports_push_descriptor] is true exactly when both
    VK_KHR_push_descriptor and VK_KHR_descriptor_update_template are among
    the enabled extensions and the environment variable
    TVM_VULKAN_DISABLE_PUSH_DESCRIPTOR is not set to a non-empty value; every
    device context built at initialization has [UseImmediate()] equal to it,
    so TVM_VULKAN_DISABLE_PUSH_DESCRIPTOR=1 forces [UseImmediate()] false
    even when both extensions are present. *)
Theorem push_descriptor_gate :
  forall env instance_extensions device_extensions phy_dev d q ctx,
    Setup.init_context env instance_extensions device_extensions phy_dev d q
      = Some (Rt.Ok ctx) ->
    (Caps.supports_push_descriptor env instance_extensions device_extensions = true <->
     In "VK_KHR_push_descriptor" (device_extensions ++ instance_extensions)%list /\
     In "VK_KHR_descriptor_update_template" (device_extensions ++ instance_extensions)%list /\
     ~ (exists v, env !! "TVM_VULKAN_DISABLE_PUSH_DESCRIPTOR" = Some v /\ v <> "")) /\
    Caps.GetAttrBool (Rt.target ctx) "supports_push_descriptor"
      = Some (Caps.supports_push_descriptor env instance_extensions device_extensions) /\
    Rt.UseImmediate ctx
      = Caps.supports_push_descriptor env instance_extensions device_extensions /\
    (env !! "TVM_VULKAN_DISABLE_PUSH_DESCRIPTOR" = Some "1" -> Rt.UseImmediate ctx = false).
Proof.
  intros env ie de phy_dev d q ctx Hctx.
  pose proof (init_context_UseImmediate _ _ _ _ _ _ _ Hctx) as Himm.
  split; [apply supports_push_descriptor_iff|].
  split.
  - unfold Setup.init_context in Hctx.
    destruct (Setup.GetComputeQueueFamilies phy_dev) as [|qf ?]; [discriminate|].
    destruct (Setup.select_memory_types phy_dev Setup.zero_choice); [|discriminate].
    rewrite target_supports_push_descriptor, target_supports_dedicated_allocation in Hctx.
    injection Hctx as <-. cbn [Rt.target]. apply target_supports_push_descriptor.
  - split; [exact Himm|].
    intros Hset. rewrite Himm.
    destruct (Caps.supports_push_descriptor env ie de) eqn:E; [|reflexivity].
    apply supports_push_descriptor_iff in E. destruct E as (_ & _ & Hno).
    exfalso. apply Hno. exists "1". split; [exact Hset | discriminate].
Qed.

Lemma init_sample_gpu (env : Caps.Env) (device_extensions : list string) (d q : Z) :
  Setup.init_context env [] device_extensions Sample.gpu d q
  = Some (Rt.Ok (Sample.gpu_context env device_extensions d q)).
Proof.
  unfold Setup.init_context.
  change (Setup.GetComputeQueueFamilies Sample.gpu) with [1; 0].
  change (Setup.select_memory_types Sample.gpu Setup.zero_choice)
    with (Rt.Ok {| Setup.chosen_staging_mtype_index := 2;
                   Setup.chosen_coherent_staging := true;
                   Setup.chosen_compute_mtype_index := 0 |}).
  cbv iota beta.
  change (Rt.dm_caps Sample.gpu) with Sample.caps.
  rewrite target_supports_push_descriptor, target_supports_dedicated_allocation.
  reflexivity.
Qed.

(** C3, as stated, fails: with both extensions enabled and
    VULKAN_DISABLE_PUSH_DESCRIPTOR=1 in the environment, the target still
    reports [supports_push_descriptor] and the context built for the sample
    GPU uses the immediate protocol. *)
Lemma push_descriptor_untouched_by_unprefixed_variable :
  let env : Caps.Env := {[ "VULKAN_DISABLE_PUSH_DESCRIPTOR" := "1" ]} in
  (exists v, env !! "VULKAN_DISABLE_PUSH_DESCRIPTOR" = Some v /\ v <> "") /\
  In "VK_KHR_push_descriptor" Sample.push_extensions /\
  In "VK_KHR_descriptor_update_template" Sample.push_extensions /\
  Caps.supports_push_descriptor env [] Sample.push_extensions = true /\
  exists ctx,
    Setup.init_context env [] Sample.push_extensions Sample.gpu 1 2 = Some (Rt.Ok ctx) /\
    Rt.UseImmediate ctx = true.
Proof.
  intros env.
  split; [exists "1"; split; [reflexivity | discriminate]|].
  split; [left; reflexivity|].
  split; [right; left; reflexivity|].
  split; [reflexivity|].
  exists (Sample.gpu_context env Sample.push_extensions 1 2).
  split; [apply init_sample_gpu | reflexivity].
Qed.

Lemma push_descriptor_gate_witness :
  let env : Caps.Env := {[ "TVM_VULKAN_DISABLE_PUSH_DESCRIPTOR" := "1" ]} in
  Setup.init_context env [] Sample.push_extensions Sample.gpu 1 2
    = Some (Rt.Ok (Sample.gpu_context env Sample.push_extensions 1 2)) /\
  env !! "TVM_VULKAN_DISABLE_PUSH_DESCRIPTOR" = Some "1" /\
  Rt.UseImmediate (Sample.gpu_context env Sample.push_extensions 1 2) = false.
Proof.
  intros env.
  split; [apply init_sample_gpu|].
  split; [reflexivity|].
  exact (proj2 (proj2 (proj2
    (push_descriptor_gate env [] Sample.push_extensions Sample.gpu 1 2 _
       (init_sample_gpu env Sample.push_extensions 1 2)))) eq_refl).
Defined.

(** ** Memory-type selection *)

Lemma land_shiftl_1_testbit (a k : Z) :
  0 <= k -> truthy (Z.land a (Z.shiftl 1 k)) = Z.testbit a k.
Proof.
  intros Hk. unfold truthy.
  destruct (Z.testbit a k) eqn:Hbit.
  - apply negb_true_iff, Z.eqb_neq. intros H0.
    assert (Hb : Z.testbit (Z.land a (Z.shiftl 1 k)) k = true).
    { rewrite Z.land_spec, Hbit, Z.shiftl_spec by lia.
      replace (k - k) with 0 by lia. reflexivity. }
    rewrite H0, Z.bits_0 in Hb. discriminate.
  - apply negb_false_iff, Z.eqb_eq. apply Z.bits_inj'. intros n Hn.
    rewrite Z.land_spec, Z.bits_0, Z.shiftl_spec by lia.
    destruct (Z.eq_dec n k) as [->|Hne].
    + rewrite Hbit. reflexivity.
    + replace (Z.testbit 1 (n - k)) with false; [apply andb_false_r|].
      symmetry. destruct (Z.ltb_spec n k).
      * apply Z.testbit_neg_r. lia.
      * change 1 with (2 ^ 0). apply Z.pow2_bits_false. lia.
Qed.

Lemma staging_loop_picks prop req types : forall k acc,
  let r := Setup.staging_loop prop req types k acc in
  r = acc \/
  exists (i : nat) ty,
    types !! i = Some ty /\ Setup.st_index r = k + Z.of_nat i /\
    staging_candidate prop req (k + Z.of_nat i) ty /\
    Setup.st_coherent r
    = truthy (Z.land (Rt.propertyFlags ty) VK_MEMORY_PROPERTY_HOST_COHERENT_BIT).
Proof.
  induction types as [|ty rest IH]; intros k acc; [left; reflexivity|].
  cbn [Setup.staging_loop]. cbv zeta.
  set (acc' := if negb _ then acc else _).
  assert (Hacc' : acc' = acc \/
                  (staging_candidate prop req k ty /\ Setup.st_index acc' = k /\
                   Setup.st_coherent acc'
                   = truthy (Z.land (Rt.propertyFlags ty)
                               VK_MEMORY_PROPERTY_HOST_COHERENT_BIT))).
  { subst acc'. unfold staging_candidate.
    destruct (truthy (Z.land (Rt.propertyFlags ty) _)) eqn:E1; cbn [negb]; [|auto].
    destruct (truthy (Z.land req _)) eqn:E2; cbn [negb]; [|auto].
    destruct (Z.ltb_spec (Setup.heap_size_of prop ty) 1024); [auto|].
    destruct (_ <? _); [right|left; reflexivity].
    cbn. repeat split; auto. }
  destruct (IH (k + 1) acc') as [Hr | (i & ty' & Hi & Hidx & Hc & Hco)].
  - rewrite Hr. destruct Hacc' as [-> | (Hc & Hidx & Hco)]; [left; reflexivity|].
    right. exists O, ty. rewrite Z.add_0_r. cbn. auto.
  - right. exists (S i), ty'.
    replace (k + Z.of_nat (S i)) with (k + 1 + Z.of_nat i) by lia. auto.
Qed.

Lemma compute_loop_picks prop req_staging req_compute types : forall k acc,
  let r := Setup.compute_loop prop req_staging req_compute types k acc in
  r = acc \/
  exists (i : nat) ty,
    types !! i = Some ty /\ Setup.cp_index r = k + Z.of_nat i /\
    compute_candidate prop req_staging (k + Z.of_nat i) ty.
Proof.
  induction types as [|ty rest IH]; intros k acc; [left; reflexivity|].
  cbn [Setup.compute_loop]. cbv zeta.
  set (acc' := if negb _ then acc else _).
  assert (Hacc' : acc' = acc \/
                  (compute_candidate prop req_staging k ty /\ Setup.cp_index acc' = k)).
  { subst acc'. unfold compute_candidate.
    destruct (truthy (Z.land (Rt.propertyFlags ty) VK_MEMORY_PROPERTY_DEVICE_LOCAL_BIT))
      eqn:E1; cbn [negb]; [|auto].
    destruct (truthy (Z.land req_staging _)) eqn:E2; cbn [negb]; [|auto].
    destruct (Z.ltb_spec (Setup.heap_size_of prop ty) 1024); [auto|].
    destruct (_ <? _); [right|left; reflexivity].
    cbn. repeat split; auto. }
  destruct (IH (k + 1) acc') as [Hr | (i & ty' & Hi & Hidx & Hc)].
  - rewrite Hr. destruct Hacc' as [-> | (Hc & Hidx)]; [left; reflexivity|].
    right. exists O, ty. rewrite Z.add_0_r. cbn. auto.
  - right. exists (S i), ty'.
    replace (k + Z.of_nat (S i)) with (k + 1 + Z.of_nat i) by lia. auto.
Qed.

(** The part of C1 that the constructor does establish: the staging index
    names a host-visible type allowed by the staging probe buffer's
    [memoryTypeBits]; the compute index names a device-local type allowed by
    the mask the second loop tests, which is again the staging buffer's. *)
Lemma select_memory_types_sound (phy_dev : Rt.DeviceModel) init choice :
  Setup.select_memory_types phy_dev init = Rt.Ok choice ->
  let types := Rt.memoryTypes (Rt.dm_memory phy_dev) in
  (exists (i : nat) ty,
     Setup.chosen_staging_mtype_index choice = Z.of_nat i /\ types !! i = Some ty /\
     Z.testbit (Rt.propertyFlags ty) 1 = true /\
     Z.testbit (Rt.dm_memoryTypeBits phy_dev Rt.staging_usage) (Z.of_nat i) = true) /\
  (exists (i : nat) ty,
     Setup.chosen_compute_mtype_index choice = Z.of_nat i /\ types !! i = Some ty /\
     Z.testbit (Rt.propertyFlags ty) 0 = true /\
     Z.testbit (Rt.dm_memoryTypeBits phy_dev Rt.staging_usage) (Z.of_nat i) = true).
Proof.
  unfold Setup.select_memory_types. cbv zeta.
  set (prop := Rt.dm_memory phy_dev).
  set (rs := Rt.dm_memoryTypeBits phy_dev Rt.staging_usage).
  set (rc := Rt.dm_memoryTypeBits phy_dev Rt.storage_usage).
  pose proof (staging_loop_picks prop rs (Rt.memoryTypes prop) 0
    {| Setup.st_win_rank := -1; Setup.st_index := Setup.chosen_staging_mtype_index init;
       Setup.st_coherent := Setup.chosen_coherent_staging init |}) as Hs.
  pose proof (compute_loop_picks prop rs rc (Rt.memoryTypes prop) 0
    {| Setup.cp_win_rank := -1; Setup.cp_index := Setup.chosen_compute_mtype_index init |})
    as Hc.
  cbv zeta in Hs, Hc.
  set (s := Setup.staging_loop _ _ _ _ _) in *.
  set (c := Setup.compute_loop _ _ _ _ _ _) in *.
  destruct (Z.ltb_spec (Setup.st_win_rank s) 0) as [|Hs0]; [discriminate|].
  destruct (Z.ltb_spec (Setup.cp_win_rank c) 0) as [|Hc0]; [discriminate|].
  intros [= <-]. cbn [Setup.chosen_staging_mtype_index Setup.chosen_compute_mtype_index].
  split.
  - destruct Hs as [Hs | (i & ty & Hi & Hidx & (Hv & Hb & _) & _)].
    + rewrite Hs in Hs0. cbn in Hs0. lia.
    + exists i, ty. rewrite Hidx. repeat split; auto.
      * change 1 with (0 + 1) at 1.
        rewrite <- (land_shiftl_1_testbit _ 1) by lia. exact Hv.
      * rewrite <- land_shiftl_1_testbit by lia. exact Hb.
  - destruct Hc as [Hc | (i & ty & Hi & Hidx & (Hv & Hb & _))].
    + rewrite Hc in Hc0. cbn in Hc0. lia.
    + exists i, ty. rewrite Hidx. repeat split; auto.
      * rewrite <- (land_shiftl_1_testbit _ 0) by lia. exact Hv.
      * rewrite <- land_shiftl_1_testbit by lia. exact Hb.
Qed.

(** C1.  The claim asks that [compute_mtype_index] satisfy the compute
    (storage) buffer's [memoryTypeBits].  On the sample GPU whose driver
    keeps storage buffers out of memory type 0, the constructor succeeds and
    selects memory type 0 for compute, a type the compute probe buffer's
    mask excludes: the second loop tests [req_staging], and [req_compute] is
    never read. *)
Theorem compute_mtype_index_outside_compute_mask :
  Setup.select_memory_types Sample.gpu_storage_restricted Setup.zero_choice
  = Rt.Ok {| Setup.chosen_staging_mtype_index := 2;
             Setup.chosen_coherent_staging := true;
             Setup.chosen_compute_mtype_index := 0 |} /\
  Z.testbit (Rt.dm_memoryTypeBits Sample.gpu_storage_restricted Rt.storage_usage) 0 = false /\
  Z.testbit (Rt.dm_memoryTypeBits Sample.gpu_storage_restricted Rt.storage_usage) 1 = true.
Proof. repeat split; reflexivity. Qed.

(** ** Reasoning about runs of the runtime *)

Section Runs.
Import Rt.

Lemma bind_Ok {A B} (c : M A) (k : A -> M B) w a w1 :
  c w = (Ok a, w1) -> bind c k w = k a w1.
Proof. unfold bind. intros ->. reflexivity. Qed.

Lemma bind_Fail {A B} (c : M A) (k : A -> M B) w e w1 :
  c w = (Fail e, w1) -> bind c k w = (Fail e, w1).
Proof. unfold bind. intros ->. reflexivity. Qed.

Lemma bind_Ok_inv {A B} (c : M A) (k : A -> M B) w b w' :
  bind c k w = (Ok b, w') -> exists a w1, c w = (Ok a, w1) /\ k a w1 = (Ok b, w').
Proof.
  unfold bind. destruct (c w) as [[a|e] w1]; [eauto | discriminate].
Qed.

Lemma log_run c w : log c w = (Ok tt, emit c w).
Proof. reflexivity. Qed.

Lemma vk_void_run c w : vk_void c w = (Ok tt, emit c w).
Proof. reflexivity. Qed.

Lemma VULKAN_CALL_run c w : cooperative w -> VULKAN_CALL c w = (Ok tt, emit c w).
Proof.
  unfold cooperative, VULKAN_CALL, bind, next_result. intros ->. reflexivity.
Qed.

Lemma VULKAN_CALL_create_run mk w :
  cooperative w -> VULKAN_CALL_create mk w = (Ok (handle w), emit (mk (handle w)) (bump w)).
Proof.
  unfold cooperative, VULKAN_CALL_create, bind, next_result. intros ->. reflexivity.
Qed.

Lemma cooperative_emit c w : cooperative (emit c w) <-> cooperative w.
Proof. reflexivity. Qed.

Lemma cooperative_bump w : cooperative (bump w) <-> cooperative w.
Proof. reflexivity. Qed.

(** A handle written by a successful create call is never null. *)
Lemma VULKAN_CALL_create_nonnull mk w h w' :
  VULKAN_CALL_create mk w = (Ok h, w') -> h <> VK_NULL_HANDLE.
Proof.
  unfold VULKAN_CALL_create, bind, next_result.
  destruct (script (drv w)) as [|[|code] rest]; cbn; intros [= <- _]; discriminate.
Qed.

Lemma context_run device_id w vctx :
  0 <= device_id -> context_ w !! Z.to_nat device_id = Some vctx ->
  context device_id w = (Ok vctx, w).
Proof.
  intros Hid Hctx. unfold context, bind, get.
  destruct (Z.leb_spec 0 device_id); [|lia]. rewrite Hctx. reflexivity.
Qed.

Lemma context_Ok_inv device_id w vctx w' :
  context device_id w = (Ok vctx, w') ->
  w' = w /\ 0 <= device_id /\ context_ w !! Z.to_nat device_id = Some vctx.
Proof.
  unfold context, bind, get.
  destruct (Z.leb_spec 0 device_id); [|discriminate].
  destruct (context_ w !! Z.to_nat device_id); [|discriminate].
  intros [= <- <-]. auto.
Qed.

Lemma bind_assoc {A B C} (c : M A) (k1 : A -> M B) (k2 : B -> M C) w :
  bind (bind c k1) k2 w = bind c (fun a => bind (k1 a) k2) w.
Proof. unfold bind. destruct (c w) as [[a|e] w1]; reflexivity. Qed.

End Runs.

Ltac coop := match goal with H : Rt.cooperative _ |- Rt.cooperative _ => exact H end.

(** One step of a run whose outcome is known. *)
Ltac step :=
  lazymatch goal with
  | |- context [Rt.bind (Rt.bind ?c ?k1) ?k2 ?w] =>
      rewrite (bind_assoc c k1 k2 w)
  | |- context [Rt.bind (Rt.VULKAN_CALL_create ?mk) ?k ?w] =>
      rewrite (bind_Ok (Rt.VULKAN_CALL_create mk) k w _ _
                 (VULKAN_CALL_create_run mk w ltac:(coop)))
  | |- context [Rt.bind (Rt.VULKAN_CALL ?c) ?k ?w] =>
      rewrite (bind_Ok (Rt.VULKAN_CALL c) k w _ _ (VULKAN_CALL_run c w ltac:(coop)))
  | |- context [Rt.bind (Rt.vk_void ?c) ?k ?w] =>
      rewrite (bind_Ok (Rt.vk_void c) k w _ _ (vk_void_run c w))
  | |- context [Rt.bind (Rt.log ?c) ?k ?w] =>
      rewrite (bind_Ok (Rt.log c) k w _ _ (log_run c w))
  | |- context [Rt.bind (Rt.ret ?a) ?k ?w] =>
      change (Rt.bind (Rt.ret a) k w) with (k a w)
  | |- context [Rt.bind Rt.get ?k ?w] =>
      change (Rt.bind Rt.get k w) with (k w w)
  | |- context [Rt.bind (Rt.modify ?f) ?k ?w] =>
      change (Rt.bind (Rt.modify f) k w) with (k tt (f w))
  end; cbv beta.

(** A step through [context], given the facts that make the lookup succeed. *)
Ltac step_context Hid Hctx :=
  lazymatch goal with
  | |- context [Rt.bind (Rt.context ?id) ?k ?w] =>
      rewrite (bind_Ok (Rt.context id) k w _ _ (context_run id w _ Hid Hctx))
  end; cbv beta.

Section AllocRuns.
Import Rt.

Lemma CreateBuffer_run vctx nbytes usage idx w :
  cooperative w ->
  exists w',
    CreateBuffer vctx nbytes usage idx w = (Ok (Z.pos (next_ptr w)), w') /\
    heap w' = <[Z.pos (next_ptr w) := {| buffer := handle w; memory := handle w + 1 |}]> (heap w) /\
    next_ptr w' = Pos.succ (next_ptr w) /\
    thread w' = thread w /\ context_ w' = context_ w /\ cooperative w' /\
    handle w' = handle w + 2 /\
    calls (drv w') = (calls (drv w) ++ CreateBuffer_calls vctx nbytes usage idx (handle w))%list.
Proof.
  intros Hc. unfold CreateBuffer, MakeBufferCreateInfo, CreateBuffer_calls.
  cbn [info_size info_usage]. step.
  assert (Hh : forall w0, handle (bump w0) = handle w0 + 1).
  { intros w0. unfold handle, bump. cbn. lia. }
  destruct (get_buffer_memory_requirements_2_functions vctx) eqn:E.
  - rewrite (bind_Ok _ _ _ _ _ (bind_Ok _ _ _ _ _ (vk_void_run _ _))).
    change (ret ?a ?w) with (Ok a, w). cbn [fst snd andb].
    destruct (_ || _); cbn [negb]; step; step;
      (eexists; split; [reflexivity|]);
      cbn -[Z.add]; rewrite <- !app_assoc;
      repeat split; auto; unfold handle; cbn; try lia;
      repeat f_equal; lia.
  - change (bind (ret ?a) ?k ?w) with (k a w). cbn [fst snd negb andb].
    step; step. eexists; split; [reflexivity|].
    cbn -[Z.add]. rewrite <- !app_assoc.
    repeat split; auto; unfold handle; cbn; try lia; repeat f_equal; lia.
Qed.

Lemma AllocDataSpace_run dev nbytes alignment type_hint vctx w :
  cooperative w ->
  0 <= device_id dev -> context_ w !! Z.to_nat (device_id dev) = Some vctx ->
  exists w',
    AllocDataSpace dev nbytes alignment type_hint w = (Ok (Z.pos (next_ptr w)), w') /\
    heap w' = <[Z.pos (next_ptr w) := {| buffer := handle w; memory := handle w + 1 |}]> (heap w) /\
    thread w' = thread w /\ context_ w' = context_ w /\ cooperative w' /\
    calls (drv w')
    = (calls (drv w)
       ++ CreateBuffer_calls vctx (nbytes_allocated nbytes) storage_usage
            (compute_mtype_index vctx) (handle w))%list.
Proof.
  intros Hc Hid Hctx. unfold AllocDataSpace.
  rewrite (bind_Ok _ _ _ _ _ (context_run _ _ _ Hid Hctx)).
  destruct (CreateBuffer_run vctx (nbytes_allocated nbytes) storage_usage
              (compute_mtype_index vctx) w Hc) as (w' & Hrun & Hheap & _ & Hth & Hcx & Hc' & _ & Hcalls).
  exists w'. unfold nbytes_allocated in *. auto 10.
Qed.

Lemma new_VulkanStream_run id vctx w :
  cooperative w ->
  new_VulkanStream id vctx w
  = (Ok {| stream_device_id := id; cmd_pool_ := handle w; cmd_buffer_ := handle w + 1;
           fence_ := handle w + 2; recording := false; deferred_tokens_ := [] |},
     emit (vkCreateFence (device vctx) (handle w + 2))
       (bump (emit (vkAllocateCommandBuffers (device vctx) (handle w) (handle w + 1))
                (bump (emit (vkCreateCommandPool (device vctx) (queue_family_index vctx)
                               (handle w)) (bump w)))))).
Proof.
  intros Hc. unfold new_VulkanStream. step. step. step.
  unfold ret, handle. cbn. repeat f_equal; lia.
Qed.

(** [Stream] under a cooperative driver: the stream is there afterwards,
    and no synchronisation has been performed to get it. *)
Lemma Stream_run id vctx w :
  cooperative w -> streams_filed w ->
  0 <= id -> context_ w !! Z.to_nat id = Some vctx ->
  exists w' st new_calls,
    Stream id w = (Ok id, w') /\
    streams_ (thread w') !! id = Some st /\ streams_filed w' /\
    heap w' = heap w /\ next_ptr w' = next_ptr w /\ context_ w' = context_ w /\
    cooperative w' /\
    te_device_id (thread w') = te_device_id (thread w) /\
    staging_buffers_ (thread w') = staging_buffers_ (thread w) /\
    uniform_buffers_ (thread w') = uniform_buffers_ (thread w) /\
    calls (drv w') = (calls (drv w) ++ new_calls)%list /\
    new_calls = match streams_ (thread w) !! id with
                | Some _ => []
                | None => stream_creation_calls vctx (handle w)
                end.
Proof.
  intros Hc Hwf Hid Hctx. unfold Stream. step.
  destruct (streams_ (thread w) !! id) as [st|] eqn:Hst.
  - exists w, st, []. rewrite app_nil_r. auto 15.
  - rewrite (bind_Ok _ _ _ _ _ (context_run _ _ _ Hid Hctx)).
    rewrite (bind_Ok _ _ _ _ _ (new_VulkanStream_run id vctx w Hc)).
    unfold set_stream.
    eexists _, _, _. split; [reflexivity|].
    cbn -[Z.add]. rewrite lookup_insert_eq.
    split; [reflexivity|]. split.
    { intros id' st'. unfold streams_filed in Hwf. cbn.
      destruct (decide (id' = id)) as [->|Hne].
      - rewrite lookup_insert_eq. intros [= <-]. reflexivity.
      - rewrite lookup_insert_ne by congruence. apply Hwf. }
    repeat split; auto.
    rewrite <- !app_assoc. unfold stream_creation_calls, handle. cbn.
    repeat f_equal; lia.
Qed.

Lemma Synchronize_run id st vctx w :
  cooperative w -> streams_filed w ->
  streams_ (thread w) !! id = Some st ->
  0 <= id -> context_ w !! Z.to_nat id = Some vctx ->
  exists w',
    Synchronize id w = (Ok tt, w') /\
    streams_filed w' /\ is_Some (streams_ (thread w') !! id) /\
    heap w' = heap w /\ next_ptr w' = next_ptr w /\ context_ w' = context_ w /\
    cooperative w' /\ handle w' = handle w /\
    te_device_id (thread w') = te_device_id (thread w) /\
    staging_buffers_ (thread w') = staging_buffers_ (thread w) /\
    uniform_buffers_ (thread w') = uniform_buffers_ (thread w) /\
    calls (drv w') = (calls (drv w) ++ synchronize_calls vctx st)%list.
Proof.
  intros Hc Hwf Hst Hid Hctx. unfold Synchronize, stream_deref. step. step.
  rewrite Hst. step.
  pose proof (Hwf _ _ Hst) as Hdev. rewrite Hdev.
  step_context Hid Hctx.
  step. step. step. step. step.
  unfold set_stream. eexists. split; [reflexivity|].
  cbn. rewrite lookup_insert_eq, <- !app_assoc.
  split.
  { intros id' st'. cbn. destruct (decide (id' = id)) as [->|Hne].
    - rewrite lookup_insert_eq. intros [= <-]. reflexivity.
    - rewrite lookup_insert_ne by congruence. apply Hwf. }
  unfold synchronize_calls. rewrite Hdev. repeat split; eauto.
Qed.

Lemma FreeDataSpace_run dev ptr vb vctx w :
  cooperative w -> streams_filed w ->
  0 <= device_id dev -> context_ w !! Z.to_nat (device_id dev) = Some vctx ->
  heap w !! ptr = Some vb ->
  exists w' st,
    FreeDataSpace dev ptr w = (Ok tt, w') /\
    heap w' = delete ptr (heap w) /\ context_ w' = context_ w /\
    cooperative w' /\ streams_filed w' /\
    calls (drv w')
    = (calls (drv w)
       ++ match streams_ (thread w) !! device_id dev with
          | Some _ => []
          | None => stream_creation_calls vctx (handle w)
          end
       ++ synchronize_calls vctx st
       ++ [vkDestroyBuffer (device vctx) (buffer vb);
           vkFreeMemory (device vctx) (memory vb)])%list.
Proof.
  intros Hc Hwf Hid Hctx Hptr. unfold FreeDataSpace, StreamSync.
  step. change (ICHECK (0 =? 0) ?m) with (@ret unit tt). step.
  destruct (Stream_run _ _ _ Hc Hwf Hid Hctx)
    as (w1 & st & new & Hrun1 & Hst1 & Hwf1 & Hheap1 & _ & Hcx1 & Hc1 & _ & _ & _ & Hcalls1 & Hnew).
  step. rewrite (bind_Ok _ _ _ _ _ Hrun1).
  rewrite <- Hcx1 in Hctx.
  destruct (Synchronize_run _ _ _ _ Hc1 Hwf1 Hst1 Hid Hctx)
    as (w2 & Hrun2 & Hwf2 & _ & Hheap2 & _ & Hcx2 & Hc2 & _ & _ & _ & _ & Hcalls2).
  rewrite (bind_Ok _ _ _ _ _ Hrun2).
  rewrite <- Hcx2 in Hctx. step_context Hid Hctx.
  unfold deref_VulkanBuffer. step. step.
  rewrite Hheap2, Hheap1, Hptr. step. step. step.
  unfold delete_VulkanBuffer, deref_VulkanBuffer. step. step.
  cbn [heap emit set_drv]. rewrite Hheap2, Hheap1, Hptr. step.
  exists (set_heap (delete ptr)
            (emit (vkFreeMemory (device vctx) (memory vb))
               (emit (vkDestroyBuffer (device vctx) (buffer vb)) w2))), st.
  split; [reflexivity|]. cbn.
  rewrite Hheap2, Hheap1, Hcx2, Hcx1, Hcalls2, Hcalls1, Hnew, <- !app_assoc.
  repeat split; auto.
Qed.

End AllocRuns.

(** ** Allocation *)

(** C10.  [AllocDataSpace] does not depend on [alignment] or [type_hint]:
    two calls that agree on the device and on [nbytes] have the same outcome
    and leave the same world behind, in particular the same log of driver
    calls (buffer size, usage flags, memory type index). *)
Theorem AllocDataSpace_ignores_alignment_and_type_hint :
  forall dev nbytes alignment1 alignment2 type_hint1 type_hint2 w,
    Rt.AllocDataSpace dev nbytes alignment1 type_hint1 w
    = Rt.AllocDataSpace dev nbytes alignment2 type_hint2 w.
Proof. reflexivity. Qed.

(** C9.  A request for 0 bytes is served as a request for 1 byte.  On a valid
    device with a cooperative driver it does not fail: it returns a non-null
    pointer to a live [VulkanBuffer] whose buffer (created with size 1) and
    memory handles are non-null, and [FreeDataSpace] on that pointer succeeds,
    destroys the buffer, frees the memory and deletes the object. *)
Theorem zero_byte_allocation_is_freeable :
  forall dev alignment type_hint vctx w,
    Rt.cooperative w -> streams_filed w ->
    0 <= Rt.device_id dev ->
    Rt.context_ w !! Z.to_nat (Rt.device_id dev) = Some vctx ->
    Rt.AllocDataSpace dev 0 alignment type_hint w
    = Rt.AllocDataSpace dev 1 alignment type_hint w /\
    exists ptr vb w1,
      Rt.AllocDataSpace dev 0 alignment type_hint w = (Rt.Ok ptr, w1) /\
      ptr <> 0 /\ Rt.heap w1 !! ptr = Some vb /\
      Rt.buffer vb <> VK_NULL_HANDLE /\ Rt.memory vb <> VK_NULL_HANDLE /\
      In (Rt.vkCreateBuffer (Rt.device vctx) 1 Rt.storage_usage (Rt.buffer vb))
         (Rt.calls (Rt.drv w1)) /\
      exists w2,
        Rt.FreeDataSpace dev ptr w1 = (Rt.Ok tt, w2) /\
        Rt.heap w2 !! ptr = None /\
        In (Rt.vkDestroyBuffer (Rt.device vctx) (Rt.buffer vb)) (Rt.calls (Rt.drv w2)) /\
        In (Rt.vkFreeMemory (Rt.device vctx) (Rt.memory vb)) (Rt.calls (Rt.drv w2)).
Proof.
  intros dev alignment type_hint vctx w Hc Hwf Hid Hctx.
  split; [reflexivity|].
  destruct (AllocDataSpace_run dev 0 alignment type_hint vctx w Hc Hid Hctx)
    as (w1 & Hrun & Hheap & Hth & Hcx & Hc1 & Hcalls).
  exists (Z.pos (Rt.next_ptr w)),
         {| Rt.buffer := Rt.handle w; Rt.memory := Rt.handle w + 1 |}, w1.
  split; [exact Hrun|]. split; [discriminate|].
  split; [rewrite Hheap; apply lookup_insert_eq|].
  split; [discriminate|]. split; [unfold Rt.handle, VK_NULL_HANDLE; cbn; lia|].
  split.
  { rewrite Hcalls. apply in_or_app. right. left. reflexivity. }
  assert (Hwf1 : streams_filed w1).
  { unfold streams_filed. rewrite Hth. exact Hwf. }
  rewrite <- Hcx in Hctx.
  destruct (FreeDataSpace_run dev (Z.pos (Rt.next_ptr w))
              {| Rt.buffer := Rt.handle w; Rt.memory := Rt.handle w + 1 |} vctx w1
              Hc1 Hwf1 Hid Hctx) as (w2 & st & Hrun2 & Hheap2 & _ & _ & _ & Hcalls2).
  { rewrite Hheap. apply lookup_insert_eq. }
  exists w2. split; [exact Hrun2|].
  split; [rewrite Hheap2; apply lookup_delete_eq|].
  rewrite Hcalls2, !app_assoc. cbn [Rt.buffer Rt.memory].
  split; apply in_or_app; right; [left | right; left]; reflexivity.
Qed.

Section CacheRuns.
Import Rt.

Lemma cache_store_run c id b w : cache_store c id b w = (Ok tt, cache_set c id b w).
Proof. destruct c; reflexivity. Qed.

Lemma cache_load_run c id b w :
  cache_map c (thread w) !! id = Some b -> cache_load c id w = (Ok b, w).
Proof. intros H. unfold cache_load, bind, get. rewrite H. reflexivity. Qed.

Lemma cache_map_set c id b w :
  cache_map c (thread (cache_set c id b w)) = <[id := b]> (cache_map c (thread w)).
Proof. destruct c; reflexivity. Qed.

End CacheRuns.

Ltac step_load H :=
  lazymatch goal with
  | |- context [Rt.bind (Rt.cache_load ?c ?id) ?k ?w] =>
      rewrite (bind_Ok (Rt.cache_load c id) k w _ _ (cache_load_run c id _ w H))
  end; cbv beta.

Ltac step_store :=
  lazymatch goal with
  | |- context [Rt.bind (Rt.cache_store ?c ?id ?b) ?k ?w] =>
      rewrite (bind_Ok (Rt.cache_store c id b) k w _ _ (cache_store_run c id b w))
  end; cbv beta.

Section GetOrAllocateRuns.
Import Rt.

Lemma DeleteHostVisibleBuffer_run buf vb w :
  mapped_entry w buf vb ->
  DeleteHostVisibleBuffer buf w
  = (Ok {| hv_device := hv_device buf; vk_buf := vk_buf buf; host_addr := 0;
           hv_size := hv_size buf |},
     set_heap (delete (vk_buf buf))
       (emit (vkDestroyBuffer (hv_device buf) (buffer vb))
          (emit (vkFreeMemory (hv_device buf) (memory vb))
             (emit (vkUnmapMemory (hv_device buf) (memory vb)) w)))).
Proof.
  intros (Hd & Hp & Ha & Hheap & Hb & Hm). unfold DeleteHostVisibleBuffer.
  apply Z.eqb_neq in Hp, Ha, Hb, Hm. rewrite Hp. cbn [negb].
  unfold deref_VulkanBuffer at 1. step. step. rewrite Hheap. step.
  rewrite Ha, Hm, Hb. cbn [negb]. step. step. step.
  unfold delete_VulkanBuffer, deref_VulkanBuffer. step. step. step.
  cbn [heap emit set_drv]. rewrite Hheap. step. reflexivity.
Qed.


Lemma GetOrAllocate_unfold id size usage idx c sync :
  GetOrAllocate id size usage idx c sync
  = (w <- get;;
     (match cache_map c (thread w) !! id with
      | None => cache_store c id empty_host_visible_buffer
      | Some _ => ret tt
      end);;
     buf <- cache_load c id;;
     (if negb (hv_device buf =? 0) && (hv_size buf <? size) then
        (if sync then s <- Stream id;; Synchronize s else ret tt);;
        buf' <- DeleteHostVisibleBuffer buf;;
        cache_store c id buf'
      else ret tt);;
     GetOrAllocate_tail id size usage idx c).
Proof. reflexivity. Qed.

Lemma cache_set_frame c id b w :
  heap (cache_set c id b w) = heap w /\ next_ptr (cache_set c id b w) = next_ptr w /\
  context_ (cache_set c id b w) = context_ w /\ drv (cache_set c id b w) = drv w /\
  streams_ (thread (cache_set c id b w)) = streams_ (thread w).
Proof. destruct c; repeat split. Qed.

Lemma GetOrAllocate_tail_run id size usage idx c buf0 vctx w :
  cooperative w -> 0 <= id -> context_ w !! Z.to_nat id = Some vctx ->
  cache_map c (thread w) !! id = Some buf0 -> host_addr buf0 = 0 ->
  exists w' buf',
    GetOrAllocate_tail id size usage idx c w = (Ok buf', w') /\
    cache_map c (thread w') !! id = Some buf' /\
    buf' = {| hv_device := if hv_device buf0 =? 0 then device vctx else hv_device buf0;
              vk_buf := Z.pos (next_ptr w); host_addr := handle w + 2; hv_size := size |} /\
    heap w'
    = <[Z.pos (next_ptr w) := {| buffer := handle w; memory := handle w + 1 |}]> (heap w) /\
    context_ w' = context_ w /\ cooperative w' /\
    streams_ (thread w') = streams_ (thread w) /\
    calls (drv w')
    = (calls (drv w) ++ CreateBuffer_calls vctx size usage idx (handle w)
       ++ [vkMapMemory (device vctx) (handle w + 1) 0 size (handle w + 2)])%list.
Proof.
  intros Hc Hid Hctx Hentry Haddr. unfold GetOrAllocate_tail.
  step_context Hid Hctx. step_load Hentry.
  set (buf1 := {| hv_device := if hv_device buf0 =? 0 then device vctx else hv_device buf0;
                  vk_buf := vk_buf buf0; host_addr := host_addr buf0;
                  hv_size := hv_size buf0 |}).
  assert (Hfix : exists w1,
    (if hv_device buf0 =? 0 then
       cache_store c id {| hv_device := device vctx; vk_buf := vk_buf buf0;
                           host_addr := host_addr buf0; hv_size := hv_size buf0 |}
     else ret tt) w = (Ok tt, w1) /\
    cache_map c (thread w1) !! id = Some buf1 /\
    heap w1 = heap w /\ next_ptr w1 = next_ptr w /\ context_ w1 = context_ w /\
    drv w1 = drv w /\ streams_ (thread w1) = streams_ (thread w)).
  { subst buf1. destruct (hv_device buf0 =? 0) eqn:E.
    - eexists. rewrite cache_store_run. split; [reflexivity|].
      rewrite cache_map_set, lookup_insert_eq.
      destruct (cache_set_frame c id
        {| hv_device := device vctx; vk_buf := vk_buf buf0; host_addr := host_addr buf0;
           hv_size := hv_size buf0 |} w) as (? & ? & ? & ? & ?). auto 10.
    - exists w. repeat split; auto. rewrite Hentry. destruct buf0; reflexivity. }
  destruct Hfix as (w1 & Hrun1 & Hentry1 & Hheap1 & Hnp1 & Hcx1 & Hdrv1 & Hst1).
  rewrite (bind_Ok _ _ _ _ _ Hrun1).
  step_load Hentry1.
  replace (host_addr buf1 =? 0) with true by (symmetry; apply Z.eqb_eq; exact Haddr).
  assert (Hc1 : cooperative w1) by (unfold cooperative; rewrite Hdrv1; exact Hc).
  destruct (CreateBuffer_run vctx size usage idx w1 Hc1)
    as (w2 & Hrun2 & Hheap2 & Hnp2 & Hth2 & Hcx2 & Hc2 & Hh2 & Hcalls2).
  step. rewrite (bind_Ok _ _ _ _ _ Hrun2).
  step. step_store. unfold deref_VulkanBuffer. repeat step.
  set (w3 := cache_set c id _ w2).
  destruct (cache_set_frame c id
    {| hv_device := hv_device buf1; vk_buf := Z.pos (next_ptr w1);
       host_addr := host_addr buf1; hv_size := hv_size buf1 |} w2)
    as (Hheap3 & Hnp3 & Hcx3 & Hdrv3 & Hst3).
  fold w3 in Hheap3, Hnp3, Hcx3, Hdrv3, Hst3.
  rewrite Hheap3, Hheap2, lookup_insert_eq. step.
  assert (Hc3 : cooperative w3) by (unfold cooperative; rewrite Hdrv3; exact Hc2).
  step. step. step_store.
  rewrite cache_load_run with (b := {| hv_device := hv_device buf1;
     vk_buf := Z.pos (next_ptr w1); host_addr := handle w3; hv_size := size |})
    by (rewrite cache_map_set; apply lookup_insert_eq).
  eexists _, _. split; [reflexivity|].
  rewrite cache_map_set, lookup_insert_eq.
  assert (Hh1 : handle w1 = handle w) by (unfold handle; rewrite Hdrv1; reflexivity).
  assert (Hh3 : handle w3 = handle w + 2).
  { rewrite <- Hh1, <- Hh2. unfold handle. rewrite Hdrv3. reflexivity. }
  match goal with
  | |- context [cache_set c id ?b ?w0] =>
      destruct (cache_set_frame c id b w0) as (E1 & E2 & E3 & E4 & E5)
  end.
  rewrite E1, E3, E5. unfold cooperative. rewrite E4.
  cbn [heap context_ thread drv emit bump set_drv script calls memory].
  rewrite Hheap3, Hheap2, Hheap1, Hcx3, Hcx2, Hcx1, Hnp1, Hh3, Hh1, Hst3, Hth2, Hst1.
  rewrite Hdrv3, Hcalls2, Hdrv1, Hh1, <- app_assoc.
  split; [reflexivity|]. split; [subst buf1; reflexivity|].
  repeat split; auto.
Qed.

(** Growing an entry that is too small. *)
Lemma GetOrAllocate_grow_run id size usage idx c sync buf vb vctx w :
  cooperative w -> streams_filed w ->
  0 <= id -> context_ w !! Z.to_nat id = Some vctx ->
  cache_map c (thread w) !! id = Some buf -> mapped_entry w buf vb -> hv_size buf < size ->
  exists w' buf' st h,
    GetOrAllocate id size usage idx c sync w = (Ok buf', w') /\
    cache_map c (thread w') !! id = Some buf' /\
    hv_size buf' = size /\ host_addr buf' <> 0 /\ hv_device buf' = hv_device buf /\
    stream_device_id st = id /\
    calls (drv w')
    = (calls (drv w)
       ++ (if sync then
             match streams_ (thread w) !! id with
             | Some _ => []
             | None => stream_creation_calls vctx (handle w)
             end ++ synchronize_calls vctx st
           else [])
       ++ release_calls buf vb
       ++ CreateBuffer_calls vctx size usage idx h
       ++ [vkMapMemory (device vctx) (h + 1) 0 size (h + 2)])%list.
Proof.
  intros Hc Hwf Hid Hctx Hentry Hmapped Hsize.
  rewrite GetOrAllocate_unfold. step. rewrite Hentry. step.
  step_load Hentry.
  pose proof Hmapped as (Hd & Hp & Ha & Hheap & Hb & Hm).
  assert (Hcond : negb (hv_device buf =? 0) && (hv_size buf <? size) = true).
  { apply andb_true_iff. split; [apply negb_true_iff, Z.eqb_neq; exact Hd|].
    apply Z.ltb_lt. exact Hsize. }
  rewrite Hcond.
  assert (Hpre : exists w2 st,
    (if sync then s <- Stream id;; Synchronize s else ret tt) w = (Ok tt, w2) /\
    heap w2 = heap w /\ context_ w2 = context_ w /\
    cooperative w2 /\ cache_map c (thread w2) = cache_map c (thread w) /\
    stream_device_id st = id /\
    calls (drv w2)
    = (calls (drv w)
       ++ (if sync then
             match streams_ (thread w) !! id with
             | Some _ => []
             | None => stream_creation_calls vctx (handle w)
             end ++ synchronize_calls vctx st
           else []))%list).
  { destruct sync.
    - destruct (Stream_run _ _ _ Hc Hwf Hid Hctx)
        as (w1 & st & new & Hrun1 & Hst1 & Hwf1 & Hheap1 & _ & Hcx1 & Hc1 & _ & Hsb1 & Hub1
            & Hcalls1 & Hnew).
      rewrite (bind_Ok _ _ _ _ _ Hrun1).
      assert (Hctx1 : context_ w1 !! Z.to_nat id = Some vctx) by (rewrite Hcx1; exact Hctx).
      destruct (Synchronize_run _ _ _ _ Hc1 Hwf1 Hst1 Hid Hctx1)
        as (w2 & Hrun2 & Hwf2 & _ & Hheap2 & _ & Hcx2 & Hc2 & _ & _ & Hsb2 & Hub2 & Hcalls2).
      exists w2, st. rewrite Hrun2.
      rewrite Hheap2, Hheap1, Hcx2, Hcx1, Hcalls2, Hcalls1, Hnew, <- app_assoc.
      repeat split; auto.
      destruct c; cbn; congruence.
    - exists w, {| stream_device_id := id; cmd_pool_ := 0; cmd_buffer_ := 0; fence_ := 0;
                   recording := false; deferred_tokens_ := [] |}.
      rewrite app_nil_r. repeat split; auto. }
  destruct Hpre as (w2 & st & Hrun2 & Hheap2 & Hcx2 & Hc2 & Hcache2 & Hstid & Hcalls2).
  step. rewrite (bind_Ok _ _ _ _ _ Hrun2).
  assert (Hmapped2 : mapped_entry w2 buf vb).
  { unfold mapped_entry. rewrite Hheap2. auto 10. }
  step. rewrite (bind_Ok _ _ _ _ _ (DeleteHostVisibleBuffer_run buf vb w2 Hmapped2)).
  step_store.
  set (buf0 := {| hv_device := hv_device buf; vk_buf := vk_buf buf; host_addr := 0;
                  hv_size := hv_size buf |}).
  set (w3 := cache_set c id buf0 _).
  destruct (cache_set_frame c id buf0
              (set_heap (delete (vk_buf buf))
                 (emit (vkDestroyBuffer (hv_device buf) (buffer vb))
                    (emit (vkFreeMemory (hv_device buf) (memory vb))
                       (emit (vkUnmapMemory (hv_device buf) (memory vb)) w2)))))
    as (Hheap3 & Hnp3 & Hcx3 & Hdrv3 & Hst3).
  fold w3 in Hheap3, Hnp3, Hcx3, Hdrv3, Hst3.
  cbn [heap context_ thread drv emit set_drv set_heap next_ptr] in Hheap3, Hnp3, Hcx3, Hst3.
  assert (Hc3 : cooperative w3) by (unfold cooperative; rewrite Hdrv3; exact Hc2).
  assert (Hctx3 : context_ w3 !! Z.to_nat id = Some vctx)
    by (rewrite Hcx3, Hcx2; exact Hctx).
  assert (Hentry3 : cache_map c (thread w3) !! id = Some buf0)
    by (subst w3; rewrite cache_map_set; apply lookup_insert_eq).
  destruct (GetOrAllocate_tail_run id size usage idx c buf0 vctx w3 Hc3 Hid Hctx3 Hentry3
              eq_refl)
    as (w' & buf' & Hrun & Hentry' & Hbuf' & _ & _ & _ & _ & Hcalls').
  exists w', buf', st, (handle w3).
  split; [exact Hrun|]. split; [exact Hentry'|].
  rewrite Hbuf'. cbn [hv_size host_addr hv_device buf0].
  apply Z.eqb_neq in Hd. rewrite Hd.
  split; [reflexivity|]. split; [unfold handle; cbn; lia|]. split; [reflexivity|].
  split; [exact Hstid|].
  rewrite Hcalls', Hdrv3. cbn [calls drv emit set_drv set_heap].
  rewrite Hcalls2, <- !app_assoc. reflexivity.
Qed.

(** Creating an entry that is not there: nothing is released, nothing is
    synchronised, whatever [sync_before_realloc] says. *)
Lemma GetOrAllocate_create_run id size usage idx c sync vctx w :
  cooperative w ->
  0 <= id -> context_ w !! Z.to_nat id = Some vctx ->
  cache_map c (thread w) !! id = None ->
  exists w' buf',
    GetOrAllocate id size usage idx c sync w = (Ok buf', w') /\
    cache_map c (thread w') !! id = Some buf' /\
    hv_size buf' = size /\ host_addr buf' <> 0 /\ hv_device buf' = device vctx /\
    calls (drv w')
    = (calls (drv w)
       ++ CreateBuffer_calls vctx size usage idx (handle w)
       ++ [vkMapMemory (device vctx) (handle w + 1) 0 size (handle w + 2)])%list.
Proof.
  intros Hc Hid Hctx Hentry.
  rewrite GetOrAllocate_unfold. step. rewrite Hentry. step_store.
  set (w1 := cache_set c id empty_host_visible_buffer w).
  destruct (cache_set_frame c id empty_host_visible_buffer w)
    as (Hheap1 & Hnp1 & Hcx1 & Hdrv1 & Hst1).
  fold w1 in Hheap1, Hnp1, Hcx1, Hdrv1, Hst1.
  assert (Hentry1 : cache_map c (thread w1) !! id = Some empty_host_visible_buffer)
    by (subst w1; rewrite cache_map_set; apply lookup_insert_eq).
  step_load Hentry1. cbn [hv_device empty_host_visible_buffer Z.eqb negb andb]. step.
  assert (Hc1 : cooperative w1) by (unfold cooperative; rewrite Hdrv1; exact Hc).
  assert (Hctx1 : context_ w1 !! Z.to_nat id = Some vctx) by (rewrite Hcx1; exact Hctx).
  destruct (GetOrAllocate_tail_run id size usage idx c empty_host_visible_buffer vctx w1
              Hc1 Hid Hctx1 Hentry1 eq_refl)
    as (w' & buf' & Hrun & Hentry' & Hbuf' & _ & _ & _ & _ & Hcalls').
  exists w', buf'.
  split; [exact Hrun|]. split; [exact Hentry'|].
  rewrite Hbuf'. cbn [hv_size host_addr hv_device empty_host_visible_buffer Z.eqb].
  split; [reflexivity|]. split; [unfold handle; cbn; lia|]. split; [reflexivity|].
  rewrite Hcalls'. unfold handle. rewrite Hdrv1. reflexivity.
Qed.

Lemma FindMemoryType_run vctx info req_prop idx w :
  cooperative w ->
  FindMemoryType_loop (memoryTypes (dm_memory (phy_device vctx))) 0
    (dm_memoryTypeBits (phy_device vctx) (info_usage info)) req_prop = Some idx ->
  FindMemoryType vctx info req_prop w
  = (Ok idx,
     emit (vkGetBufferMemoryRequirements (device vctx) (handle w))
       (emit (vkCreateBuffer (device vctx) (info_size info) (info_usage info) (handle w))
          (bump w))).
Proof.
  intros Hc Hloop. unfold FindMemoryType. step. step. rewrite Hloop. reflexivity.
Qed.

End GetOrAllocateRuns.

(** ** The staging and uniform-buffer caches *)

Lemma synchronizations_app l1 l2 :
  synchronizations (l1 ++ l2) = (synchronizations l1 ++ synchronizations l2)%list.
Proof. apply omap_app. Qed.

Lemma releases_app l1 l2 : releases (l1 ++ l2) = (releases l1 ++ releases l2)%list.
Proof. apply List.filter_app. Qed.

Lemma CreateBuffer_calls_quiet vctx nbytes usage idx h :
  synchronizations (CreateBuffer_calls vctx nbytes usage idx h) = [] /\
  releases (CreateBuffer_calls vctx nbytes usage idx h) = [].
Proof.
  unfold CreateBuffer_calls.
  destruct (Rt.get_buffer_memory_requirements_2_functions vctx); split; reflexivity.
Qed.

Lemma stream_creation_quiet (o : option Rt.VulkanStream) vctx h :
  let l := match o with Some _ => [] | None => stream_creation_calls vctx h end in
  synchronizations l = [] /\ releases l = [].
Proof. destruct o; split; reflexivity. Qed.

(** C8.  With a cooperative driver: when the uniform-buffer entry of a device
    exists but is smaller than the requested size, [AllocateUniformBuffer]
    performs exactly one [Synchronize], on that device's stream, and it comes
    before the old buffer is unmapped, freed and destroyed; the entry is then
    reallocated at the requested size.  Growing the staging entry releases the
    old buffer without any [Synchronize], and creating a staging entry
    performs neither a release nor a [Synchronize]. *)
Theorem ubo_growth_synchronizes_once_staging_never :
  forall id size buf vb vctx w,
    Rt.cooperative w -> streams_filed w ->
    0 <= id -> Rt.context_ w !! Z.to_nat id = Some vctx ->
    (* the uniform-buffer entry exists and is too small *)
    (forall idx,
       Rt.uniform_buffers_ (Rt.thread w) !! id = Some buf ->
       mapped_entry w buf vb -> Rt.hv_size buf < size ->
       Rt.FindMemoryType_loop (Rt.memoryTypes (Rt.dm_memory (Rt.phy_device vctx))) 0
         (Rt.dm_memoryTypeBits (Rt.phy_device vctx) VK_BUFFER_USAGE_UNIFORM_BUFFER_BIT)
         (Z.lor VK_MEMORY_PROPERTY_HOST_VISIBLE_BIT VK_MEMORY_PROPERTY_HOST_COHERENT_BIT)
       = Some idx ->
       exists w' pre post buf',
         Rt.AllocateUniformBuffer id size w = (Rt.Ok tt, w') /\
         Rt.calls (Rt.drv w')
         = (Rt.calls (Rt.drv w) ++ pre ++ Rt.StreamSynchronize id :: post)%list /\
         synchronizations pre = [] /\ releases pre = [] /\
         synchronizations post = [] /\ releases post = release_calls buf vb /\
         Rt.uniform_buffers_ (Rt.thread w') !! id = Some buf' /\
         Rt.hv_size buf' = size /\ Rt.host_addr buf' <> 0) /\
    (* the staging entry exists and is too small *)
    (Rt.staging_buffers_ (Rt.thread w) !! id = Some buf ->
     mapped_entry w buf vb -> Rt.hv_size buf < size ->
     exists w' new buf',
       Rt.StagingBuffer id size w = (Rt.Ok buf', w') /\
       Rt.calls (Rt.drv w') = (Rt.calls (Rt.drv w) ++ new)%list /\
       synchronizations new = [] /\ releases new = release_calls buf vb /\
       Rt.staging_buffers_ (Rt.thread w') !! id = Some buf' /\
       Rt.hv_size buf' = size /\ Rt.host_addr buf' <> 0) /\
    (* there is no staging entry *)
    (Rt.staging_buffers_ (Rt.thread w) !! id = None ->
     exists w' new buf',
       Rt.StagingBuffer id size w = (Rt.Ok buf', w') /\
       Rt.calls (Rt.drv w') = (Rt.calls (Rt.drv w) ++ new)%list /\
       synchronizations new = [] /\ releases new = [] /\
       Rt.staging_buffers_ (Rt.thread w') !! id = Some buf' /\
       Rt.hv_size buf' = size /\ Rt.host_addr buf' <> 0).
Proof.
  intros id size buf vb vctx w Hc Hwf Hid Hctx.
  split; [|split].
  - intros idx Hentry Hmapped Hsize Hloop.
    unfold Rt.AllocateUniformBuffer. step_context Hid Hctx.
    rewrite (bind_Ok _ _ _ _ _
               (FindMemoryType_run vctx
                  (Rt.MakeBufferCreateInfo vctx size VK_BUFFER_USAGE_UNIFORM_BUFFER_BIT)
                  _ idx w Hc Hloop)).
    set (w1 := Rt.emit _ (Rt.emit _ (Rt.bump w))).
    destruct (GetOrAllocate_grow_run id size VK_BUFFER_USAGE_UNIFORM_BUFFER_BIT idx
                Rt.uniform_buffers true buf vb vctx w1 Hc Hwf Hid Hctx Hentry Hmapped Hsize)
      as (w' & buf' & st & h & Hrun & Hentry' & Hsz & Haddr & _ & Hstid & Hcalls).
    rewrite (bind_Ok _ _ _ _ _ Hrun).
    exists w',
      ([Rt.vkCreateBuffer (Rt.device vctx) size VK_BUFFER_USAGE_UNIFORM_BUFFER_BIT
          (Rt.handle w);
        Rt.vkGetBufferMemoryRequirements (Rt.device vctx) (Rt.handle w)]
       ++ match Rt.streams_ (Rt.thread w) !! id with
          | Some _ => []
          | None => stream_creation_calls vctx (Rt.handle w1)
          end)%list,
      (tl (synchronize_calls vctx st) ++ release_calls buf vb
       ++ CreateBuffer_calls vctx size VK_BUFFER_USAGE_UNIFORM_BUFFER_BIT idx h
       ++ [Rt.vkMapMemory (Rt.device vctx) (h + 1) 0 size (h + 2)])%list, buf'.
    split; [reflexivity|].
    split.
    { rewrite Hcalls. subst w1. cbn [Rt.calls Rt.drv Rt.emit Rt.bump Rt.set_drv Rt.thread].
      unfold synchronize_calls. rewrite Hstid, <- !app_assoc. reflexivity. }
    destruct (stream_creation_quiet (Rt.streams_ (Rt.thread w) !! id) vctx (Rt.handle w1))
      as [Hq1 Hq2].
    destruct (CreateBuffer_calls_quiet vctx size VK_BUFFER_USAGE_UNIFORM_BUFFER_BIT idx h)
      as [Hq3 Hq4].
    rewrite !synchronizations_app, !releases_app, Hq1, Hq2, Hq3, Hq4.
    repeat split; auto.
  - intros Hentry Hmapped Hsize.
    unfold Rt.StagingBuffer. step_context Hid Hctx.
    destruct (GetOrAllocate_grow_run id size Rt.staging_usage (Rt.staging_mtype_index vctx)
                Rt.staging_buffers false buf vb vctx w Hc Hwf Hid Hctx Hentry Hmapped Hsize)
      as (w' & buf' & st & h & Hrun & Hentry' & Hsz & Haddr & _ & _ & Hcalls).
    eexists w', _, buf'. split; [exact Hrun|]. split; [exact Hcalls|].
    destruct (CreateBuffer_calls_quiet vctx size Rt.staging_usage
                (Rt.staging_mtype_index vctx) h) as [Hq3 Hq4].
    cbn [app]. rewrite !synchronizations_app, !releases_app, Hq3, Hq4.
    repeat split; auto.
  - intros Hentry.
    unfold Rt.StagingBuffer. step_context Hid Hctx.
    destruct (GetOrAllocate_create_run id size Rt.staging_usage (Rt.staging_mtype_index vctx)
                Rt.staging_buffers false vctx w Hc Hid Hctx Hentry)
      as (w' & buf' & Hrun & Hentry' & Hsz & Haddr & _ & Hcalls).
    eexists w', _, buf'. split; [exact Hrun|]. split; [exact Hcalls|].
    destruct (CreateBuffer_calls_quiet vctx size Rt.staging_usage
                (Rt.staging_mtype_index vctx) (Rt.handle w)) as [Hq3 Hq4].
    rewrite !synchronizations_app, !releases_app, Hq3, Hq4.
    repeat split; auto.
Qed.

(** ** Copies *)

Section CopyRuns.
Import Rt.

Lemma fails_bind_l {A B} (c : M A) (k : A -> M B) : fails c -> fails (bind c k).
Proof.
  intros Hc w. destruct (Hc w) as (e & w' & Hrun). exists e, w'.
  apply bind_Fail. exact Hrun.
Qed.

Lemma fails_bind_r {A B} (c : M A) (k : A -> M B) :
  (forall a, fails (k a)) -> fails (bind c k).
Proof.
  intros Hk w. unfold bind. destruct (c w) as [[a|e] w1]; [apply Hk | eauto].
Qed.

Lemma fails_ICHECK_false what : fails (ICHECK false what).
Proof. intros w. exists (CheckFailed what), w. reflexivity. Qed.

Lemma copy_device_to_device_fails from from_offset to to_offset size dev_from dev_to state :
  device_id dev_from <> device_id dev_to ->
  fails (copy_device_to_device from from_offset to to_offset size dev_from dev_to state).
Proof.
  intros Hne. unfold copy_device_to_device.
  apply Z.eqb_neq in Hne. rewrite Hne.
  do 3 (apply fails_bind_r; intros ?).
  apply fails_bind_l, fails_ICHECK_false.
Qed.

Lemma begin_recording_run s st w :
  cooperative w -> streams_ (thread w) !! s = Some st ->
  exists w1 st1,
    begin_recording s w = (Ok st1, w1) /\
    cmd_buffer_ st1 = cmd_buffer_ st /\ stream_device_id st1 = stream_device_id st /\
    streams_ (thread w1) !! s = Some st1 /\
    heap w1 = heap w /\ context_ w1 = context_ w /\ cooperative w1 /\
    te_device_id (thread w1) = te_device_id (thread w) /\
    staging_buffers_ (thread w1) = staging_buffers_ (thread w) /\
    uniform_buffers_ (thread w1) = uniform_buffers_ (thread w) /\
    handle w1 = handle w /\
    calls (drv w1)
    = (calls (drv w)
       ++ if recording st then [] else [vkBeginCommandBuffer (cmd_buffer_ st)])%list.
Proof.
  intros Hc Hst. unfold begin_recording, stream_deref. repeat step. rewrite Hst. step.
  destruct (recording st) eqn:Hrec.
  - exists w, st. rewrite app_nil_r. auto 15.
  - step. unfold set_stream. step.
    eexists _, _. split; [reflexivity|]. cbn. rewrite lookup_insert_eq. auto 15.
Qed.

End CopyRuns.

Section CopyLaunch.
Import Rt.

(** The device-to-device branch up to the launched closure: the stream of
    the source device is there and recording. *)
Lemma device_to_device_launch from from_offset to to_offset size dev_from dev_to type_hint
    vctx w :
  device_type dev_from = kDLVulkan -> device_type dev_to = kDLVulkan ->
  cooperative w -> streams_filed w ->
  0 <= device_id dev_from -> context_ w !! Z.to_nat (device_id dev_from) = Some vctx ->
  exists w1 st pre,
    CopyDataFromTo from from_offset to to_offset size dev_from dev_to type_hint 0 w
    = copy_device_to_device from from_offset to to_offset size dev_from dev_to st w1 /\
    streams_ (thread w1) !! device_id dev_from = Some st /\
    heap w1 = heap w /\ cooperative w1 /\
    calls (drv w1) = (calls (drv w) ++ pre)%list /\
    forallb is_stream_setup pre = true.
Proof.
  intros Hfrom Hto Hc Hwf Hid Hctx. unfold CopyDataFromTo.
  change (ICHECK (0 =? 0) ?m) with (@ret unit tt). step.
  rewrite Hfrom, Hto. cbn [Z.eqb Pos.eqb kDLVulkan andb].
  destruct (Stream_run _ _ _ Hc Hwf Hid Hctx)
    as (w0 & st0 & new & Hrun0 & Hst0 & Hwf0 & Hheap0 & _ & Hcx0 & Hc0 & _ & _ & _ & Hcalls0
        & Hnew).
  rewrite (bind_Ok _ _ _ _ _ Hrun0). unfold Launch.
  destruct (begin_recording_run _ _ _ Hc0 Hst0)
    as (w1 & st1 & Hrun1 & Hcmd & _ & Hst1 & Hheap1 & _ & Hc1 & _ & _ & _ & _ & Hcalls1).
  rewrite (bind_Ok _ _ _ _ _ Hrun1).
  eexists w1, st1, _. split; [reflexivity|].
  split; [exact Hst1|]. split; [congruence|]. split; [exact Hc1|].
  split; [rewrite Hcalls1, Hcalls0, <- app_assoc; reflexivity|].
  rewrite forallb_app, Hnew.
  destruct (streams_ (thread w) !! device_id dev_from); destruct (recording st0); reflexivity.
Qed.
End CopyLaunch.

(** C7.  A copy between two Vulkan devices whose ids differ never succeeds;
    when the stream handle is null, the source device is valid, both buffers
    are live and the driver cooperates, the failure is the assertion "Vulkan
    disallow cross device copy.".  With equal ids, under the same conditions,
    the copy succeeds and the log ends with the buffer copy followed by the
    TRANSFER -> TRANSFER|COMPUTE_SHADER memory barrier, both recorded in the
    command buffer of the source device's stream; before them only the lazy
    creation of that stream and the start of recording may occur. *)
Theorem device_to_device_copy :
  forall from from_offset to to_offset size dev_from dev_to type_hint,
    Rt.device_type dev_from = Rt.kDLVulkan -> Rt.device_type dev_to = Rt.kDLVulkan ->
    (Rt.device_id dev_from <> Rt.device_id dev_to ->
     (forall stream w, exists e w',
        Rt.CopyDataFromTo from from_offset to to_offset size dev_from dev_to type_hint
          stream w = (Rt.Fail e, w')) /\
     (forall w vctx from_buf to_buf,
        Rt.cooperative w -> streams_filed w ->
        0 <= Rt.device_id dev_from ->
        Rt.context_ w !! Z.to_nat (Rt.device_id dev_from) = Some vctx ->
        Rt.heap w !! from = Some from_buf -> Rt.heap w !! to = Some to_buf ->
        exists w',
          Rt.CopyDataFromTo from from_offset to to_offset size dev_from dev_to type_hint
            0 w = (Rt.Fail (Rt.CheckFailed "Vulkan disallow cross device copy."), w'))) /\
    (Rt.device_id dev_from = Rt.device_id dev_to ->
     forall w vctx from_buf to_buf,
       Rt.cooperative w -> streams_filed w ->
       0 <= Rt.device_id dev_from ->
       Rt.context_ w !! Z.to_nat (Rt.device_id dev_from) = Some vctx ->
       Rt.heap w !! from = Some from_buf -> Rt.heap w !! to = Some to_buf ->
       exists w' st pre,
         Rt.CopyDataFromTo from from_offset to to_offset size dev_from dev_to type_hint
           0 w = (Rt.Ok tt, w') /\
         Rt.streams_ (Rt.thread w') !! Rt.device_id dev_from = Some st /\
         forallb is_stream_setup pre = true /\
         Rt.calls (Rt.drv w')
         = (Rt.calls (Rt.drv w) ++ pre
            ++ copy_barrier_calls (Rt.cmd_buffer_ st) (Rt.buffer from_buf)
                 (Rt.buffer to_buf) from_offset to_offset size)%list).
Proof.
  intros from from_offset to to_offset size dev_from dev_to type_hint Hfrom Hto.
  split.
  - intros Hne. split.
    + intros stream. unfold Rt.CopyDataFromTo. rewrite Hfrom, Hto.
      cbn [Z.eqb Pos.eqb Rt.kDLVulkan andb].
      apply fails_bind_r; intros _.
      apply fails_bind_r; intros s. unfold Rt.Launch.
      apply fails_bind_r; intros st.
      apply copy_device_to_device_fails. exact Hne.
    + intros w vctx from_buf to_buf Hc Hwf Hid Hctx Hfb Htb.
      destruct (device_to_device_launch from from_offset to to_offset size dev_from dev_to
                  type_hint vctx w Hfrom Hto Hc Hwf Hid Hctx)
        as (w1 & st & pre & Hrun & Hst & Hheap & Hc1 & Hcalls & Hpre).
      rewrite Hrun. unfold Rt.copy_device_to_device, Rt.deref_VulkanBuffer.
      repeat step. rewrite Hheap, Hfb. repeat step. rewrite ?Hheap, Htb. repeat step.
      apply Z.eqb_neq in Hne. rewrite Hne.
      eexists. reflexivity.
  - intros Heq w vctx from_buf to_buf Hc Hwf Hid Hctx Hfb Htb.
    destruct (device_to_device_launch from from_offset to to_offset size dev_from dev_to
                type_hint vctx w Hfrom Hto Hc Hwf Hid Hctx)
      as (w1 & st & pre & Hrun & Hst & Hheap & Hc1 & Hcalls & Hpre).
    rewrite Hrun. unfold Rt.copy_device_to_device, Rt.deref_VulkanBuffer.
    repeat step. rewrite Hheap, Hfb. repeat step. rewrite ?Hheap, Htb. repeat step.
    rewrite Heq, Z.eqb_refl. change (Rt.ICHECK true ?m) with (@Rt.ret unit tt). step.
    rewrite vk_void_run.
    eexists _, st, pre. split; [reflexivity|].
    cbn [Rt.thread Rt.emit Rt.set_drv Rt.drv Rt.calls].
    rewrite <- Heq. split; [exact Hst|]. split; [exact Hpre|].
    rewrite Hcalls, <- !app_assoc. reflexivity.
Qed.

(** ** The pipeline cache *)

Ltac inv_bind H :=
  let a := fresh "a" in let w := fresh "w" in let Ha := fresh "Hrun" in
  apply bind_Ok_inv in H as (a & w & Ha & H).

Tactic Notation "invert_bind" hyp(H) "as" ident(a) ident(w) ident(Ha) :=
  apply bind_Ok_inv in H as (a & w & Ha & H).

Lemma build_pipeline_protocol m vctx device_id func_name num_pack_args w pe w' :
  Rt.build_pipeline m vctx device_id func_name num_pack_args w = (Rt.Ok pe, w') ->
  pipeline_matches_protocol vctx pe.
Proof.
  unfold Rt.build_pipeline. intros H.
  inv_bind H. inv_bind H. inv_bind H.
  destruct (Rt.scan_arg_types _ _ _ _) as [[ai num_pod] num_buffer].
  inv_bind H. inv_bind H. inv_bind H. inv_bind H. inv_bind H. inv_bind H. inv_bind H.
  injection H as <- _.
  unfold pipeline_matches_protocol.
  cbn [Rt.descriptor_update_template Rt.descriptor_pool Rt.descriptor_set].
  destruct (Rt.UseImmediate vctx) eqn:Himm; cbn [negb] in *.
  - injection Hrun4 as <- _. cbn [fst snd].
    apply VULKAN_CALL_create_nonnull in Hrun8.
    repeat split; intros; try congruence; try discriminate.
  - inv_bind Hrun4. inv_bind Hrun4. injection Hrun4 as <- _. cbn [fst snd].
    injection Hrun8 as <- _.
    apply VULKAN_CALL_create_nonnull in Hrun9, Hrun10.
    repeat split; intros; try congruence; try discriminate.
Qed.

(** A fresh module has no pipeline in its cache. *)
Lemma VulkanModuleCreate_cache_empty smap fmap source device_id func_name :
  Rt.ecache_lookup (Rt.VulkanModuleCreate smap fmap source) device_id func_name = None.
Proof. unfold Rt.ecache_lookup. cbn. rewrite lookup_empty. reflexivity. Qed.

(** C4.  A pipeline built by [GetPipeline] for a device has a non-null
    [descriptor_update_template] exactly when the device context's
    [UseImmediate()] holds, and a non-null [descriptor_pool] (and descriptor
    set) exactly when it does not.  The property is an invariant of the
    module's cache for that device: if the pipelines cached so far have it,
    so has the pipeline [GetPipeline] returns, and so have the pipelines
    cached afterwards. *)
Theorem pipeline_protocol_invariant :
  forall m device_id func_name num_pack_args w pe m' w' vctx,
    0 <= device_id -> Rt.context_ w !! Z.to_nat device_id = Some vctx ->
    (forall name0 pe0,
       Rt.ecache_lookup m device_id name0 = Some pe0 -> pipeline_matches_protocol vctx pe0) ->
    Rt.GetPipeline m device_id func_name num_pack_args w = (Rt.Ok (pe, m'), w') ->
    pipeline_matches_protocol vctx pe /\
    (Rt.ecache_lookup m device_id func_name = None ->
     exists w0, Rt.build_pipeline m vctx device_id func_name num_pack_args w0
                = (Rt.Ok pe, w')) /\
    (forall name0 pe0,
       Rt.ecache_lookup m' device_id name0 = Some pe0 -> pipeline_matches_protocol vctx pe0).
Proof.
  intros m device_id func_name num_pack_args w pe m' w' vctx Hid Hctx Hinv.
  unfold Rt.GetPipeline. rewrite (bind_Ok _ _ _ _ _ (context_run _ _ _ Hid Hctx)).
  destruct (Rt.ecache_lookup m device_id func_name) as [cp|] eqn:Hcached.
  - intros [= <- <- <-]. split; [eapply Hinv; exact Hcached|].
    split; [discriminate | exact Hinv].
  - intros H. inv_bind H. injection H as <- <- <-.
    pose proof (build_pipeline_protocol _ _ _ _ _ _ _ _ Hrun) as Hpe.
    split; [exact Hpe|]. split; [eauto|].
    intros name0 pe0. unfold Rt.ecache_lookup, Rt.ecache_store. cbn [Rt.ecache_].
    rewrite lookup_insert_eq. cbn.
    destruct (decide (name0 = func_name)) as [->|Hne].
    + rewrite lookup_insert_eq. intros [= <-]. exact Hpe.
    + rewrite lookup_insert_ne by congruence. intros Hl.
      apply (Hinv name0). unfold Rt.ecache_lookup.
      destruct (Rt.ecache_ m !! device_id) as [c|]; cbn in *; [exact Hl|].
      rewrite lookup_empty in Hl. discriminate.
Qed.


(** ** What a computation can add to the call log *)

Section Emits.
Import Rt.

Variable P : VkCall -> Prop.

Lemma emits_nothing {A} (c : M A) :
  (forall w r w', c w = (r, w') -> calls (drv w') = calls (drv w)) -> emits_only P c.
Proof.
  intros H w r w' Hrun. exists []. rewrite app_nil_r. split; [eauto | constructor].
Qed.

Lemma emits_ret {A} (a : A) : emits_only P (ret a).
Proof. apply emits_nothing. intros w r w' [= _ <-]. reflexivity. Qed.

Lemma emits_fail {A} e : emits_only P (@fail A e).
Proof. apply emits_nothing. intros w r w' [= _ <-]. reflexivity. Qed.

Lemma emits_get : emits_only P get.
Proof. apply emits_nothing. intros w r w' [= _ <-]. reflexivity. Qed.

Lemma emits_modify_thread f : emits_only P (modify (set_thread f)).
Proof. apply emits_nothing. intros w r w' [= _ <-]. reflexivity. Qed.

Lemma emits_modify_heap f : emits_only P (modify (set_heap f)).
Proof. apply emits_nothing. intros w r w' [= _ <-]. reflexivity. Qed.

Lemma emits_next_result : emits_only P next_result.
Proof.
  apply emits_nothing. intros w r w'. unfold next_result.
  destruct (script (drv w)); intros [= _ <-]; reflexivity.
Qed.

Lemma emits_fresh_handle : emits_only P fresh_handle.
Proof. apply emits_nothing. intros w r w' [= _ <-]. reflexivity. Qed.

Lemma emits_new_VulkanBuffer b : emits_only P (new_VulkanBuffer b).
Proof. apply emits_nothing. intros w r w' [= _ <-]. reflexivity. Qed.

Lemma emits_log c : P c -> emits_only P (log c).
Proof.
  intros Hc w r w' [= _ <-]. exists [c]. split; [reflexivity | repeat constructor; exact Hc].
Qed.

Lemma emits_bind {A B} (c : M A) (k : A -> M B) :
  emits_only P c -> (forall a, emits_only P (k a)) -> emits_only P (bind c k).
Proof.
  intros Hc Hk w r w'. unfold bind.
  destruct (c w) as [[a|e] w1] eqn:Hrun.
  - intros Hrun2.
    destruct (Hc _ _ _ Hrun) as (n1 & E1 & F1).
    destruct (Hk a _ _ _ Hrun2) as (n2 & E2 & F2).
    exists (n1 ++ n2)%list. rewrite E2, E1, app_assoc.
    split; [reflexivity | apply Forall_app; auto].
  - intros [= <- <-]. eapply Hc. exact Hrun.
Qed.

Lemma emits_if {A} (b : bool) (c1 c2 : M A) :
  emits_only P c1 -> emits_only P c2 -> emits_only P (if b then c1 else c2).
Proof. destruct b; auto. Qed.

End Emits.

Create HintDb emits.

#[local] Hint Resolve emits_ret emits_fail emits_get emits_modify_thread emits_modify_heap
  emits_next_result emits_fresh_handle emits_new_VulkanBuffer emits_if : emits.

Section EmitsRuntime.
Import Rt.

(** [p] flags calls of interest, all of them argument calls or
    synchronisations. *)
Variable p : VkCall -> bool.
Hypothesis p_flags :
  forall c, p c = true -> is_argument_call c = true \/ is_synchronize c = true.

Let P := fun c => p c = false.

Ltac unflagged :=
  lazymatch goal with
  | |- P ?c =>
      unfold P; destruct (p c) eqn:E;
      [apply p_flags in E; cbn in E; destruct E; discriminate | reflexivity]
  end.

Ltac emits_rt :=
  repeat first
    [ progress intros
    | solve [auto with emits]
    | apply emits_bind
    | apply emits_if
    | apply emits_log; unflagged
    | match goal with
      | |- emits_only _ (match ?x with _ => _ end) => destruct x
      end ].

Lemma emits_ICHECK b what : emits_only P (ICHECK b what).
Proof. unfold ICHECK. emits_rt. Qed.

Lemma emits_context id : emits_only P (context id).
Proof. unfold context. emits_rt. Qed.

Lemma emits_deref_VulkanBuffer ptr : emits_only P (deref_VulkanBuffer ptr).
Proof. unfold deref_VulkanBuffer. emits_rt. Qed.

Hint Resolve emits_ICHECK emits_context emits_deref_VulkanBuffer : emits.

Lemma emits_delete_VulkanBuffer ptr : emits_only P (delete_VulkanBuffer ptr).
Proof. unfold delete_VulkanBuffer. emits_rt. Qed.

Lemma emits_FindMemoryType vctx info req_prop : emits_only P (FindMemoryType vctx info req_prop).
Proof. unfold FindMemoryType, VULKAN_CALL_create, vk_void. emits_rt. Qed.

Lemma emits_CreateBuffer vctx nbytes usage idx : emits_only P (CreateBuffer vctx nbytes usage idx).
Proof. unfold CreateBuffer, VULKAN_CALL_create, VULKAN_CALL, vk_void. emits_rt. Qed.

Lemma emits_stream_deref s : emits_only P (stream_deref s).
Proof. unfold stream_deref. emits_rt. Qed.

Lemma emits_set_stream s st : emits_only P (set_stream s st).
Proof. unfold set_stream. emits_rt. Qed.

Hint Resolve emits_delete_VulkanBuffer emits_FindMemoryType emits_CreateBuffer
  emits_stream_deref emits_set_stream : emits.

Lemma emits_Stream id : emits_only P (Stream id).
Proof. unfold Stream, new_VulkanStream, VULKAN_CALL_create. emits_rt. Qed.

Lemma emits_begin_recording s : emits_only P (begin_recording s).
Proof. unfold begin_recording, VULKAN_CALL. emits_rt. Qed.

Lemma emits_cache_store c id b : emits_only P (cache_store c id b).
Proof. unfold cache_store. emits_rt. Qed.

Lemma emits_cache_load c id : emits_only P (cache_load c id).
Proof. unfold cache_load. emits_rt. Qed.

Hint Resolve emits_Stream emits_begin_recording emits_cache_store emits_cache_load : emits.

Lemma emits_DeleteHostVisibleBuffer buf : emits_only P (DeleteHostVisibleBuffer buf).
Proof. unfold DeleteHostVisibleBuffer, vk_void. emits_rt. Qed.

Lemma emits_GetUniformBuffer id size : emits_only P (GetUniformBuffer id size).
Proof. unfold GetUniformBuffer. emits_rt. Qed.

Hint Resolve emits_DeleteHostVisibleBuffer emits_GetUniformBuffer : emits.

Lemma emits_buffer_infos args count : forall i, emits_only P (buffer_infos args i count).
Proof.
  induction count as [|count IH]; intros i; cbn [buffer_infos]; [emits_rt|].
  unfold arg_handle. emits_rt.
Qed.

Hint Resolve emits_buffer_infos : emits.

Lemma emits_assemble_descriptor_buffers f pl id args :
  emits_only P (assemble_descriptor_buffers f pl id args).
Proof. unfold assemble_descriptor_buffers. emits_rt. Qed.

(** Without [sync_before_realloc], [GetOrAllocate] never reaches the
    [Synchronize] of its growth branch. *)
Lemma emits_GetOrAllocate_unsynchronized id size usage idx c :
  emits_only P (GetOrAllocate id size usage idx c false).
Proof. unfold GetOrAllocate, VULKAN_CALL_create. cbv iota. emits_rt. Qed.

Lemma emits_StagingBuffer id size : emits_only P (StagingBuffer id size).
Proof.
  unfold StagingBuffer. apply emits_bind; [apply emits_context|].
  intros vctx. apply emits_GetOrAllocate_unsynchronized.
Qed.

(** The rest needs [p] not to flag [Synchronize]. *)
Hypothesis p_not_synchronize : forall id, p (StreamSynchronize id) = false.

Lemma emits_Synchronize s : emits_only P (Synchronize s).
Proof.
  unfold Synchronize, VULKAN_CALL. emits_rt.
  apply emits_log. apply p_not_synchronize.
Qed.

Hint Resolve emits_Synchronize : emits.

Lemma emits_GetOrAllocate id size usage idx c sync :
  emits_only P (GetOrAllocate id size usage idx c sync).
Proof. unfold GetOrAllocate, VULKAN_CALL_create. emits_rt. Qed.

Hint Resolve emits_GetOrAllocate : emits.

Lemma emits_AllocateUniformBuffer id size : emits_only P (AllocateUniformBuffer id size).
Proof. unfold AllocateUniformBuffer. emits_rt. Qed.

Hint Resolve emits_AllocateUniformBuffer : emits.

Lemma emits_build_pipeline m vctx id func_name num_pack_args :
  emits_only P (build_pipeline m vctx id func_name num_pack_args).
Proof.
  unfold build_pipeline, VULKAN_CALL_create. emits_rt.
Qed.

Hint Resolve emits_build_pipeline : emits.

Lemma emits_GetPipeline m id func_name num_pack_args :
  emits_only P (GetPipeline m id func_name num_pack_args).
Proof. unfold GetPipeline. emits_rt. Qed.

End EmitsRuntime.

Lemma emits_only_filter {A} (p : Rt.VkCall -> bool) (c : Rt.M A) w r w' :
  emits_only (fun x => p x = false) c -> c w = (r, w') ->
  exists new,
    Rt.calls (Rt.drv w') = (Rt.calls (Rt.drv w) ++ new)%list /\ List.filter p new = [].
Proof.
  intros Hc Hrun. destruct (Hc _ _ _ Hrun) as (new & Hcalls & Hall).
  exists new. split; [exact Hcalls|]. clear Hcalls.
  induction Hall as [|x l Hx _ IH]; [reflexivity|]. cbn. rewrite Hx. exact IH.
Qed.

Lemma unsynchronized (l : list Rt.VkCall) :
  List.filter is_synchronize l = [] -> synchronizations l = [].
Proof.
  induction l as [|c l IH]; [reflexivity|].
  cbn. destruct c; cbn; try discriminate; exact IH.
Qed.

(** Whatever the driver does and however the call ends, [StagingBuffer]
    performs no [Synchronize]. *)
Lemma StagingBuffer_never_synchronizes id size w r w' :
  Rt.StagingBuffer id size w = (r, w') ->
  exists new,
    Rt.calls (Rt.drv w') = (Rt.calls (Rt.drv w) ++ new)%list /\ synchronizations new = [].
Proof.
  intros Hrun.
  destruct (emits_only_filter is_synchronize _ _ _ _
              (emits_StagingBuffer is_synchronize (fun c H => or_intror H) id size) Hrun)
    as (new & Hcalls & Hnone).
  exists new. split; [exact Hcalls | apply unsynchronized; exact Hnone].
Qed.

(** ** Kernel launch *)

Section LaunchRuns.
Import Rt.

Lemma u32_small z : 0 <= z < 4294967296 -> u32 z = z.
Proof. intros H. unfold u32. apply Z.mod_small. exact H. Qed.

Lemma length_read_slots pack_args n : length (read_slots pack_args n) = n.
Proof. unfold read_slots. rewrite length_map, length_seq. reflexivity. Qed.

Lemma buffer_infos_length args count : forall i w infos w',
  buffer_infos args i count w = (Ok infos, w') -> length infos = count.
Proof.
  induction count as [|count IH]; intros i w infos w'; cbn [buffer_infos].
  - intros [= <- _]. reflexivity.
  - intros H. inv_bind H. inv_bind H. inv_bind H. injection H as <- _.
    cbn. f_equal. eapply IH. eassumption.
Qed.

(** The number of descriptor-buffer-infos assembled for a call. *)
Lemma assemble_descriptor_buffers_length f pl id args w infos w' :
  assemble_descriptor_buffers f pl id args w = (Ok infos, w') ->
  length infos = (num_buffer_args_ f + if use_ubo pl then 1 else 0)%nat.
Proof.
  unfold assemble_descriptor_buffers. intros H. inv_bind H.
  apply buffer_infos_length in Hrun.
  destruct (use_ubo pl).
  - inv_bind H. inv_bind H. inv_bind H. injection H as <- _.
    rewrite length_app, Hrun. reflexivity.
  - injection H as <- _. rewrite Hrun. lia.
Qed.

Lemma GetUniformBuffer_Ok_inv id size w ubo w' :
  GetUniformBuffer id size w = (Ok ubo, w') -> w' = w.
Proof.
  unfold GetUniformBuffer, bind, get.
  destruct (uniform_buffers_ (thread w) !! id); [|discriminate].
  unfold ICHECK. destruct (_ <=? _); cbn; intros [= _ <-]; reflexivity.
Qed.

Lemma ICHECK_Ok_inv b what w u w' : ICHECK b what w = (Ok u, w') -> b = true /\ w' = w.
Proof. destruct b; cbn; intros [= ]; subst; auto. Qed.

Lemma vk_void_Ok_inv c w u w' : vk_void c w = (Ok u, w') -> w' = emit c w.
Proof. intros [= _ <-]. reflexivity. Qed.

Lemma log_Ok_inv c w u w' : log c w = (Ok u, w') -> w' = emit c w.
Proof. intros [= _ <-]. reflexivity. Qed.

(** The part of both kernel closures that passes the scalars. *)
Lemma pass_scalars_argument_calls f pl id state (slots : list Z) (size : Z) w u w' :
  (if use_ubo pl then
     ubo <- GetUniformBuffer id (Z.of_nat (num_pack_args_ f) * sizeof_ArgUnion64);;
     log (host_memcpy_scalars (host_addr ubo) slots
            (Z.of_nat (num_pack_args_ f) * sizeof_ArgUnion64))
   else if (0 <? Z.of_nat (num_pack_args_ f)) then
     vk_void (vkCmdPushConstants (cmd_buffer_ state) (pipeline_layout pl)
                VK_SHADER_STAGE_COMPUTE_BIT 0 size slots)
   else ret tt) w = (Ok u, w') ->
  thread w' = thread w /\
  exists new,
    calls (drv w') = (calls (drv w) ++ new)%list /\
    List.filter is_argument_call new
    = if use_ubo pl then []
      else if (0 <? Z.of_nat (num_pack_args_ f)) then
        [vkCmdPushConstants (cmd_buffer_ state) (pipeline_layout pl)
           VK_SHADER_STAGE_COMPUTE_BIT 0 size slots]
      else [].
Proof.
  destruct (use_ubo pl).
  - intros H. inv_bind H. apply GetUniformBuffer_Ok_inv in Hrun. subst.
    apply log_Ok_inv in H. subst. split; [reflexivity|].
    eexists. split; reflexivity.
  - destruct (0 <? Z.of_nat (num_pack_args_ f)).
    + intros H. apply vk_void_Ok_inv in H. subst. split; [reflexivity|].
      eexists. split; reflexivity.
    + intros [= _ <-]. split; [reflexivity|]. exists []. rewrite app_nil_r.
      split; reflexivity.
Qed.

Lemma immediate_kernel_argument_calls f pl wl infos id pack_args state w w' :
  Z.of_nat (num_pack_args_ f) * 8 < 4294967296 ->
  immediate_kernel f pl wl infos id pack_args state w = (Ok tt, w') ->
  thread w' = thread w /\
  exists new,
    calls (drv w') = (calls (drv w) ++ new)%list /\
    List.filter is_argument_call new
    = (vkCmdPushDescriptorSetWithTemplateKHR (cmd_buffer_ state)
         (descriptor_update_template pl) (pipeline_layout pl) infos
       :: push_constants_call f pl state pack_args).
Proof.
  intros Hfit. unfold immediate_kernel, push_constants_call.
  change sizeof_ArgUnion64 with 8. rewrite u32_small by lia. intros H.
  inv_bind H. apply vk_void_Ok_inv in Hrun. subst.
  inv_bind H. apply ICHECK_Ok_inv in Hrun as [_ ->].
  inv_bind H. apply vk_void_Ok_inv in Hrun. subst.
  inv_bind H. apply pass_scalars_argument_calls in Hrun as (Hth & new & Hcalls & Hnew).
  inv_bind H. apply vk_void_Ok_inv in Hrun, H. subst.
  split; [cbn [thread emit set_drv] in *; congruence|].
  eexists. cbn [calls drv emit set_drv]. rewrite Hcalls. cbn [calls drv emit set_drv].
  rewrite <- !app_assoc. split; [reflexivity|].
  rewrite !List.filter_app, Hnew. cbn. rewrite ?app_nil_r. reflexivity.
Qed.

Lemma deferred_kernel_argument_calls f pl wl id pack_args state w w' :
  Z.of_nat (num_pack_args_ f) * 8 < 4294967296 ->
  deferred_kernel f pl wl (read_slots pack_args (num_pack_args_ f))
    (Z.of_nat (num_pack_args_ f) * sizeof_ArgUnion64) id state w = (Ok tt, w') ->
  thread w' = thread w /\
  exists new,
    calls (drv w') = (calls (drv w) ++ new)%list /\
    List.filter is_argument_call new = push_constants_call f pl state pack_args.
Proof.
  intros Hfit. unfold deferred_kernel, push_constants_call.
  rewrite length_read_slots. change sizeof_ArgUnion64 with 8.
  rewrite u32_small by lia. intros H.
  inv_bind H. apply vk_void_Ok_inv in Hrun. subst.
  inv_bind H. apply vk_void_Ok_inv in Hrun. subst.
  inv_bind H. apply pass_scalars_argument_calls in Hrun as (Hth & new & Hcalls & Hnew).
  inv_bind H. apply vk_void_Ok_inv in Hrun, H. subst.
  split; [cbn [thread emit set_drv] in *; congruence|].
  eexists. cbn [calls drv emit set_drv]. rewrite Hcalls. cbn [calls drv emit set_drv].
  rewrite <- !app_assoc. split; [reflexivity|].
  rewrite !List.filter_app, Hnew. cbn. rewrite ?app_nil_r. reflexivity.
Qed.

End LaunchRuns.

Section CallRuns.
Import Rt.

Lemma flags_argument_calls :
  forall c, is_argument_call c = true -> is_argument_call c = true \/ is_synchronize c = true.
Proof. intros c H. left. exact H. Qed.

Lemma get_Ok_inv w a w' : get w = (Ok a, w') -> a = w /\ w' = w.
Proof. intros [= <- <-]. auto. Qed.

Lemma silent_run {A} (c : M A) w r w' :
  silent c -> c w = (r, w') ->
  exists new,
    calls (drv w') = (calls (drv w) ++ new)%list /\ List.filter is_argument_call new = [].
Proof. apply emits_only_filter. Qed.

Lemma map_imap_id {A B} (g : B -> A) (l : list A) : forall (f : nat -> A -> B),
  (forall i x, g (f i x) = x) -> map g (imap f l) = l.
Proof.
  induction l as [|x l IH]; intros f Hgf; cbn; [reflexivity|].
  rewrite Hgf, IH; [reflexivity|]. intros i y. apply Hgf.
Qed.

Lemma deferred_initializer_writes vctx pl infos w u w' :
  deferred_initializer vctx pl infos w = (Ok u, w') ->
  thread w' = thread w /\
  exists writes,
    calls (drv w') = (calls (drv w) ++ [vkUpdateDescriptorSets (device vctx) writes])%list /\
    map wr_pBufferInfo writes = infos.
Proof.
  unfold deferred_initializer. intros H. apply vk_void_Ok_inv in H. subst.
  split; [reflexivity|]. eexists. split; [reflexivity|].
  apply map_imap_id. reflexivity.
Qed.

Lemma begin_recording_Ok_inv s w st w' :
  begin_recording s w = (Ok st, w') ->
  exists new,
    calls (drv w') = (calls (drv w) ++ new)%list /\ List.filter is_argument_call new = [].
Proof.
  apply silent_run. apply emits_begin_recording. exact flags_argument_calls.
Qed.

End CallRuns.

Ltac silent_step H L n Hc Hf :=
  let Hs := fresh "Hs" in
  eassert (Hs : silent _);
  [ | destruct (silent_run _ _ _ _ Hs H) as (n & Hc & Hf); clear Hs ];
  [ unfold silent; apply L; first [exact flags_argument_calls | intros; reflexivity] | ].

(** C5.  For every kernel call that is carried out, with [num_pack * 8]
    within the range of the [uint32_t] size argument of [vkCmdPushConstants]:
    the descriptor-buffer-infos assembled are [num_buffer + 1] when the
    pipeline uses a UBO and [num_buffer] otherwise; on the immediate path they
    are pushed by one [vkCmdPushDescriptorSetWithTemplateKHR], on the deferred
    path they are written by at most one [vkUpdateDescriptorSets]; and in both
    paths the only other argument call is one [vkCmdPushConstants] of
    [num_pack * 8] bytes, absent in UBO mode and when [num_pack] is 0. *)
Theorem kernel_call_arguments :
  forall f m args pack_args w f' m' w',
    Z.of_nat (Rt.num_pack_args_ f) * 8 < 4294967296 ->
    Rt.VulkanWrappedFunc_call f m args pack_args w = (Rt.Ok (f', m'), w') ->
    exists vctx pl infos new st,
      Rt.context_ w !! Z.to_nat (Rt.te_device_id (Rt.thread w)) = Some vctx /\
      Rt.scache_ f' !! Rt.te_device_id (Rt.thread w) = Some pl /\
      length infos = (Rt.num_buffer_args_ f + if Rt.use_ubo pl then 1 else 0)%nat /\
      Rt.calls (Rt.drv w') = (Rt.calls (Rt.drv w) ++ new)%list /\
      if Rt.UseImmediate vctx then
        List.filter is_argument_call new
        = Rt.vkCmdPushDescriptorSetWithTemplateKHR (Rt.cmd_buffer_ st)
            (Rt.descriptor_update_template pl) (Rt.pipeline_layout pl) infos
          :: push_constants_call f pl st pack_args
      else
        exists init,
          descriptor_update vctx infos init /\
          List.filter is_argument_call new = (init ++ push_constants_call f pl st pack_args)%list.
Proof.
  intros f m args pack_args w f' m' w' Hfit H. unfold Rt.VulkanWrappedFunc_call in H.
  invert_bind H as w0 w0' Hget. apply get_Ok_inv in Hget as [-> ->].
  invert_bind H as u w0 Hcheck. apply ICHECK_Ok_inv in Hcheck as [_ ->].
  invert_bind H as vctx w0 Hcontext. apply context_Ok_inv in Hcontext as (-> & Hid & Hctx).
  invert_bind H as cached w1 Hpipe. destruct cached as [[pl f1] m1].
  assert (Hcached : Rt.scache_ f1 !! Rt.te_device_id (Rt.thread w) = Some pl /\
                    Rt.num_buffer_args_ f1 = Rt.num_buffer_args_ f /\
                    Rt.num_pack_args_ f1 = Rt.num_pack_args_ f /\
                    exists n1, Rt.calls (Rt.drv w1) = (Rt.calls (Rt.drv w) ++ n1)%list /\
                               List.filter is_argument_call n1 = []).
  { destruct (Rt.scache_ f !! Rt.te_device_id (Rt.thread w)) as [pl0|] eqn:Hsc.
    - injection Hpipe as <- <- <- <-. repeat split; auto.
      exists []. rewrite app_nil_r. auto.
    - invert_bind Hpipe as r w1' Hget. injection Hpipe as <- <- <- <-.
      split; [cbn; apply lookup_insert_eq|]. repeat split; auto.
      silent_step Hget emits_GetPipeline n1 Hc1 Hf1. eauto. }
  destruct Hcached as (Hsc & Hnb & Hnp & n1 & Hc1 & Hf1).
  invert_bind H as infos w2 Hassemble.
  pose proof (assemble_descriptor_buffers_length _ _ _ _ _ _ _ Hassemble) as Hlen.
  silent_step Hassemble emits_assemble_descriptor_buffers n2 Hc2 Hf2.
  rewrite <- Hnp in Hfit.
  destruct (Rt.UseImmediate vctx) eqn:Himm.
  - invert_bind H as s w3 Hstream.
    silent_step Hstream emits_Stream n3 Hc3 Hf3.
    invert_bind H as u1 w5 Hlaunch. unfold Rt.Launch in Hlaunch.
    invert_bind Hlaunch as st w4 Hbegin.
    destruct (begin_recording_Ok_inv _ _ _ _ Hbegin) as (n4 & Hc4 & Hf4).
    destruct u1.
    apply (immediate_kernel_argument_calls _ _ _ _ _ _ _ _ _ Hfit) in Hlaunch
      as (_ & n5 & Hc5 & Hf5).
    injection H as <- <- <-.
    exists vctx, pl, infos, (n1 ++ n2 ++ n3 ++ n4 ++ n5)%list, st.
    split; [exact Hctx|]. split; [exact Hsc|].
    split; [rewrite Hlen, Hnb; reflexivity|].
    split; [rewrite Hc5, Hc4, Hc3, Hc2, Hc1, <- !app_assoc; reflexivity|].
    rewrite Himm, !List.filter_app, Hf1, Hf2, Hf3, Hf4, Hf5. cbn [app].
    unfold push_constants_call. rewrite Hnp. reflexivity.
  - invert_bind H as s w3 Hstream.
    silent_step Hstream emits_Stream n3 Hc3 Hf3.
    invert_bind H as u1 w6 Hlaunch. unfold Rt.LaunchDeferred in Hlaunch.
    invert_bind Hlaunch as st0 w3' Hderef.
    silent_step Hderef emits_stream_deref n3' Hc3' Hf3'.
    invert_bind Hlaunch as u2 w4 Hinit.
    assert (Hinit' : exists init,
              descriptor_update vctx infos init /\
              Rt.calls (Rt.drv w4) = (Rt.calls (Rt.drv w3') ++ init)%list).
    { destruct (bool_decide _).
      - injection Hinit as _ <-. exists []. rewrite app_nil_r. split; [left|]; reflexivity.
      - invert_bind Hinit as u3 w3a Hi.
        apply deferred_initializer_writes in Hi as (_ & writes & Hcw & Hmap).
        invert_bind Hinit as st1 w3b Hd. apply bind_Ok_inv in Hd as (w3c & ? & Hg & Hd).
        apply get_Ok_inv in Hg as [-> ->].
        assert (w3b = w3a) as ->.
        { destruct (Rt.streams_ (Rt.thread w3a) !! s); [|discriminate].
          injection Hd as _ <-. reflexivity. }
        unfold Rt.set_stream in Hinit. injection Hinit as _ <-.
        exists [Rt.vkUpdateDescriptorSets (Rt.device vctx) writes].
        split; [right; exists writes; auto|]. exact Hcw. }
    destruct Hinit' as (init & Hupd & Hc4).
    invert_bind Hlaunch as st w5 Hbegin.
    destruct (begin_recording_Ok_inv _ _ _ _ Hbegin) as (n5 & Hc5 & Hf5).
    destruct u1.
    apply (deferred_kernel_argument_calls _ _ _ _ _ _ _ _ Hfit) in Hlaunch
      as (_ & n6 & Hc6 & Hf6).
    injection H as <- <- <-.
    exists vctx, pl, infos, (n1 ++ n2 ++ n3 ++ n3' ++ init ++ n5 ++ n6)%list, st.
    split; [exact Hctx|]. split; [exact Hsc|].
    split; [rewrite Hlen, Hnb; reflexivity|].
    split; [rewrite Hc6, Hc5, Hc4, Hc3', Hc3, Hc2, Hc1, <- !app_assoc; reflexivity|].
    rewrite Himm. exists init. split; [exact Hupd|].
    rewrite !List.filter_app, Hf1, Hf2, Hf3, Hf3', Hf5, Hf6. cbn [app].
    unfold push_constants_call. rewrite Hnp.
    f_equal. destruct Hupd as [-> | (writes & -> & _)]; reflexivity.
Qed.

(** ** The module container *)

Section ContainerLaws.
Import Rt Ser.
Context {Cell : Type}.
Context `{Sstr : Serializable Cell string}.
Context `{Sfmap : Serializable Cell (gmap string FunctionInfo)}.
Context `{Ssmap : Serializable Cell (gmap string VulkanShader)}.

Lemma SaveToBinary_appends (m : VulkanModuleNode) (stream : list Cell) :
  SaveToBinary m stream = (stream ++ SaveToBinary m [])%list.
Proof. unfold SaveToBinary. cbn [app]. rewrite <- !app_assoc. reflexivity. Qed.

(** Whatever the stream holds, the module read from it has no source text
    and an empty pipeline cache. *)
Lemma VulkanModuleLoadBinary_source (stream : list Cell) :
  source_ (fst (VulkanModuleLoadBinary stream)) = "" /\
  fmt_ (fst (VulkanModuleLoadBinary stream)) = "vulkan" /\
  ecache_ (fst (VulkanModuleLoadBinary stream)) = ∅.
Proof.
  unfold VulkanModuleLoadBinary.
  destruct (stream_Read stream "") as [[? ?] s1].
  destruct (stream_Read s1 (∅ : gmap string FunctionInfo)) as [[? ?] s2].
  destruct (stream_Read s2 (∅ : gmap string VulkanShader)) as [[? ?] s3].
  repeat split.
Qed.

End ContainerLaws.

#[global] Instance string_records_lawful : Ser.Lawful Ser.Chunk string.
Proof. intros x d rest. reflexivity. Qed.

#[global] Instance fmap_records_lawful : Ser.Lawful Ser.Chunk (gmap string Rt.FunctionInfo).
Proof. intros x d rest. reflexivity. Qed.

#[global] Instance smap_records_lawful : Ser.Lawful Ser.Chunk (gmap string Rt.VulkanShader).
Proof. intros x d rest. reflexivity. Qed.

(** C2, as amended.  Over any stream codec that reads back what it wrote:
    loading from the position at which a module was saved yields a module
    with the same [smap] and the same [fmap], and leaves the stream where the
    saved module ends; its source string is empty, since the source is not
    part of the container. *)
Theorem save_load_round_trip :
  forall (Cell : Type)
         (Sstr : Ser.Serializable Cell string)
         (Sfmap : Ser.Serializable Cell (gmap string Rt.FunctionInfo))
         (Ssmap : Ser.Serializable Cell (gmap string Rt.VulkanShader)),
    Ser.Lawful Cell string ->
    Ser.Lawful Cell (gmap string Rt.FunctionInfo) ->
    Ser.Lawful Cell (gmap string Rt.VulkanShader) ->
    forall (m : Rt.VulkanModuleNode) (rest : list Cell),
      let loaded := Ser.VulkanModuleLoadBinary (Ser.SaveToBinary m [] ++ rest)%list in
      Rt.smap_ (fst loaded) = Rt.smap_ m /\
      Rt.fmap_ (fst loaded) = Rt.fmap_ m /\
      Rt.source_ (fst loaded) = "" /\
      snd loaded = rest.
Proof.
  intros Cell Sstr Sfmap Ssmap Lstr Lfmap Lsmap m rest loaded. subst loaded.
  unfold Ser.VulkanModuleLoadBinary, Ser.SaveToBinary. cbn [app].
  rewrite <- !app_assoc.
  rewrite (Lstr (Rt.fmt_ m) "").
  rewrite (Lfmap (Rt.fmap_ m) ∅).
  rewrite (Lsmap (Rt.smap_ m) ∅).
  repeat split.
Qed.

Lemma save_load_round_trip_witness :
  let m := Sample.sample_module "void main() {}" in
  let loaded :=
    Ser.VulkanModuleLoadBinary (Cell := Ser.Chunk) (Ser.SaveToBinary m [] ++ [])%list in
  Rt.smap_ (fst loaded) = Rt.smap_ m /\
  Rt.fmap_ (fst loaded) = Rt.fmap_ m /\
  Rt.source_ (fst loaded) = "" /\
  snd loaded = [].
Proof.
  intros m.
  exact (save_load_round_trip Ser.Chunk _ _ _ string_records_lawful fmap_records_lawful
           smap_records_lawful m []).
Defined.

(** C2, as stated, fails: the module loaded from the stream a module with a
    source text was saved to has a different source string. *)
Lemma save_load_loses_source :
  let m := Sample.sample_module "void main() {}" in
  let loaded := fst (Ser.VulkanModuleLoadBinary (Cell := Ser.Chunk) (Ser.SaveToBinary m [])) in
  Rt.smap_ loaded = Rt.smap_ m /\ Rt.fmap_ loaded = Rt.fmap_ m /\
  Rt.source_ loaded <> Rt.source_ m.
Proof. repeat split. discriminate. Qed.

(** ** The claims on sample runs *)

Lemma streams_filed_fresh (w : Rt.World) :
  Rt.streams_ (Rt.thread w) = ∅ -> streams_filed w.
Proof. intros H id st. rewrite H, lookup_empty. discriminate. Qed.

Lemma zero_byte_allocation_witness :
  exists ptr w1,
    Rt.AllocDataSpace Sample.vulkan0 0 64 Sample.float32 Sample.deferred_world
    = (Rt.Ok ptr, w1) /\ ptr <> 0.
Proof.
  destruct (zero_byte_allocation_is_freeable Sample.vulkan0 64 Sample.float32
              (Sample.gpu_context ∅ [] 101 102) Sample.deferred_world)
    as (_ & ptr & vb & w1 & Hrun & Hnz & _).
  - reflexivity.
  - apply streams_filed_fresh. reflexivity.
  - simpl. lia.
  - reflexivity.
  - exists ptr, w1. split; [exact Hrun | exact Hnz].
Defined.

Lemma ubo_growth_witness :
  (exists w', Rt.AllocateUniformBuffer 0 64 (Sample.busy_world ∅ []) = (Rt.Ok tt, w')) /\
  (exists buf' w', Rt.StagingBuffer 0 64 (Sample.busy_world ∅ []) = (Rt.Ok buf', w')).
Proof.
  pose proof (ubo_growth_synchronizes_once_staging_never 0 64
                {| Rt.hv_device := 101; Rt.vk_buf := 4; Rt.host_addr := 42; Rt.hv_size := 8 |}
                {| Rt.buffer := 40; Rt.memory := 41 |}
                (Sample.gpu_context ∅ [] 101 102) (Sample.busy_world ∅ [])
                eq_refl (streams_filed_fresh (Sample.busy_world ∅ []) eq_refl) (Z.le_refl 0) eq_refl) as (Hubo & _).
  pose proof (ubo_growth_synchronizes_once_staging_never 0 64
                {| Rt.hv_device := 101; Rt.vk_buf := 3; Rt.host_addr := 32; Rt.hv_size := 8 |}
                {| Rt.buffer := 30; Rt.memory := 31 |}
                (Sample.gpu_context ∅ [] 101 102) (Sample.busy_world ∅ [])
                eq_refl (streams_filed_fresh (Sample.busy_world ∅ []) eq_refl) (Z.le_refl 0) eq_refl)
    as (_ & Hstaging & _).
  split.
  - destruct (Hubo 2) as (w' & pre & post & buf' & Hrun & _).
    + reflexivity.
    + unfold mapped_entry. repeat split; discriminate.
    + reflexivity.
    + reflexivity.
    + exists w'. exact Hrun.
  - destruct Hstaging as (w' & new & buf' & Hrun & _).
    + reflexivity.
    + unfold mapped_entry. repeat split; discriminate.
    + reflexivity.
    + exists buf', w'. exact Hrun.
Defined.

Lemma device_to_device_copy_witness :
  (exists e w',
     Rt.CopyDataFromTo 1 0 2 0 1024 Sample.vulkan0 Sample.vulkan1 Sample.float32 0
       (Sample.busy_world ∅ []) = (Rt.Fail e, w')) /\
  (exists w',
     Rt.CopyDataFromTo 1 0 2 0 1024 Sample.vulkan0 Sample.vulkan0 Sample.float32 0
       (Sample.busy_world ∅ []) = (Rt.Ok tt, w')).
Proof.
  split.
  - destruct (device_to_device_copy 1 0 2 0 1024 Sample.vulkan0 Sample.vulkan1
                Sample.float32 eq_refl eq_refl) as (Hcross & _).
    destruct Hcross as (Hfails & _); [discriminate|].
    apply Hfails.
  - destruct (device_to_device_copy 1 0 2 0 1024 Sample.vulkan0 Sample.vulkan0
                Sample.float32 eq_refl eq_refl) as (_ & Hsame).
    destruct (Hsame eq_refl (Sample.busy_world ∅ []) (Sample.gpu_context ∅ [] 101 102)
                {| Rt.buffer := 10; Rt.memory := 11 |} {| Rt.buffer := 20; Rt.memory := 21 |}
                eq_refl (streams_filed_fresh (Sample.busy_world ∅ []) eq_refl) (Z.le_refl 0) eq_refl eq_refl eq_refl)
      as (w' & st & pre & Hrun & _).
    exists w'. exact Hrun.
Defined.

Lemma filter_push_of_argument_calls (l : list Rt.VkCall) :
  List.filter is_push_constants (List.filter is_argument_call l)
  = List.filter is_push_constants l.
Proof.
  induction l as [|c l IH]; [reflexivity|].
  cbn. destruct c; cbn; rewrite IH; reflexivity.
Qed.

Lemma pipeline_protocol_witness :
  match Rt.GetPipeline (Sample.sample_module "") 0 "copy_kernel" 1 Sample.immediate_world with
  | (Rt.Ok (pe, _), _) =>
      Rt.descriptor_update_template pe <> VK_NULL_HANDLE /\
      Rt.descriptor_pool pe = VK_NULL_HANDLE
  | _ => False
  end /\
  match Rt.GetPipeline (Sample.sample_module "") 0 "copy_kernel" 1 Sample.deferred_world with
  | (Rt.Ok (pe, _), _) =>
      Rt.descriptor_update_template pe = VK_NULL_HANDLE /\
      Rt.descriptor_pool pe <> VK_NULL_HANDLE
  | _ => False
  end.
Proof.
  split.
  - assert (Hok : Rt.is_Ok (fst (Rt.GetPipeline (Sample.sample_module "") 0 "copy_kernel" 1
                                    Sample.immediate_world)) = true)
      by (vm_compute; reflexivity).
    destruct (Rt.GetPipeline (Sample.sample_module "") 0 "copy_kernel" 1 Sample.immediate_world)
      as [[[pe m']|e] w'] eqn:Hrun; [|discriminate Hok].
    destruct (pipeline_protocol_invariant (Sample.sample_module "") 0 "copy_kernel" 1
                Sample.immediate_world pe m' w'
                (Sample.gpu_context ∅ Sample.push_extensions 101 102)
                (Z.le_refl 0) eq_refl) as ((Htpl & Hpool & _) & _).
    + intros name0 pe0 Hl. unfold Sample.sample_module in Hl.
      rewrite VulkanModuleCreate_cache_empty in Hl. discriminate.
    + exact Hrun.
    + split; [apply Htpl; reflexivity|].
      destruct (Z.eq_dec (Rt.descriptor_pool pe) VK_NULL_HANDLE) as [Hz|Hnz]; [exact Hz|].
      apply Hpool in Hnz. discriminate.
  - assert (Hok : Rt.is_Ok (fst (Rt.GetPipeline (Sample.sample_module "") 0 "copy_kernel" 1
                                    Sample.deferred_world)) = true)
      by (vm_compute; reflexivity).
    destruct (Rt.GetPipeline (Sample.sample_module "") 0 "copy_kernel" 1 Sample.deferred_world)
      as [[[pe m']|e] w'] eqn:Hrun; [|discriminate Hok].
    destruct (pipeline_protocol_invariant (Sample.sample_module "") 0 "copy_kernel" 1
                Sample.deferred_world pe m' w'
                (Sample.gpu_context ∅ [] 101 102)
                (Z.le_refl 0) eq_refl) as ((Htpl & Hpool & _) & _).
    + intros name0 pe0 Hl. unfold Sample.sample_module in Hl.
      rewrite VulkanModuleCreate_cache_empty in Hl. discriminate.
    + exact Hrun.
    + split; [|apply Hpool; reflexivity].
      destruct (Z.eq_dec (Rt.descriptor_update_template pe) VK_NULL_HANDLE) as [Hz|Hnz];
        [exact Hz|].
      apply Htpl in Hnz. discriminate.
Defined.

Lemma kernel_call_witness :
  call_outcome
    (Rt.VulkanWrappedFunc_call Sample.copy_kernel_func (Sample.sample_module "") [1; 2; 1024]
       (fun _ => 1024) (Sample.busy_world ∅ Sample.push_extensions)) /\
  call_outcome
    (Rt.VulkanWrappedFunc_call Sample.copy_kernel_func (Sample.sample_module "") [1; 2; 1024]
       (fun _ => 1024) (Sample.busy_world ∅ [])).
Proof.
  split.
  - assert (Hok : Rt.is_Ok (fst (Rt.VulkanWrappedFunc_call Sample.copy_kernel_func (Sample.sample_module "")
                                   [1; 2; 1024] (fun _ => 1024)
                                   (Sample.busy_world ∅ Sample.push_extensions))) = true)
      by (vm_compute; reflexivity).
    destruct (Rt.VulkanWrappedFunc_call Sample.copy_kernel_func (Sample.sample_module "") [1; 2; 1024]
                (fun _ => 1024) (Sample.busy_world ∅ Sample.push_extensions))
      as [[[f' m']|e] w'] eqn:Hrun; [|discriminate Hok].
    destruct (kernel_call_arguments Sample.copy_kernel_func (Sample.sample_module "") [1; 2; 1024]
                (fun _ => 1024) (Sample.busy_world ∅ Sample.push_extensions) f' m' w')
      as (vctx & pl & infos & new & st & Hctx & Hsc & Hlen & Hnew & Hargs).
    + simpl. lia.
    + exact Hrun.
    + injection Hctx as <-.
      change (Rt.UseImmediate _) with true in Hargs. cbv iota in Hargs.
      exists pl, infos, st. split; [exact Hsc|]. split; [exact Hlen|].
      rewrite Hnew. cbn [Rt.calls Rt.drv Sample.busy_world app].
      rewrite <- (filter_push_of_argument_calls new), Hargs. reflexivity.
  - assert (Hok : Rt.is_Ok (fst (Rt.VulkanWrappedFunc_call Sample.copy_kernel_func (Sample.sample_module "")
                                   [1; 2; 1024] (fun _ => 1024)
                                   (Sample.busy_world ∅ []))) = true)
      by (vm_compute; reflexivity).
    destruct (Rt.VulkanWrappedFunc_call Sample.copy_kernel_func (Sample.sample_module "") [1; 2; 1024]
                (fun _ => 1024) (Sample.busy_world ∅ []))
      as [[[f' m']|e] w'] eqn:Hrun; [|discriminate Hok].
    destruct (kernel_call_arguments Sample.copy_kernel_func (Sample.sample_module "") [1; 2; 1024]
                (fun _ => 1024) (Sample.busy_world ∅ []) f' m' w')
      as (vctx & pl & infos & new & st & Hctx & Hsc & Hlen & Hnew & Hargs).
    + simpl. lia.
    + exact Hrun.
    + injection Hctx as <-.
      change (Rt.UseImmediate _) with false in Hargs. cbv iota in Hargs.
      destruct Hargs as (init & Hinit & Hargs).
      exists pl, infos, st. split; [exact Hsc|]. split; [exact Hlen|].
      rewrite Hnew. cbn [Rt.calls Rt.drv Sample.busy_world app].
      rewrite <- (filter_push_of_argument_calls new), Hargs, List.filter_app.
      destruct Hinit as [-> | (writes & -> & _)]; reflexivity.
Defined.

(* ===================================================================== *)
(** * Further properties of the runtime                                   *)
(* ===================================================================== *)

Import Trace.

Lemma collect_available_elem ext_prop : forall acc ext,
  ext ∈ Boot.collect_available ext_prop acc <-> ext ∈ acc \/ listed ext_prop ext = true.
Proof.
  induction ext_prop as [|prop rest IH]; intros acc ext; cbn.
  - split; [auto | intros [H | H]; [exact H | discriminate]].
  - rewrite IH, orb_true_iff, andb_true_iff, String.eqb_eq, Z.ltb_lt.
    destruct (Z.ltb_spec 0 (Boot.specVersion prop)).
    + rewrite elem_of_union, elem_of_singleton. intuition (subst; auto).
    + intuition lia.
Qed.

Lemma push_required_spec available required : forall enabled,
  Boot.push_required available required enabled
  = if forallb (fun ext => bool_decide (ext ∈ available)) required
    then Rt.Ok (enabled ++ required)%list
    else Rt.Fail (Rt.CheckFailed "available_extensions.count(ext)").
Proof.
  induction required as [|ext rest IH]; intros enabled; cbn.
  - rewrite app_nil_r. reflexivity.
  - destruct (bool_decide (ext ∈ available)); cbn; [|reflexivity].
    rewrite IH, <- app_assoc. reflexivity.
Qed.

Lemma push_optional_spec available optional : forall enabled,
  Boot.push_optional available optional enabled
  = (enabled ++ List.filter (fun ext => bool_decide (ext ∈ available)) optional)%list.
Proof.
  induction optional as [|ext rest IH]; intros enabled; cbn.
  - rewrite app_nil_r. reflexivity.
  - rewrite IH. destruct (bool_decide (ext ∈ available)); [|reflexivity].
    rewrite <- app_assoc. reflexivity.
Qed.

Lemma available_listed ext_prop ext :
  bool_decide (ext ∈ Boot.collect_available ext_prop ∅) = listed ext_prop ext.
Proof.
  destruct (listed ext_prop ext) eqn:E.
  - apply bool_decide_eq_true. apply collect_available_elem. auto.
  - apply bool_decide_eq_false. rewrite collect_available_elem. intros [H | H].
    + apply elem_of_empty in H. exact H.
    + congruence.
Qed.

Lemma forallb_pointwise {A} (f g : A -> bool) (l : list A) :
  (forall a, f a = g a) -> forallb f l = forallb g l.
Proof.
  intros Hfg. induction l as [|a l IH]; [reflexivity|]. cbn. rewrite Hfg, IH. reflexivity.
Qed.

(** X1.  [find_enabled_extensions] succeeds exactly when every required
    extension is listed by the driver with a non-zero [specVersion]; it then
    returns the required extensions followed by the optional extensions that
    are so listed, both in the order given.  An extension listed only with
    [specVersion] 0 counts as unavailable. *)
Theorem find_enabled_extensions_spec :
  forall ext_prop required_extensions optional_extensions,
    Boot.find_enabled_extensions ext_prop required_extensions optional_extensions
    = if forallb (listed ext_prop) required_extensions
      then Rt.Ok (required_extensions
                 ++ List.filter (listed ext_prop) optional_extensions)%list
      else Rt.Fail (Rt.CheckFailed "available_extensions.count(ext)").
Proof.
  intros ext_prop required optional. unfold Boot.find_enabled_extensions.
  rewrite push_required_spec.
  rewrite (forallb_pointwise _ (listed ext_prop)) by (intros; apply available_listed).
  destruct (forallb (listed ext_prop) required); [|reflexivity].
  rewrite push_optional_spec. cbn [app]. f_equal. f_equal.
  apply List.filter_ext. intros; apply available_listed.
Qed.


(** ** Queue families *)

Lemma queue_families_where_In p queue_props : forall i j,
  In j (Setup.queue_families_where p queue_props i) <->
  exists (n : nat) queueFlags,
    j = i + Z.of_nat n /\ queue_props !! n = Some queueFlags /\ p queueFlags = true.
Proof.
  induction queue_props as [|flags rest IH]; intros i j; cbn [Setup.queue_families_where].
  - split; [intros [] | intros (n & f & _ & H & _); destruct n; discriminate].
  - assert (Hrest : In j (Setup.queue_families_where p rest (i + 1)) <->
                    exists (n : nat) f, j = i + Z.of_nat (S n) /\ rest !! n = Some f /\ p f = true).
    { rewrite IH. split; intros (n & f & -> & H); exists n, f; (split; [lia | exact H]). }
    destruct (p flags) eqn:Hp; cbn [In]; rewrite ?Hrest; split.
    + intros [<- | (n & f & -> & H)].
      * exists O, flags. rewrite Z.add_0_r. auto.
      * exists (S n), f. auto.
    + intros (n & f & -> & Hl & Hf). destruct n as [|n].
      * left. cbn. lia.
      * right. exists n, f. auto.
    + intros (n & f & -> & H). exists (S n), f. auto.
    + intros (n & f & -> & Hl & Hf). destruct n as [|n].
      * cbn in Hl. injection Hl as <-. congruence.
      * exists n, f. auto.
Qed.

Lemma queue_families_where_sorted p queue_props : forall i,
  StronglySorted Z.lt (Setup.queue_families_where p queue_props i).
Proof.
  induction queue_props as [|flags rest IH]; intros i; cbn [Setup.queue_families_where].
  - constructor.
  - destruct (p flags); [|apply IH].
    constructor; [apply IH|].
    apply List.Forall_forall. intros j Hj.
    apply queue_families_where_In in Hj as (n & f & -> & _). lia.
Qed.

(** X2.  [GetComputeQueueFamilies] returns the indices of the queue families
    that have the compute bit, each once: first those without the graphics
    bit, in increasing order, then those with it, in increasing order.  A
    family without the compute bit is never returned. *)
Theorem GetComputeQueueFamilies_order :
  forall phy_dev,
    exists compute_only compute_graphics,
      Setup.GetComputeQueueFamilies phy_dev = (compute_only ++ compute_graphics)%list /\
      StronglySorted Z.lt compute_only /\ StronglySorted Z.lt compute_graphics /\
      (forall i, In i compute_only <->
         exists (n : nat) queueFlags,
           i = Z.of_nat n /\ Rt.dm_queueFlags phy_dev !! n = Some queueFlags /\
           Z.land VK_QUEUE_COMPUTE_BIT queueFlags <> 0 /\
           Z.land VK_QUEUE_GRAPHICS_BIT queueFlags = 0) /\
      (forall i, In i compute_graphics <->
         exists (n : nat) queueFlags,
           i = Z.of_nat n /\ Rt.dm_queueFlags phy_dev !! n = Some queueFlags /\
           Z.land VK_QUEUE_COMPUTE_BIT queueFlags <> 0 /\
           Z.land VK_QUEUE_GRAPHICS_BIT queueFlags <> 0).
Proof.
  intros phy_dev. unfold Setup.GetComputeQueueFamilies. cbv zeta.
  eexists _, _. split; [reflexivity|].
  split; [apply queue_families_where_sorted|].
  split; [apply queue_families_where_sorted|].
  split; intros i; rewrite queue_families_where_In; cbn [Z.add];
    split; intros (n & f & Hi & Hl & Hp); exists n, f;
    (split; [exact Hi|]); (split; [exact Hl|]).
  - apply andb_true_iff in Hp as [H1 H2].
    apply negb_true_iff, Z.eqb_neq in H1. apply Z.eqb_eq in H2. auto.
  - destruct Hp as [H1 H2]. apply andb_true_iff.
    split; [apply negb_true_iff, Z.eqb_neq; exact H1 | apply Z.eqb_eq; exact H2].
  - apply andb_true_iff in Hp as [H1 H2].
    apply negb_true_iff, Z.eqb_neq in H1, H2. auto.
  - destruct Hp as [H1 H2]. apply andb_true_iff.
    split; apply negb_true_iff, Z.eqb_neq; assumption.
Qed.

(** ** FindMemoryType *)

Lemma land_1_testbit (a : Z) : (Z.land a 1 =? 1) = Z.testbit a 0.
Proof.
  change 1 with (Z.ones 1) at 1. rewrite Z.land_ones by lia.
  change (2 ^ 1) with 2. rewrite Zmod_odd, Z.bit0_odd.
  destruct (Z.odd a); reflexivity.
Qed.



Lemma FindMemoryType_loop_first_fit types : forall i type_bits req_prop,
  0 <= i ->
  match Rt.FindMemoryType_loop types i type_bits req_prop with
  | Some r => exists n : nat, r = i + Z.of_nat n /\ fits types type_bits req_prop n /\
                              forall m : nat, (m < n)%nat -> ~ fits types type_bits req_prop m
  | None => forall n : nat, ~ fits types type_bits req_prop n
  end.
Proof.
  induction types as [|ty rest IH]; intros i type_bits req_prop Hi; cbn [Rt.FindMemoryType_loop].
  - intros n (ty & H & _). destruct n; discriminate.
  - rewrite land_1_testbit.
    assert (Hshift : forall n : nat,
              fits rest (Z.shiftr type_bits 1) req_prop n <->
              fits (ty :: rest) type_bits req_prop (S n)).
    { intros n. unfold fits. cbn [lookup list_lookup].
      rewrite Z.shiftr_spec by lia.
      replace (Z.of_nat n + 1) with (Z.of_nat (S n)) by lia. reflexivity. }
    destruct (Z.testbit type_bits 0 && (Z.land (Rt.propertyFlags ty) req_prop =? req_prop))
      eqn:Hhit.
    + apply andb_true_iff in Hhit as [Hb Hf]. apply Z.eqb_eq in Hf.
      exists O. split; [lia|]. split; [exists ty; auto | intros m Hm; lia].
    + specialize (IH (i + 1) (Z.shiftr type_bits 1) req_prop ltac:(lia)).
      assert (Hmiss : ~ fits (ty :: rest) type_bits req_prop 0).
      { intros (ty' & [= <-] & Hb & Hf). change (Z.of_nat 0) with 0 in Hb.
        rewrite Hb in Hhit.
        apply Z.eqb_eq in Hf. rewrite Hf in Hhit. discriminate. }
      destruct (Rt.FindMemoryType_loop rest (i + 1) (Z.shiftr type_bits 1) req_prop) as [r|].
      * destruct IH as (n & -> & Hfit & Hfirst). exists (S n).
        split; [lia|]. split; [apply Hshift; exact Hfit|].
        intros [|m] Hm; [exact Hmiss|]. rewrite <- Hshift. apply Hfirst. lia.
      * intros [|n]; [exact Hmiss|]. rewrite <- Hshift. apply IH.
Qed.

(** X3.  [FindMemoryType] returns the lowest memory type index whose bit is
    set in the probe buffer's [memoryTypeBits] and whose property flags
    include all of [req_prop]; when no memory type fits, it fails with
    "Requested memory type not found"; with a cooperative driver these are
    the only two outcomes. *)
Theorem FindMemoryType_first_fit :
  forall vctx info req_prop w,
    let types := Rt.memoryTypes (Rt.dm_memory (Rt.phy_device vctx)) in
    let type_bits := Rt.dm_memoryTypeBits (Rt.phy_device vctx) (Rt.info_usage info) in
    match Rt.FindMemoryType vctx info req_prop w with
    | (Rt.Ok i, _) =>
        exists n : nat, i = Z.of_nat n /\ fits types type_bits req_prop n /\
                        forall m : nat, (m < n)%nat -> ~ fits types type_bits req_prop m
    | (Rt.Fail (Rt.CheckFailed what), _) =>
        what = "Requested memory type not found" /\
        forall n : nat, ~ fits types type_bits req_prop n
    | (Rt.Fail _, _) => ~ Rt.cooperative w
    end.
Proof.
  intros vctx info req_prop w types type_bits.
  pose proof (FindMemoryType_loop_first_fit types 0 type_bits req_prop (Z.le_refl 0)) as Hloop.
  unfold Rt.FindMemoryType, Rt.VULKAN_CALL_create, Rt.vk_void, Rt.bind, Rt.next_result,
    Rt.fresh_handle, Rt.log, Rt.modify, Rt.ret, Rt.fail.
  fold types. fold type_bits.
  destruct (Rt.script (Rt.drv w)) as [|[|code] rest] eqn:Hscript; cbn.
  - destruct (Rt.FindMemoryType_loop types 0 type_bits req_prop); [exact Hloop | auto].
  - destruct (Rt.FindMemoryType_loop types 0 type_bits req_prop); [exact Hloop | auto].
  - unfold Rt.cooperative. rewrite Hscript. discriminate.
Qed.




Section ScanArgTypes.
Import Rt.

Lemma bump_storage_pool_sizes (n : nat) :
  Z.of_nat n + 1 < 4294967296 ->
  bump_pool_size (storage_pool_sizes n) VK_DESCRIPTOR_TYPE_STORAGE_BUFFER
  = storage_pool_sizes (S n).
Proof.
  intros Hn. destruct n as [|n]; [reflexivity|].
  cbn [storage_pool_sizes bump_pool_size ps_type ps_descriptorCount].
  rewrite bool_decide_eq_true_2 by reflexivity.
  unfold u32. rewrite Z.mod_small by lia.
  do 2 f_equal. lia.
Qed.

Lemma scan_arg_types_from types : forall (k pods : nat),
  24 * (Z.of_nat k + Z.of_nat (length types)) < 4294967296 ->
  Z.of_nat pods + Z.of_nat (length types) < 4294967296 ->
  let n := length (List.filter is_handle types) in
  scan_arg_types types
    {| arg_binding := map (binding_of VK_DESCRIPTOR_TYPE_STORAGE_BUFFER) (seq 0 k);
       arg_template := map (template_entry_of VK_DESCRIPTOR_TYPE_STORAGE_BUFFER) (seq 0 k);
       descriptor_set_pool_sizes := storage_pool_sizes k |}
    (Z.of_nat pods) (Z.of_nat k)
  = ({| arg_binding := map (binding_of VK_DESCRIPTOR_TYPE_STORAGE_BUFFER) (seq 0 (k + n));
        arg_template := map (template_entry_of VK_DESCRIPTOR_TYPE_STORAGE_BUFFER) (seq 0 (k + n));
        descriptor_set_pool_sizes := storage_pool_sizes (k + n) |},
     Z.of_nat (pods + (length types - n)), Z.of_nat (k + n)).
Proof.
  induction types as [|arg_type rest IH]; intros k pods Hk Hp; cbn [scan_arg_types].
  - cbn. rewrite !Nat.add_0_r. reflexivity.
  - cbn [length List.filter] in *.
    pose proof (List.filter_length_le is_handle rest) as Hle.
    change (code arg_type =? kTVMOpaqueHandle) with (is_handle arg_type).
    destruct (is_handle arg_type).
    + unfold push_arg_info.
      cbn [arg_binding arg_template descriptor_set_pool_sizes].
      rewrite bump_storage_pool_sizes by lia.
      unfold u32. rewrite !Z.mod_small by (unfold sizeof_VkDescriptorBufferInfo; lia).
      replace (Z.of_nat k + 1) with (Z.of_nat (S k)) by lia.
      specialize (IH (S k) pods ltac:(lia) ltac:(lia)). cbv zeta in IH.
      replace (map (binding_of VK_DESCRIPTOR_TYPE_STORAGE_BUFFER) (seq 0 k) ++ _)%list
        with (map (binding_of VK_DESCRIPTOR_TYPE_STORAGE_BUFFER) (seq 0 (S k))).
      2:{ rewrite seq_S, map_app. reflexivity. }
      replace (map (template_entry_of VK_DESCRIPTOR_TYPE_STORAGE_BUFFER) (seq 0 k) ++ _)%list
        with (map (template_entry_of VK_DESCRIPTOR_TYPE_STORAGE_BUFFER) (seq 0 (S k))).
      2:{ rewrite seq_S, map_app. cbn [map Nat.add]. f_equal.
          unfold template_entry_of, sizeof_VkDescriptorBufferInfo.
          rewrite (Z.mul_comm 24). reflexivity. }
      rewrite IH. cbn [length]. rewrite Nat.add_succ_comm, Nat.sub_succ. reflexivity.
    + unfold u32. rewrite Z.mod_small by lia.
      replace (Z.of_nat pods + 1) with (Z.of_nat (S pods)) by lia.
      specialize (IH k (S pods) ltac:(lia) ltac:(lia)). cbv zeta in IH.
      rewrite IH. do 2 f_equal. f_equal. lia.
Qed.

End ScanArgTypes.

(** X4.  The argument scan of [GetPipeline]: with [n] the number of
    opaque-handle arguments, the layout bindings and the update-template
    entries are those of bindings 0, 1, ..., n-1 in argument order, all
    storage buffers, entry [i] reading the [i]-th [VkDescriptorBufferInfo]
    (offset [24 * i], stride 24); the pool holds one size entry of count [n]
    (none when [n] is 0); [num_buffer] is [n] and [num_pod] counts the other
    arguments. *)
Theorem scan_arg_types_closed_form :
  forall types,
    24 * Z.of_nat (length types) < 4294967296 ->
    let n := length (List.filter is_handle types) in
    Rt.scan_arg_types types
      {| Rt.arg_binding := []; Rt.arg_template := []; Rt.descriptor_set_pool_sizes := [] |} 0 0
    = ({| Rt.arg_binding := map (binding_of VK_DESCRIPTOR_TYPE_STORAGE_BUFFER) (seq 0 n);
          Rt.arg_template := map (template_entry_of VK_DESCRIPTOR_TYPE_STORAGE_BUFFER) (seq 0 n);
          Rt.descriptor_set_pool_sizes := storage_pool_sizes n |},
       Z.of_nat (length types - n), Z.of_nat n).
Proof.
  intros types Hlen. exact (scan_arg_types_from types 0 0 ltac:(lia) ltac:(lia)).
Qed.

Lemma scan_arg_types_closed_form_witness :
  Rt.scan_arg_types
    [ {| Rt.code := 3; Rt.bits := 64; Rt.lanes := 1 |};
      {| Rt.code := 0; Rt.bits := 32; Rt.lanes := 1 |};
      {| Rt.code := 3; Rt.bits := 64; Rt.lanes := 1 |} ]
    {| Rt.arg_binding := []; Rt.arg_template := []; Rt.descriptor_set_pool_sizes := [] |} 0 0
  = ({| Rt.arg_binding := map (binding_of VK_DESCRIPTOR_TYPE_STORAGE_BUFFER) [0; 1]%nat;
        Rt.arg_template := map (template_entry_of VK_DESCRIPTOR_TYPE_STORAGE_BUFFER) [0; 1]%nat;
        Rt.descriptor_set_pool_sizes := storage_pool_sizes 2 |}, 1, 2).
Proof.
  apply (scan_arg_types_closed_form
           [ {| Rt.code := 3; Rt.bits := 64; Rt.lanes := 1 |};
             {| Rt.code := 0; Rt.bits := 32; Rt.lanes := 1 |};
             {| Rt.code := 3; Rt.bits := 64; Rt.lanes := 1 |} ]).
  simpl. lia.
Defined.

(** ** The conformance clamp *)

Lemma VK_VERSION_of_MAKE (major minor : Z) :
  0 <= major -> 0 <= minor < 1024 ->
  VK_VERSION_MAJOR (VK_MAKE_VERSION major minor 0) = major /\
  VK_VERSION_MINOR (VK_MAKE_VERSION major minor 0) = minor.
Proof.
  intros HM Hm. unfold VK_VERSION_MAJOR, VK_VERSION_MINOR, VK_MAKE_VERSION.
  rewrite Z.lor_0_r.
  assert (Hhi : Z.shiftr minor 10 = 0).
  { rewrite Z.shiftr_div_pow2 by lia. apply Z.div_small. change (2 ^ 10) with 1024. lia. }
  split.
  - rewrite Z.shiftr_lor, Z.shiftr_shiftl_l by lia.
    rewrite Z.shiftr_shiftl_r by lia.
    replace (22 - 22) with 0 by lia. replace (22 - 12) with 10 by lia.
    rewrite Z.shiftl_0_r, Hhi, Z.lor_0_r. reflexivity.
  - rewrite Z.shiftr_lor, !Z.shiftr_shiftl_l by lia.
    replace (22 - 12) with 10 by lia. replace (12 - 12) with 0 by lia.
    rewrite Z.shiftl_0_r.
    change 1023 with (Z.ones 10). rewrite Z.land_ones by lia.
    apply Z.bits_inj'. intros k Hk.
    destruct (Z.ltb_spec k 10).
    + rewrite Z.mod_pow2_bits_low by lia.
      rewrite Z.lor_spec, Z.shiftl_spec by lia.
      rewrite (Z.testbit_neg_r major) by lia. reflexivity.
    + rewrite Z.mod_pow2_bits_high by lia.
      symmetry. apply Z.bits_above_log2; [lia|].
      destruct (Z.eq_dec minor 0) as [->|Hne]; [cbn; lia|].
      apply Z.log2_lt_pow2; [lia|]. change (2 ^ k) with (2 ^ k).
      assert (2 ^ 10 <= 2 ^ k) by (apply Z.pow_le_mono_r; lia).
      change (2 ^ 10) with 1024 in *. lia.
Qed.

(** X5.  When VK_KHR_driver_properties is enabled, the API version the target
    reports never exceeds the driver's conformance version in (major, minor);
    it is the device's [apiVersion] when that is within the conformance
    version, and the conformance version with patch 0 otherwise. *)
Theorem vulkan_api_version_within_conformance :
  forall dev instance_extensions device_extensions,
    Caps.has_extension instance_extensions device_extensions "VK_KHR_driver_properties" = true ->
    let conformance := Caps.driver dev instance_extensions device_extensions in
    0 <= Caps.major conformance < 256 -> 0 <= Caps.minor conformance < 256 ->
    let api := Caps.apiVersion (Caps.pd_properties dev) in
    let v := Caps.vulkan_api_version dev instance_extensions device_extensions in
    (VK_VERSION_MAJOR v < Caps.major conformance \/
     (VK_VERSION_MAJOR v = Caps.major conformance /\
      VK_VERSION_MINOR v <= Caps.minor conformance)) /\
    (v = api \/ v = VK_MAKE_VERSION (Caps.major conformance) (Caps.minor conformance) 0).
Proof.
  intros dev ie de Hext conformance HM Hm api v.
  subst v. unfold Caps.vulkan_api_version. rewrite Hext. cbv zeta.
  fold conformance. fold api.
  destruct ((Caps.major conformance <? VK_VERSION_MAJOR api)
            || (VK_VERSION_MAJOR api =? Caps.major conformance)
               && (Caps.minor conformance <? VK_VERSION_MINOR api)) eqn:Hclamp.
  - destruct (VK_VERSION_of_MAKE (Caps.major conformance) (Caps.minor conformance))
      as [-> ->]; [lia | lia |].
    split; [right; lia | right; reflexivity].
  - apply orb_false_iff in Hclamp as [H1 H2].
    apply Z.ltb_ge in H1. split; [|left; reflexivity].
    destruct (Z.eqb_spec (VK_VERSION_MAJOR api) (Caps.major conformance)) as [Heq|Hne].
    + cbn in H2. apply Z.ltb_ge in H2. right. auto.
    + left. lia.
Qed.

Lemma vulkan_api_version_within_conformance_witness :
  let dev : Caps.PhysicalDevice :=
    {| Caps.pd_properties :=
         {| Caps.apiVersion := VK_MAKE_VERSION 1 2 170; Caps.driverVersion := 1;
            Caps.deviceName := "gpu0"; Caps.limits := Sample.limits |};
       Caps.pd_conformanceVersion := {| Caps.major := 1; Caps.minor := 1 |};
       Caps.pd_subgroup := Caps.zero_subgroup;
       Caps.pd_features := Caps.pd_features Sample.caps;
       Caps.pd_storageBuffer8BitAccess := false;
       Caps.pd_storageBuffer16BitAccess := false;
       Caps.pd_shaderFloat16 := false;
       Caps.pd_shaderInt8 := false |} in
  Caps.vulkan_api_version dev ["VK_KHR_get_physical_device_properties2"]
    ["VK_KHR_driver_properties"]
  = VK_MAKE_VERSION 1 1 0.
Proof.
  intros dev.
  destruct (vulkan_api_version_within_conformance dev
              ["VK_KHR_get_physical_device_properties2"] ["VK_KHR_driver_properties"]
              eq_refl) as [_ [H | H]].
  - vm_compute. split; [discriminate | reflexivity].
  - vm_compute. split; [discriminate | reflexivity].
  - vm_compute in H. discriminate H.
  - exact H.
Defined.








(** Splits a computation along its binds and closes the calls it logs by
    evaluation of the predicate. *)
Ltac emits_by_cases :=
  repeat first
    [ progress intros
    | apply emits_ret | apply emits_fail | apply emits_get | apply emits_next_result
    | apply emits_fresh_handle | apply emits_new_VulkanBuffer
    | apply emits_modify_thread | apply emits_modify_heap
    | apply emits_bind
    | apply emits_if
    | match goal with
      | |- emits_only _ (match ?x with _ => _ end) => destruct x
      end ].

Lemma push_validation_layers_filter inst_layer_prop : forall l,
  Boot.push_validation_layers inst_layer_prop l
  = (l ++ List.filter is_validation_layer inst_layer_prop)%list.
Proof.
  induction inst_layer_prop as [|layerName rest IH]; intros l;
    cbn [Boot.push_validation_layers List.filter].
  - rewrite app_nil_r. reflexivity.
  - cbv zeta. rewrite IH. unfold is_validation_layer.
    destruct (String.eqb_spec layerName "VK_LAYER_LUNARG_standard_validation") as [->|];
      [cbn; rewrite <- app_assoc; reflexivity|].
    destruct (String.eqb_spec layerName "VK_LAYER_LUNARG_parameter_validation") as [->|];
      [cbn; rewrite <- app_assoc; reflexivity|].
    destruct (String.eqb_spec layerName "VK_LAYER_KHRONOS_validation") as [->|];
      [cbn; rewrite <- app_assoc; reflexivity|].
    reflexivity.
Qed.

(** X6.  The instance layers requested at initialisation: none unless
    TVM_VULKAN_ENABLE_VALIDATION_LAYERS is set to a non-empty value; when it
    is, every layer the driver lists under one of the three validation-layer
    names, in the driver's order, with no preference among them. *)
Theorem validation_layers_requested :
  forall env inst_layer_prop,
    Boot.layers env inst_layer_prop
    = match env !! "TVM_VULKAN_ENABLE_VALIDATION_LAYERS" with
      | None => []
      | Some v => if String.eqb v "" then []
                  else List.filter is_validation_layer inst_layer_prop
      end.
Proof.
  intros env inst_layer_prop. unfold Boot.layers, Caps.getenv, Caps.set_and_nonempty.
  destruct (env !! "TVM_VULKAN_ENABLE_VALIDATION_LAYERS") as [v|]; [|reflexivity].
  destruct (String.eqb v ""); cbn [negb]; [reflexivity|].
  apply push_validation_layers_filter.
Qed.

(** ** Dedicated allocation *)

Lemma supports_dedicated_allocation_iff (env : Caps.Env)
    (instance_extensions device_extensions : list string) :
  Caps.supports_dedicated_allocation env instance_extensions device_extensions = true <->
  In "VK_KHR_get_memory_requirements2" (device_extensions ++ instance_extensions)%list /\
  In "VK_KHR_dedicated_allocation" (device_extensions ++ instance_extensions)%list /\
  ~ (exists v, env !! "TVM_VULKAN_DISABLE_DEDICATED_ALLOCATION" = Some v /\ v <> "").
Proof.
  unfold Caps.supports_dedicated_allocation, Caps.getenv.
  rewrite <- !has_extension_In, <- set_and_nonempty_true.
  destruct (Caps.set_and_nonempty _); rewrite ?andb_true_iff; intuition congruence.
Qed.

Lemma init_context_dedicated env instance_extensions device_extensions phy_dev d q ctx :
  Setup.init_context env instance_extensions device_extensions phy_dev d q = Some (Rt.Ok ctx) ->
  Rt.get_buffer_memory_requirements_2_functions ctx
  = Caps.supports_dedicated_allocation env instance_extensions device_extensions.
Proof.
  unfold Setup.init_context.
  destruct (Setup.GetComputeQueueFamilies phy_dev) as [|qf ?]; [discriminate|].
  destruct (Setup.select_memory_types phy_dev Setup.zero_choice) as [choice|e]; [|discriminate].
  rewrite target_supports_push_descriptor, target_supports_dedicated_allocation.
  intros [= <-]. reflexivity.
Qed.

Lemma emits_bind_result {A B} (P : Rt.VkCall -> Prop) (Q : A -> Prop)
    (c : Rt.M A) (k : A -> Rt.M B) :
  emits_only P c -> (forall w a w', c w = (Rt.Ok a, w') -> Q a) ->
  (forall a, Q a -> emits_only P (k a)) -> emits_only P (Rt.bind c k).
Proof.
  intros Hc HQ Hk w r w'. unfold Rt.bind.
  destruct (c w) as [[a|e] w1] eqn:Hrun.
  - intros Hrun2.
    destruct (Hc _ _ _ Hrun) as (n1 & E1 & F1).
    destruct (Hk a (HQ _ _ _ Hrun) _ _ _ Hrun2) as (n2 & E2 & F2).
    exists (n1 ++ n2)%list. rewrite E2, E1, app_assoc.
    split; [reflexivity | apply Forall_app; auto].
  - intros [= <- <-]. eapply Hc. exact Hrun.
Qed.

Lemma CreateBuffer_allocation_as_required vctx nbytes usage idx :
  emits_only (allocation_as_required vctx nbytes usage) (Rt.CreateBuffer vctx nbytes usage idx).
Proof.
  unfold Rt.CreateBuffer, Rt.MakeBufferCreateInfo. cbn [Rt.info_size Rt.info_usage].
  apply emits_bind.
  { unfold Rt.VULKAN_CALL_create. emits_by_cases; apply emits_log; exact I. }
  intros buffer.
  set (req := Rt.dm_requirements2 (Rt.phy_device vctx) nbytes usage).
  apply (emits_bind_result _
           (fun r => r = (Rt.get_buffer_memory_requirements_2_functions vctx
                          && (Rt.requiresDedicatedAllocation req
                              || Rt.prefersDedicatedAllocation req),
                          if Rt.get_buffer_memory_requirements_2_functions vctx
                          then Rt.memoryRequirements_size req else 0))).
  - destruct (Rt.get_buffer_memory_requirements_2_functions vctx) eqn:Htable.
    + apply emits_bind; [apply emits_log; cbn; exact Htable | intros; apply emits_ret].
    + apply emits_ret.
  - intros w a w'.
    destruct (Rt.get_buffer_memory_requirements_2_functions vctx); intros [= <- _]; reflexivity.
  - intros r ->. cbn [fst snd].
    assert (Halloc : forall h,
      allocation_as_required vctx nbytes usage
        (if Rt.get_buffer_memory_requirements_2_functions vctx
            && (Rt.requiresDedicatedAllocation req || Rt.prefersDedicatedAllocation req)
         then Rt.vkAllocateMemory (Rt.device vctx)
                (if Rt.get_buffer_memory_requirements_2_functions vctx
                 then Rt.memoryRequirements_size req else 0) idx (Some buffer) h
         else Rt.vkAllocateMemory (Rt.device vctx) nbytes idx None h)).
    { intros h. unfold allocation_as_required. fold req.
      destruct (Rt.get_buffer_memory_requirements_2_functions vctx); cbn [andb];
        [destruct (_ || _)|]; cbn; eauto. }
    destruct (Rt.get_buffer_memory_requirements_2_functions vctx
              && (Rt.requiresDedicatedAllocation req || Rt.prefersDedicatedAllocation req));
      cbn [negb]; unfold Rt.VULKAN_CALL_create, Rt.VULKAN_CALL;
      emits_by_cases; apply emits_log; first [apply Halloc | exact I].
Qed.

(** X7.  A device context built at initialisation has the
    buffer-requirements function table exactly when both
    VK_KHR_get_memory_requirements2 and VK_KHR_dedicated_allocation are
    enabled and TVM_VULKAN_DISABLE_DEDICATED_ALLOCATION is not set to a
    non-empty value.  Whatever the driver does, [CreateBuffer] queries the
    dedicated requirements only through that table, and allocates dedicated
    memory of the size the driver reported exactly when the table is there
    and the driver requires or prefers it; otherwise it allocates [nbytes]
    bytes of ordinary memory. *)
Theorem dedicated_allocation_gate :
  forall env instance_extensions device_extensions phy_dev d q ctx,
    Setup.init_context env instance_extensions device_extensions phy_dev d q
      = Some (Rt.Ok ctx) ->
    (Rt.get_buffer_memory_requirements_2_functions ctx = true <->
     In "VK_KHR_get_memory_requirements2" (device_extensions ++ instance_extensions)%list /\
     In "VK_KHR_dedicated_allocation" (device_extensions ++ instance_extensions)%list /\
     ~ (exists v, env !! "TVM_VULKAN_DISABLE_DEDICATED_ALLOCATION" = Some v /\ v <> "")) /\
    forall nbytes usage mem_type_index,
      emits_only (allocation_as_required ctx nbytes usage)
        (Rt.CreateBuffer ctx nbytes usage mem_type_index).
Proof.
  intros env ie de phy_dev d q ctx Hctx.
  rewrite (init_context_dedicated _ _ _ _ _ _ _ Hctx).
  split; [apply supports_dedicated_allocation_iff|].
  intros. apply CreateBuffer_allocation_as_required.
Qed.

Lemma dedicated_allocation_gate_witness :
  let env : Caps.Env := {[ "TVM_VULKAN_DISABLE_DEDICATED_ALLOCATION" := "1" ]} in
  let de := ["VK_KHR_get_memory_requirements2"; "VK_KHR_dedicated_allocation"] in
  Rt.get_buffer_memory_requirements_2_functions (Sample.gpu_context env de 1 2) = false /\
  emits_only (allocation_as_required (Sample.gpu_context env de 1 2) 64 Rt.storage_usage)
    (Rt.CreateBuffer (Sample.gpu_context env de 1 2) 64 Rt.storage_usage 0).
Proof.
  intros env de.
  split; [reflexivity|].
  exact (proj2 (dedicated_allocation_gate env [] de Sample.gpu 1 2 _
                  (init_sample_gpu env de 1 2)) 64 Rt.storage_usage 0).
Defined.

(** ** Device attributes *)

Section GetAttrRuns.
Import Rt Api.

Lemma valid_device_lookup w id :
  valid_device w id -> exists vctx, context_ w !! Z.to_nat id = Some vctx.
Proof.
  intros [H0 Hlt]. apply lookup_lt_is_Some. lia.
Qed.

Lemma in_range_valid w id :
  (0 <=? id) && (id <? Z.of_nat (length (context_ w))) = true <-> valid_device w id.
Proof.
  unfold valid_device. rewrite andb_true_iff, Z.leb_le, Z.ltb_lt. reflexivity.
Qed.

End GetAttrRuns.

(** X8.  [GetAttr] with [kExist] never fails and changes nothing: it yields
    1 when the device id is that of an initialised device and 0 otherwise, a
    negative id included.  Every other kind fails on such an id.  For an
    initialised device, the kinds [kMaxClockRate], [kMultiProcessorCount],
    [kMaxRegistersPerBlock] and [kGcnArch] succeed and leave [*rv] as it
    was. *)
Theorem GetAttr_edge_cases :
  forall VK_HEADER_VERSION dev kind rv w,
    (valid_device w (Rt.device_id dev) ->
     Api.GetAttr VK_HEADER_VERSION dev Api.kExist rv w = (Rt.Ok (Api.RInt 1), w)) /\
    (~ valid_device w (Rt.device_id dev) ->
     Api.GetAttr VK_HEADER_VERSION dev Api.kExist rv w = (Rt.Ok (Api.RInt 0), w) /\
     (kind <> Api.kExist ->
      Api.GetAttr VK_HEADER_VERSION dev kind rv w
      = (Rt.Fail (Rt.CheckFailed "Invalid device id"), w))) /\
    (valid_device w (Rt.device_id dev) ->
     In kind [Api.kMaxClockRate; Api.kMultiProcessorCount; Api.kMaxRegistersPerBlock;
              Api.kGcnArch] ->
     Api.GetAttr VK_HEADER_VERSION dev kind rv w = (Rt.Ok rv, w)).
Proof.
  intros hv dev kind rv w.
  pose proof (in_range_valid w (Rt.device_id dev)) as Hr.
  split; [|split].
  - intros Hv. apply Hr in Hv. unfold Api.GetAttr, Rt.bind, Rt.get. rewrite Hv. reflexivity.
  - intros Hv.
    assert (Hf : (0 <=? Rt.device_id dev)
                 && (Rt.device_id dev <? Z.of_nat (length (Rt.context_ w))) = false).
    { apply not_true_is_false. intros E. apply Hv, Hr, E. }
    split.
    + unfold Api.GetAttr, Rt.bind, Rt.get. rewrite Hf. reflexivity.
    + intros Hk. unfold Api.GetAttr, Rt.bind, Rt.get. rewrite Hf.
      destruct kind; try reflexivity. contradiction.
  - intros Hv Hkind.
    destruct (valid_device_lookup _ _ Hv) as (vctx & Hctx).
    pose proof Hv as [H0 _]. apply Hr in Hv.
    unfold Api.GetAttr, Rt.bind, Rt.get, Rt.context. rewrite Hv.
    apply Z.leb_le in H0. rewrite H0.
    cbn in Hkind.
    destruct Hkind as [<- | [<- | [<- | [<- | []]]]]; cbn; rewrite Hctx; reflexivity.
Qed.

Lemma GetAttr_edge_cases_witness :
  Api.GetAttr 170 Sample.vulkan0 Api.kExist (Api.RInt 7) Sample.deferred_world
  = (Rt.Ok (Api.RInt 1), Sample.deferred_world) /\
  Api.GetAttr 170 Sample.vulkan1 Api.kExist (Api.RInt 7) Sample.deferred_world
  = (Rt.Ok (Api.RInt 0), Sample.deferred_world) /\
  Api.GetAttr 170 Sample.vulkan1 Api.kWarpSize (Api.RInt 7) Sample.deferred_world
  = (Rt.Fail (Rt.CheckFailed "Invalid device id"), Sample.deferred_world) /\
  Api.GetAttr 170 Sample.vulkan0 Api.kGcnArch (Api.RInt 7) Sample.deferred_world
  = (Rt.Ok (Api.RInt 7), Sample.deferred_world).
Proof.
  assert (Hin : valid_device Sample.deferred_world (Rt.device_id Sample.vulkan0))
    by (unfold valid_device; simpl; lia).
  assert (Hout : ~ valid_device Sample.deferred_world (Rt.device_id Sample.vulkan1))
    by (unfold valid_device; simpl; lia).
  split; [|split; [|split]].
  - exact (proj1 (GetAttr_edge_cases 170 Sample.vulkan0 Api.kExist (Api.RInt 7)
                    Sample.deferred_world) Hin).
  - exact (proj1 (proj1 (proj2 (GetAttr_edge_cases 170 Sample.vulkan1 Api.kExist (Api.RInt 7)
                                  Sample.deferred_world)) Hout)).
  - apply (proj2 (proj1 (proj2 (GetAttr_edge_cases 170 Sample.vulkan1 Api.kWarpSize (Api.RInt 7)
                                  Sample.deferred_world)) Hout)).
    discriminate.
  - apply (proj2 (proj2 (GetAttr_edge_cases 170 Sample.vulkan0 Api.kGcnArch (Api.RInt 7)
                                  Sample.deferred_world)) Hin).
    simpl. auto.
Defined.


Section TargetAttributes.
Variable env : Caps.Env.
Variable dev : Caps.PhysicalDevice.
Variables ie de : list string.
Let t := Caps.GetDeviceDescription env dev ie de.
Let l := Caps.limits (Caps.pd_properties dev).








End TargetAttributes.




(** ** What a computation leaves alone *)

Section Keeps.
Import Rt.
Context {X : Type}.
Variable f : World -> X.

Lemma keeps_ret {A} (a : A) : keeps f (ret a).
Proof. intros w r w' [= _ <-]. reflexivity. Qed.

Lemma keeps_fail {A} e : keeps f (@fail A e).
Proof. intros w r w' [= _ <-]. reflexivity. Qed.

Lemma keeps_get : keeps f get.
Proof. intros w r w' [= _ <-]. reflexivity. Qed.

Lemma keeps_bind {A B} (c : M A) (k : A -> M B) :
  keeps f c -> (forall a, keeps f (k a)) -> keeps f (bind c k).
Proof.
  intros Hc Hk w r w'. unfold bind.
  destruct (c w) as [[a|e] w1] eqn:Hrun.
  - intros Hrun2. rewrite (Hk a _ _ _ Hrun2). eapply Hc. exact Hrun.
  - intros [= <- <-]. eapply Hc. exact Hrun.
Qed.

Lemma keeps_if {A} (b : bool) (c1 c2 : M A) :
  keeps f c1 -> keeps f c2 -> keeps f (if b then c1 else c2).
Proof. destruct b; auto. Qed.

Lemma keeps_modify g : (forall w, f (g w) = f w) -> keeps f (modify g).
Proof. intros Hg w r w' [= _ <-]. apply Hg. Qed.

Lemma keeps_direct {A} (c : M A) :
  (forall w, f (snd (c w)) = f w) -> keeps f c.
Proof. intros H w r w' Hrun. specialize (H w). rewrite Hrun in H. exact H. Qed.

End Keeps.

(** Splits a computation along its binds; what is left are the updates of
    the world, each closed by evaluation. *)
Ltac keeps_by_cases :=
  repeat first
    [ progress intros
    | apply keeps_ret | apply keeps_fail | apply keeps_get
    | apply keeps_bind
    | apply keeps_if
    | apply keeps_modify; intros;
      first [ reflexivity
            | match goal with c : Rt.Cache |- _ => destruct c; reflexivity end ]
    | match goal with
      | |- keeps _ (match ?x with _ => _ end) => destruct x
      | |- keeps _ (Rt.next_result) =>
          apply keeps_direct; intros w; unfold Rt.next_result;
          destruct (Rt.script (Rt.drv w)); reflexivity
      | |- keeps _ (Rt.fresh_handle) => apply keeps_direct; intros; reflexivity
      | |- keeps _ (Rt.new_VulkanBuffer _) => apply keeps_direct; intros; reflexivity
      end ].

Section KeepsRuntime.
Import Rt.

(** Nothing the runtime does after initialisation changes the contexts. *)
Lemma keeps_context_VULKAN_CALL_create mk : keeps context_ (VULKAN_CALL_create mk).
Proof. unfold VULKAN_CALL_create, log. keeps_by_cases. Qed.

Lemma keeps_thread_VULKAN_CALL_create mk : keeps thread (VULKAN_CALL_create mk).
Proof. unfold VULKAN_CALL_create, log. keeps_by_cases. Qed.

Lemma keeps_heap_VULKAN_CALL_create mk : keeps heap (VULKAN_CALL_create mk).
Proof. unfold VULKAN_CALL_create, log. keeps_by_cases. Qed.

Lemma keeps_thread_CreateBuffer vctx nbytes usage idx :
  keeps thread (CreateBuffer vctx nbytes usage idx).
Proof.
  unfold CreateBuffer, VULKAN_CALL_create, VULKAN_CALL, vk_void, log. keeps_by_cases.
Qed.

Lemma keeps_context_CreateBuffer vctx nbytes usage idx :
  keeps context_ (CreateBuffer vctx nbytes usage idx).
Proof.
  unfold CreateBuffer, VULKAN_CALL_create, VULKAN_CALL, vk_void, log. keeps_by_cases.
Qed.

Lemma keeps_context_Stream id : keeps context_ (Stream id).
Proof.
  unfold Stream, context, new_VulkanStream, set_stream, VULKAN_CALL_create, log. keeps_by_cases.
Qed.

Lemma keeps_context_Synchronize s : keeps context_ (Synchronize s).
Proof.
  unfold Synchronize, stream_deref, context, set_stream, VULKAN_CALL, log. keeps_by_cases.
Qed.

Lemma keeps_context_DeleteHostVisibleBuffer buf : keeps context_ (DeleteHostVisibleBuffer buf).
Proof.
  unfold DeleteHostVisibleBuffer, delete_VulkanBuffer, deref_VulkanBuffer, vk_void, log.
  keeps_by_cases.
Qed.

Lemma keeps_context_cache_store c id b : keeps context_ (cache_store c id b).
Proof. unfold cache_store. keeps_by_cases. Qed.

Lemma keeps_context_cache_load c id : keeps context_ (cache_load c id).
Proof. unfold cache_load. keeps_by_cases. Qed.

Lemma keeps_context_GetOrAllocate id size usage idx c sync :
  keeps context_ (GetOrAllocate id size usage idx c sync).
Proof.
  unfold GetOrAllocate.
  repeat first
    [ progress intros
    | apply keeps_context_CreateBuffer | apply keeps_context_Stream
    | apply keeps_context_Synchronize | apply keeps_context_DeleteHostVisibleBuffer
    | apply keeps_context_cache_store | apply keeps_context_cache_load
    | apply keeps_context_VULKAN_CALL_create
    | apply keeps_ret | apply keeps_fail | apply keeps_get
    | apply keeps_bind | apply keeps_if
    | match goal with
      | |- keeps _ (match ?x with _ => _ end) => destruct x
      | |- keeps _ (context _) => unfold context
      | |- keeps _ (deref_VulkanBuffer _) => unfold deref_VulkanBuffer
      end ].
Qed.

End KeepsRuntime.

(** ** Inversion of successful steps *)

Section Inversions.
Import Rt.

Lemma cache_load_Ok_inv c id w b w' :
  cache_load c id w = (Ok b, w') -> w' = w /\ cache_map c (thread w) !! id = Some b.
Proof.
  unfold cache_load, bind, get.
  destruct (cache_map c (thread w) !! id); [|discriminate].
  intros [= <- <-]. auto.
Qed.

Lemma cache_store_inv c id b w r w' :
  cache_store c id b w = (r, w') -> r = Ok tt /\ w' = cache_set c id b w.
Proof. rewrite cache_store_run. intros [= <- <-]. auto. Qed.

Lemma deref_VulkanBuffer_Ok_inv p w vb w' :
  deref_VulkanBuffer p w = (Ok vb, w') -> w' = w /\ heap w !! p = Some vb.
Proof.
  unfold deref_VulkanBuffer, bind, get.
  destruct (heap w !! p); [|discriminate]. intros [= <- <-]. auto.
Qed.

Lemma ret_inv {A} (a : A) w r w' : ret a w = (r, w') -> r = Ok a /\ w' = w.
Proof. intros [= <- <-]. auto. Qed.

End Inversions.

(** ** The host-visible buffer caches *)

Section CacheProperties.
Import Rt.

Lemma GetOrAllocate_tail_post id size usage idx c w buf w' b0 :
  GetOrAllocate_tail id size usage idx c w = (Ok buf, w') ->
  cache_map c (thread w) !! id = Some b0 ->
  (host_addr b0 <> 0 -> size <= hv_size b0) ->
  cache_map c (thread w') !! id = Some buf /\ host_addr buf <> 0 /\ size <= hv_size buf /\
  (forall id', id' <> id -> cache_map c (thread w') !! id' = cache_map c (thread w) !! id') /\
  (forall vctx, context_ w !! Z.to_nat id = Some vctx -> device vctx <> 0 ->
                hv_device buf <> 0).
Proof.
  unfold GetOrAllocate_tail. intros H Hentry Hsize.
  invert_bind H as vctx w0 Hctx. apply context_Ok_inv in Hctx as (-> & Hid & Hctx).
  invert_bind H as b w0 Hload. apply cache_load_Ok_inv in Hload as (-> & Hb).
  rewrite Hentry in Hb. injection Hb as <-.
  invert_bind H as u w1 Hfix.
  assert (Hw1 : exists b1,
            cache_map c (thread w1) !! id = Some b1 /\
            host_addr b1 = host_addr b0 /\ hv_size b1 = hv_size b0 /\
            (device vctx <> 0 -> hv_device b1 = 0 -> False) /\
            (forall id', id' <> id ->
               cache_map c (thread w1) !! id' = cache_map c (thread w) !! id')).
  { destruct (Z.eqb_spec (hv_device b0) 0) as [Hd|Hd].
    - apply cache_store_inv in Hfix as (_ & ->). eexists.
      rewrite cache_map_set, lookup_insert_eq. split; [reflexivity|].
      cbn [host_addr hv_size hv_device].
      repeat split; auto.
      intros id' Hne. rewrite lookup_insert_ne by congruence. reflexivity.
    - apply ret_inv in Hfix as (_ & ->). exists b0. auto. }
  destruct Hw1 as (b1 & Hentry1 & Haddr1 & Hsize1 & Hdev1 & Hother1).
  invert_bind H as b w1' Hload. apply cache_load_Ok_inv in Hload as (-> & Hb).
  rewrite Hentry1 in Hb. injection Hb as <-.
  invert_bind H as u2 w2 Hcreate.
  apply cache_load_Ok_inv in H as (-> & Hfinal).
  destruct (Z.eqb_spec (host_addr b1) 0) as [Ha|Ha].
  - invert_bind Hcreate as p w3 Hbuf.
    pose proof (keeps_thread_CreateBuffer _ _ _ _ _ _ _ Hbuf) as Ht3.
    invert_bind Hcreate as u3 w4 Hstore. apply cache_store_inv in Hstore as (_ & ->).
    invert_bind Hcreate as vb w5 Hderef. apply deref_VulkanBuffer_Ok_inv in Hderef as (-> & _).
    invert_bind Hcreate as addr w6 Hmap.
    pose proof (keeps_thread_VULKAN_CALL_create _ _ _ _ Hmap) as Ht6.
    apply VULKAN_CALL_create_nonnull in Hmap.
    apply cache_store_inv in Hcreate as (_ & ->).
    rewrite cache_map_set, lookup_insert_eq in Hfinal. injection Hfinal as <-.
    rewrite cache_map_set, lookup_insert_eq. cbn [host_addr hv_size hv_device].
    split; [reflexivity|]. split; [exact Hmap|]. split; [lia|]. split.
    + intros id' Hne. rewrite ?cache_map_set, lookup_insert_ne by congruence.
      rewrite Ht6, ?cache_map_set, lookup_insert_ne by congruence.
      rewrite Ht3. apply Hother1. exact Hne.
    + intros vctx' Hctx' Hdev. rewrite Hctx in Hctx'. injection Hctx' as <-.
      intros Hz. apply Hdev1; assumption.
  - apply ret_inv in Hcreate as (_ & ->).
    rewrite Hentry1 in Hfinal. injection Hfinal as <-.
    split; [exact Hentry1|]. split; [exact Ha|].
    split; [rewrite Hsize1; apply Hsize; congruence|]. split; [exact Hother1|].
    intros vctx' Hctx' Hdev. rewrite Hctx in Hctx'. injection Hctx' as <-.
    intros Hz. apply Hdev1; assumption.
Qed.

Lemma keeps_cache_Stream c id' id :
  keeps (fun w => cache_map c (thread w) !! id') (Stream id).
Proof.
  unfold Stream, context, new_VulkanStream, set_stream, VULKAN_CALL_create, log. keeps_by_cases.
Qed.

Lemma keeps_cache_Synchronize c id' s :
  keeps (fun w => cache_map c (thread w) !! id') (Synchronize s).
Proof.
  unfold Synchronize, stream_deref, context, set_stream, VULKAN_CALL, log. keeps_by_cases.
Qed.

Lemma keeps_thread_DeleteHostVisibleBuffer buf : keeps thread (DeleteHostVisibleBuffer buf).
Proof.
  unfold DeleteHostVisibleBuffer, delete_VulkanBuffer, deref_VulkanBuffer, vk_void, log.
  keeps_by_cases.
Qed.

Lemma DeleteHostVisibleBuffer_Ok_inv buf w buf' w' :
  DeleteHostVisibleBuffer buf w = (Ok buf', w') ->
  hv_size buf' = hv_size buf /\ hv_device buf' = hv_device buf /\
  (vk_buf buf <> 0 -> host_addr buf' = 0) /\ (vk_buf buf = 0 -> buf' = buf).
Proof.
  unfold DeleteHostVisibleBuffer.
  destruct (Z.eqb_spec (vk_buf buf) 0) as [Hp|Hp]; cbn [negb].
  - intros [= <- _]. repeat split; auto. intros; contradiction.
  - intros H. invert_bind H as vb w1 H1. invert_bind H as u1 w2 H2.
    invert_bind H as u2 w3 H3. invert_bind H as u3 w4 H4. invert_bind H as u4 w5 H5.
    injection H as <- _. cbn.
    repeat split; auto. intros; contradiction.
Qed.

Lemma GetOrAllocate_post id size usage idx c sync w buf w' :
  entry_coherent (cache_map c (thread w) !! id) ->
  GetOrAllocate id size usage idx c sync w = (Ok buf, w') ->
  cache_map c (thread w') !! id = Some buf /\ host_addr buf <> 0 /\ size <= hv_size buf /\
  (forall id', id' <> id -> cache_map c (thread w') !! id' = cache_map c (thread w) !! id').
Proof.
  intros Hcoh. rewrite GetOrAllocate_unfold. intros H.
  invert_bind H as w0 w0' Hget. apply get_Ok_inv in Hget as [-> ->].
  invert_bind H as u w1 Hensure.
  assert (Hw1 : exists b, cache_map c (thread w1) !! id = Some b /\
                          entry_coherent (Some b) /\
                          forall id', id' <> id ->
                            cache_map c (thread w1) !! id' = cache_map c (thread w) !! id').
  { destruct (cache_map c (thread w) !! id) as [b|] eqn:Hentry.
    - apply ret_inv in Hensure as (_ & ->). exists b. auto.
    - apply cache_store_inv in Hensure as (_ & ->). exists empty_host_visible_buffer.
      rewrite cache_map_set, lookup_insert_eq. split; [reflexivity|]. split.
      + intros b [= <-] Ha. cbn in Ha. congruence.
      + intros id' Hne. rewrite lookup_insert_ne by congruence. reflexivity. }
  destruct Hw1 as (b & Hentry1 & Hcoh1 & Hother1).
  invert_bind H as b' w1' Hload. apply cache_load_Ok_inv in Hload as (-> & Hb).
  rewrite Hentry1 in Hb. injection Hb as <-.
  invert_bind H as u2 w2 Hgrow.
  assert (Hw2 : exists b2, cache_map c (thread w2) !! id = Some b2 /\
                           (host_addr b2 <> 0 -> size <= hv_size b2) /\
                           forall id', id' <> id ->
                             cache_map c (thread w2) !! id' = cache_map c (thread w) !! id').
  { destruct (negb (hv_device b =? 0) && (hv_size b <? size)) eqn:Hcond.
    - invert_bind Hgrow as u3 w3 Hsync.
      assert (Hother3 : forall id', cache_map c (thread w3) !! id' = cache_map c (thread w1) !! id').
      { intros id'. destruct sync.
        - invert_bind Hsync as s w4 Hs.
          rewrite (keeps_cache_Synchronize c id' _ _ _ _ Hsync).
          apply (keeps_cache_Stream c id' _ _ _ _ Hs).
        - apply ret_inv in Hsync as (_ & ->). reflexivity. }
      invert_bind Hgrow as b3 w4 Hdel.
      pose proof (keeps_thread_DeleteHostVisibleBuffer _ _ _ _ Hdel) as Ht4.
      apply DeleteHostVisibleBuffer_Ok_inv in Hdel as (Hsz & Hdv & Hdeleted & Hsame).
      apply cache_store_inv in Hgrow as (_ & ->).
      exists b3. rewrite cache_map_set, lookup_insert_eq. split; [reflexivity|]. split.
      + intros Ha. destruct (Z.eq_dec (vk_buf b) 0) as [Hz|Hnz].
        * rewrite (Hsame Hz) in Ha. destruct (Hcoh1 b eq_refl Ha) as [_ Hp]. contradiction.
        * rewrite (Hdeleted Hnz) in Ha. contradiction.
      + intros id' Hne. rewrite lookup_insert_ne by congruence.
        rewrite Ht4, Hother3. apply Hother1. exact Hne.
    - apply ret_inv in Hgrow as (_ & ->). exists b. split; [exact Hentry1|].
      split; [|exact Hother1].
      intros Ha. destruct (Hcoh1 b eq_refl Ha) as [Hd _].
      apply andb_false_iff in Hcond as [Hc | Hc].
      + apply negb_false_iff, Z.eqb_eq in Hc. contradiction.
      + apply Z.ltb_ge in Hc. exact Hc. }
  destruct Hw2 as (b2 & Hentry2 & Hsize2 & Hother2).
  destruct (GetOrAllocate_tail_post _ _ _ _ _ _ _ _ _ H Hentry2 Hsize2)
    as (Hentry' & Haddr & Hsz & Hother' & _).
  repeat split; auto.
  intros id' Hne. rewrite Hother' by exact Hne. apply Hother2. exact Hne.
Qed.

Lemma GetOrAllocate_hit id size usage idx c sync w buf :
  cache_map c (thread w) !! id = Some buf ->
  hv_device buf <> 0 -> host_addr buf <> 0 -> size <= hv_size buf ->
  valid_device w id ->
  GetOrAllocate id size usage idx c sync w = (Ok buf, w).
Proof.
  intros Hentry Hd Ha Hsize [Hid Hlt].
  destruct (lookup_lt_is_Some_2 (context_ w) (Z.to_nat id) ltac:(lia)) as (vctx & Hctx).
  rewrite GetOrAllocate_unfold. step. rewrite Hentry. step. step_load Hentry.
  apply Z.eqb_neq in Hd, Ha. apply Z.ltb_ge in Hsize. rewrite Hd, Hsize. cbn [negb andb].
  step. unfold GetOrAllocate_tail. step_context Hid Hctx.
  step_load Hentry. rewrite Hd. step. step_load Hentry. rewrite Ha. step.
  apply cache_load_run. exact Hentry.
Qed.

End CacheProperties.


(** X10.  The host-visible buffer cache.  A request that the cached buffer of
    the device can serve returns that buffer without any driver call and
    without any change.  Any request that succeeds leaves, under the device
    id, a mapped buffer of at least the requested size, which it returns, and
    does not touch the entries of other devices. *)
Theorem GetOrAllocate_serves_request :
  forall id size usage mem_type_index buffers_ptr sync_before_realloc w,
    entry_coherent (Rt.cache_map buffers_ptr (Rt.thread w) !! id) ->
    (forall buf,
       Rt.cache_map buffers_ptr (Rt.thread w) !! id = Some buf ->
       Rt.host_addr buf <> 0 -> size <= Rt.hv_size buf -> valid_device w id ->
       Rt.GetOrAllocate id size usage mem_type_index buffers_ptr sync_before_realloc w
       = (Rt.Ok buf, w)) /\
    (forall buf w',
       Rt.GetOrAllocate id size usage mem_type_index buffers_ptr sync_before_realloc w
       = (Rt.Ok buf, w') ->
       Rt.cache_map buffers_ptr (Rt.thread w') !! id = Some buf /\
       Rt.host_addr buf <> 0 /\ size <= Rt.hv_size buf /\
       forall id', id' <> id ->
         Rt.cache_map buffers_ptr (Rt.thread w') !! id'
         = Rt.cache_map buffers_ptr (Rt.thread w) !! id').
Proof.
  intros id size usage idx c sync w Hcoh. split.
  - intros buf Hentry Ha Hsize Hvalid.
    apply GetOrAllocate_hit; auto. apply (Hcoh buf Hentry Ha).
  - intros buf w'. apply GetOrAllocate_post. exact Hcoh.
Qed.

Lemma GetOrAllocate_serves_request_witness :
  Rt.GetOrAllocate 0 8 Rt.staging_usage 2 Rt.staging_buffers false (Sample.busy_world ∅ [])
  = (Rt.Ok {| Rt.hv_device := 101; Rt.vk_buf := 3; Rt.host_addr := 32; Rt.hv_size := 8 |},
     Sample.busy_world ∅ []).
Proof.
  apply (proj1 (GetOrAllocate_serves_request 0 8 Rt.staging_usage 2 Rt.staging_buffers false
                  (Sample.busy_world ∅ [])
                  ltac:(intros b [= <-] _; split; discriminate))).
  - reflexivity.
  - discriminate.
  - simpl. lia.
  - unfold valid_device. simpl. lia.
Defined.

(** ** The uniform buffer of a device *)

Section UniformBuffer.
Import Rt.

Lemma keeps_thread_FindMemoryType vctx info req_prop :
  keeps thread (FindMemoryType vctx info req_prop).
Proof. unfold FindMemoryType, VULKAN_CALL_create, vk_void, log. keeps_by_cases. Qed.

Lemma GetUniformBuffer_run id size w ubo :
  uniform_buffers_ (thread w) !! id = Some ubo -> size <= hv_size ubo ->
  GetUniformBuffer id size w = (Ok ubo, w).
Proof.
  intros Hentry Hsize. unfold GetUniformBuffer, bind, get. rewrite Hentry.
  apply Z.leb_le in Hsize. rewrite Hsize. reflexivity.
Qed.

End UniformBuffer.

(** X11.  The uniform buffer of a device.  After a successful
    [AllocateUniformBuffer] for [size] bytes, [GetUniformBuffer] succeeds for
    every size up to [size], returns a mapped buffer and changes nothing.
    [GetUniformBuffer] fails when the thread has no uniform buffer for the
    device, and when the buffer is smaller than what is asked for. *)
Theorem uniform_buffer_allocated_then_served :
  forall id size w,
    entry_coherent (Rt.uniform_buffers_ (Rt.thread w) !! id) ->
    (forall w',
       Rt.AllocateUniformBuffer id size w = (Rt.Ok tt, w') ->
       forall size', size' <= size ->
         exists ubo, Rt.GetUniformBuffer id size' w' = (Rt.Ok ubo, w') /\
                     Rt.host_addr ubo <> 0 /\ size <= Rt.hv_size ubo) /\
    (Rt.uniform_buffers_ (Rt.thread w) !! id = None ->
     forall size', Rt.GetUniformBuffer id size' w = (Rt.Fail (Rt.CheckFailed "buf"), w)) /\
    (forall ubo size',
       Rt.uniform_buffers_ (Rt.thread w) !! id = Some ubo -> Rt.hv_size ubo < size' ->
       Rt.GetUniformBuffer id size' w = (Rt.Fail (Rt.CheckFailed "buf->size >= size"), w)).
Proof.
  intros id size w Hcoh. split; [|split].
  - intros w' H size' Hle. unfold Rt.AllocateUniformBuffer in H.
    invert_bind H as vctx w0 Hctx. apply context_Ok_inv in Hctx as (-> & _ & _).
    invert_bind H as idx w1 Hfind.
    pose proof (keeps_thread_FindMemoryType _ _ _ _ _ _ Hfind) as Ht1.
    invert_bind H as buf w2 Hget. injection H as <-.
    apply GetOrAllocate_post in Hget as (Hentry & Haddr & Hsize & _).
    2:{ cbn [Rt.cache_map]. rewrite Ht1. exact Hcoh. }
    exists buf. split; [apply GetUniformBuffer_run; [exact Hentry | lia]|]. auto.
  - intros Hnone size'. unfold Rt.GetUniformBuffer, Rt.bind, Rt.get. rewrite Hnone. reflexivity.
  - intros ubo size' Hentry Hlt. unfold Rt.GetUniformBuffer, Rt.bind, Rt.get. rewrite Hentry.
    apply Z.leb_gt in Hlt. rewrite Hlt. reflexivity.
Qed.

Lemma uniform_buffer_allocated_then_served_witness :
  exists w' ubo,
    Rt.AllocateUniformBuffer 0 64 (Sample.busy_world ∅ []) = (Rt.Ok tt, w') /\
    Rt.GetUniformBuffer 0 48 w' = (Rt.Ok ubo, w') /\ Rt.host_addr ubo <> 0.
Proof.
  assert (Hok : Rt.is_Ok (fst (Rt.AllocateUniformBuffer 0 64 (Sample.busy_world ∅ []))) = true)
    by (vm_compute; reflexivity).
  destruct (Rt.AllocateUniformBuffer 0 64 (Sample.busy_world ∅ [])) as [[[]|e] w'] eqn:Hrun;
    [|discriminate Hok].
  destruct (proj1 (uniform_buffer_allocated_then_served 0 64 (Sample.busy_world ∅ [])
                     ltac:(intros b [= <-] _; split; discriminate)) w' Hrun 48 ltac:(lia))
    as (ubo & Hget & Haddr & _).
  exists w', ubo. auto.
Defined.

(** ** The stream of a device *)

Lemma keeps_thread_new_VulkanStream id vctx : keeps Rt.thread (Rt.new_VulkanStream id vctx).
Proof. unfold Rt.new_VulkanStream, Rt.VULKAN_CALL_create, Rt.log. keeps_by_cases. Qed.

(** X12.  [Stream] creates the stream of a device on first use only: a call
    that succeeds leaves a stream under the device id, a second call returns
    it without any driver call or change, and so does the first when the
    stream was already there.  The streams of other devices are not
    touched. *)
Theorem Stream_created_once :
  forall id w s w',
    Rt.Stream id w = (Rt.Ok s, w') ->
    s = id /\ is_Some (Rt.streams_ (Rt.thread w') !! id) /\
    Rt.Stream id w' = (Rt.Ok id, w') /\
    (is_Some (Rt.streams_ (Rt.thread w) !! id) -> w' = w) /\
    (forall id', id' <> id ->
       Rt.streams_ (Rt.thread w') !! id' = Rt.streams_ (Rt.thread w) !! id').
Proof.
  intros id w s w'. unfold Rt.Stream at 1. intros H.
  invert_bind H as w0 w0' Hget. apply get_Ok_inv in Hget as [-> ->].
  assert (Hagain : forall w1, is_Some (Rt.streams_ (Rt.thread w1) !! id) ->
                              Rt.Stream id w1 = (Rt.Ok id, w1)).
  { intros w1 [st Hst]. unfold Rt.Stream, Rt.bind, Rt.get. rewrite Hst. reflexivity. }
  destruct (Rt.streams_ (Rt.thread w) !! id) as [st|] eqn:Hst.
  - injection H as <- <-. rewrite Hst. repeat split; eauto.
  - invert_bind H as vctx w1 Hctx. apply context_Ok_inv in Hctx as (-> & _ & _).
    invert_bind H as st w2 Hnew.
    pose proof (keeps_thread_new_VulkanStream _ _ _ _ _ Hnew) as Ht2.
    invert_bind H as u w3 Hset. unfold Rt.set_stream in Hset. injection Hset as _ <-.
    injection H as <- <-.
    assert (Hthere : Rt.streams_ (Rt.thread (Rt.set_thread (Rt.set_streams <[id:=st]>) w2))
                     !! id = Some st).
    { cbn. apply lookup_insert_eq. }
    split; [reflexivity|]. split; [eauto|]. split; [apply Hagain; eauto|].
    split; [intros [? [=]]|].
    intros id' Hne. cbn. rewrite lookup_insert_ne by congruence. rewrite Ht2. reflexivity.
Qed.

Lemma Stream_created_once_witness :
  exists w', Rt.Stream 0 Sample.deferred_world = (Rt.Ok 0, w') /\
             Rt.Stream 0 w' = (Rt.Ok 0, w').
Proof.
  assert (Hok : Rt.is_Ok (fst (Rt.Stream 0 Sample.deferred_world)) = true)
    by (vm_compute; reflexivity).
  destruct (Rt.Stream 0 Sample.deferred_world) as [[s|e] w'] eqn:Hrun; [|discriminate Hok].
  destruct (Stream_created_once 0 Sample.deferred_world s w' Hrun) as (-> & _ & Hagain & _).
  exists w'. auto.
Defined.

(** ** Release of device memory *)

Ltac emits_concrete :=
  repeat first
    [ progress intros
    | apply emits_ret | apply emits_fail | apply emits_get | apply emits_next_result
    | apply emits_fresh_handle | apply emits_new_VulkanBuffer
    | apply emits_modify_thread | apply emits_modify_heap
    | apply emits_log; reflexivity
    | apply emits_bind
    | apply emits_if
    | match goal with
      | |- emits_only _ (match ?x with _ => _ end) => destruct x
      end ].

Section ReleaseRuns.
Import Rt.




Let quiet := fun c : VkCall => is_release c = false.






End ReleaseRuns.


(** ** Stream handles *)

(** X14.  The device API has one implicit stream per thread.  [CreateStream]
    returns the null handle; [FreeStream], [SetStream], [SyncStreamFromTo],
    [StreamSync] and [CopyDataFromTo] fail on a handle that is not null,
    before any driver call and without any change; on the null handle
    [FreeStream], [SetStream] and [SyncStreamFromTo] do nothing. *)
Theorem stream_handles_are_null :
  forall dev w,
    Api.CreateStream dev w = (Rt.Ok 0, w) /\
    Api.FreeStream dev 0 w = (Rt.Ok tt, w) /\
    Api.SetStream dev 0 w = (Rt.Ok tt, w) /\
    Api.SyncStreamFromTo dev 0 0 w = (Rt.Ok tt, w) /\
    (forall event_src event_dst,
       event_src <> 0 \/ event_dst <> 0 ->
       exists what,
         Api.SyncStreamFromTo dev event_src event_dst w = (Rt.Fail (Rt.CheckFailed what), w)) /\
    forall stream, stream <> 0 ->
      Api.FreeStream dev stream w = (Rt.Fail (Rt.CheckFailed "stream == nullptr"), w) /\
      Api.SetStream dev stream w = (Rt.Fail (Rt.CheckFailed "stream == nullptr"), w) /\
      Rt.StreamSync dev stream w = (Rt.Fail (Rt.CheckFailed "stream == nullptr"), w) /\
      forall from from_offset to to_offset size dev_from dev_to type_hint,
        Rt.CopyDataFromTo from from_offset to to_offset size dev_from dev_to type_hint stream w
        = (Rt.Fail (Rt.CheckFailed "stream == nullptr"), w).
Proof.
  intros dev w. do 4 (split; [reflexivity|]). split.
  - intros event_src event_dst Hne. unfold Api.SyncStreamFromTo, Rt.bind, Rt.ICHECK.
    destruct (Z.eqb_spec event_src 0) as [->|Hs]; [|eexists; reflexivity].
    destruct (Z.eqb_spec event_dst 0) as [->|Hd]; [|eexists; reflexivity].
    destruct Hne; contradiction.
  - intros stream Hne. apply Z.eqb_neq in Hne.
    unfold Api.FreeStream, Api.SetStream, Rt.StreamSync, Rt.CopyDataFromTo, Rt.bind, Rt.ICHECK.
    rewrite Hne. repeat split.
Qed.

Lemma stream_handles_are_null_witness :
  Rt.StreamSync Sample.vulkan0 5 Sample.deferred_world
  = (Rt.Fail (Rt.CheckFailed "stream == nullptr"), Sample.deferred_world) /\
  exists what,
    Api.SyncStreamFromTo Sample.vulkan0 0 5 Sample.deferred_world
    = (Rt.Fail (Rt.CheckFailed what), Sample.deferred_world).
Proof.
  destruct (stream_handles_are_null Sample.vulkan0 Sample.deferred_world)
    as (_ & _ & _ & _ & Hsync & Hnonnull).
  split.
  - apply (Hnonnull 5). discriminate.
  - apply Hsync. right. discriminate.
Defined.

(** ** Copies *)

(** X15.  [CopyDataFromTo] serves three pairs of device types: Vulkan to
    Vulkan, Vulkan to CPU and CPU to Vulkan.  For every other pair it fails
    with "Expect copy from/to Vulkan or between Vulkan", before any driver
    call and without any change. *)
Theorem CopyDataFromTo_unsupported_pair :
  forall from from_offset to to_offset size dev_from dev_to type_hint w,
    let a := Rt.device_type dev_from in
    let b := Rt.device_type dev_to in
    ~ (a = Rt.kDLVulkan /\ b = Rt.kDLVulkan) ->
    ~ (a = Rt.kDLVulkan /\ b = Rt.kDLCPU) ->
    ~ (a = Rt.kDLCPU /\ b = Rt.kDLVulkan) ->
    Rt.CopyDataFromTo from from_offset to to_offset size dev_from dev_to type_hint 0 w
    = (Rt.Fail (Rt.CheckFailed "Expect copy from/to Vulkan or between Vulkan"), w).
Proof.
  intros from fo to too size dev_from dev_to th w a b H1 H2 H3.
  unfold Rt.CopyDataFromTo. fold a. fold b.
  change (Rt.ICHECK (0 =? 0) ?m) with (@Rt.ret unit tt).
  change (Rt.bind (Rt.ret tt) ?k w) with (k tt w). cbv beta.
  destruct (Z.eqb_spec a Rt.kDLVulkan) as [Ha|Ha];
    destruct (Z.eqb_spec b Rt.kDLVulkan) as [Hb|Hb];
    destruct (Z.eqb_spec b Rt.kDLCPU) as [Hc|Hc];
    destruct (Z.eqb_spec a Rt.kDLCPU) as [Hd|Hd];
    cbn [andb]; try reflexivity; exfalso; auto.
Qed.

Lemma CopyDataFromTo_unsupported_pair_witness :
  let cpu := {| Rt.device_type := Rt.kDLCPU; Rt.device_id := 0 |} in
  Rt.CopyDataFromTo 1 0 2 0 16 cpu cpu Sample.float32 0 (Sample.busy_world ∅ [])
  = (Rt.Fail (Rt.CheckFailed "Expect copy from/to Vulkan or between Vulkan"),
     Sample.busy_world ∅ []).
Proof.
  intros cpu.
  apply (CopyDataFromTo_unsupported_pair 1 0 2 0 16 cpu cpu Sample.float32
           (Sample.busy_world ∅ []));
    intros [H1 H2]; discriminate.
Defined.

(** ** Device ids *)

Section DeviceIds.
Import Rt.

Lemma context_invalid w id :
  ~ valid_device w id ->
  context id w = (Fail (CheckFailed "device_id < context_.size()"), w).
Proof.
  intros Hv. unfold context, bind, get.
  destruct (Z.leb_spec 0 id); [|reflexivity].
  destruct (context_ w !! Z.to_nat id) eqn:E; [|reflexivity].
  exfalso. apply Hv. apply lookup_lt_Some in E. unfold valid_device. lia.
Qed.

End DeviceIds.

(** X16.  A device id that names no initialised device (negative ones
    included) is rejected before any driver call and without any change, by
    every entry point that is given one: [AllocDataSpace], [StagingBuffer],
    [AllocateUniformBuffer], [GetPipeline], [GenerateTarget], and, when the
    thread has no stream for it, [StreamSync] and [FreeDataSpace].  A kernel
    call on a thread whose current device id is 8 or more fails on the bound
    check; below 8, on the same check as the others. *)
Theorem invalid_device_id_is_rejected :
  forall id w,
    ~ valid_device w id ->
    let what := "device_id < context_.size()" in
    (forall dev nbytes alignment type_hint,
       Rt.device_id dev = id ->
       rejected what w (Rt.AllocDataSpace dev nbytes alignment type_hint w)) /\
    (forall size, rejected what w (Rt.StagingBuffer id size w)) /\
    (forall size, rejected what w (Rt.AllocateUniformBuffer id size w)) /\
    (forall m func_name num_pack_args,
       rejected what w (Rt.GetPipeline m id func_name num_pack_args w)) /\
    rejected what w (Api.GenerateTarget id w) /\
    (Rt.streams_ (Rt.thread w) !! id = None ->
     forall dev ptr, Rt.device_id dev = id ->
       rejected what w (Rt.StreamSync dev 0 w) /\ rejected what w (Rt.FreeDataSpace dev ptr w)) /\
    (Rt.te_device_id (Rt.thread w) = id ->
     forall f m args pack_args,
       rejected (if id <? 8 then what else "device_id < kVulkanMaxNumDevice") w
         (Rt.VulkanWrappedFunc_call f m args pack_args w)).
Proof.
  intros id w Hv what. unfold rejected.
  pose proof (context_invalid w id Hv) as Hctx. fold what in Hctx.
  split; [|split; [|split; [|split; [|split; [|split]]]]].
  - intros dev nbytes alignment type_hint <-. unfold Rt.AllocDataSpace.
    apply bind_Fail. exact Hctx.
  - intros size. unfold Rt.StagingBuffer. apply bind_Fail. exact Hctx.
  - intros size. unfold Rt.AllocateUniformBuffer. apply bind_Fail. exact Hctx.
  - intros m func_name num_pack_args. unfold Rt.GetPipeline. apply bind_Fail. exact Hctx.
  - unfold Api.GenerateTarget. apply bind_Fail. exact Hctx.
  - intros Hnone dev ptr <-.
    assert (Hsync : Rt.StreamSync dev 0 w = (Rt.Fail (Rt.CheckFailed what), w)).
    { unfold Rt.StreamSync, Rt.Stream.
      change (Rt.ICHECK (0 =? 0) ?m) with (@Rt.ret unit tt). step. step. step.
      rewrite Hnone. rewrite bind_assoc. rewrite (bind_Fail _ _ _ _ _ Hctx). reflexivity. }
    split; [exact Hsync|]. unfold Rt.FreeDataSpace. apply bind_Fail. exact Hsync.
  - intros Hcur f m args pack_args. unfold Rt.VulkanWrappedFunc_call. step.
    rewrite Hcur. unfold Rt.kVulkanMaxNumDevice.
    destruct (id <? 8); [|reflexivity].
    change (Rt.ICHECK true ?m) with (@Rt.ret unit tt). step.
    apply bind_Fail. exact Hctx.
Qed.

Lemma invalid_device_id_is_rejected_witness :
  Rt.AllocDataSpace Sample.vulkan1 64 64 Sample.float32 Sample.deferred_world
  = (Rt.Fail (Rt.CheckFailed "device_id < context_.size()"), Sample.deferred_world).
Proof.
  apply (proj1 (invalid_device_id_is_rejected 1 Sample.deferred_world
                  ltac:(unfold valid_device; simpl; lia))).
  reflexivity.
Defined.

Section CopyProtocol.
Import Rt.

Let quiet := fun c : VkCall => is_transfer_event c = false.





Lemma keeps_cache_begin_recording c id s :
  keeps (fun w => cache_map c (thread w) !! id) (begin_recording s).
Proof.
  unfold begin_recording, stream_deref, set_stream, VULKAN_CALL, log. keeps_by_cases.
Qed.


Lemma keeps_heap_Synchronize s : keeps heap (Synchronize s).
Proof.
  unfold Synchronize, stream_deref, context, set_stream, VULKAN_CALL, log. keeps_by_cases.
Qed.


Lemma transfer_events_synchronize vctx st :
  transfer_events (synchronize_calls vctx st) = [StreamSynchronize (stream_device_id st)].
Proof. reflexivity. Qed.


End CopyProtocol.

Section CopyProtocolRuns.
Import Rt.








End CopyProtocolRuns.





(** ** The pipeline cache of a module *)

Section PipelineCache.
Import Rt.

Lemma keeps_context_FindMemoryType vctx info req_prop :
  keeps context_ (FindMemoryType vctx info req_prop).
Proof. unfold FindMemoryType, VULKAN_CALL_create, vk_void, log. keeps_by_cases. Qed.

Lemma keeps_context_AllocateUniformBuffer id size :
  keeps context_ (AllocateUniformBuffer id size).
Proof.
  unfold AllocateUniformBuffer.
  repeat first
    [ progress intros
    | progress cbv zeta
    | apply keeps_context_FindMemoryType | apply keeps_context_GetOrAllocate
    | apply keeps_ret | apply keeps_fail | apply keeps_get | apply keeps_bind
    | match goal with |- keeps _ (match ?x with _ => _ end) => destruct x end ].
Qed.

Lemma keeps_context_ICHECK b what : keeps context_ (ICHECK b what).
Proof. unfold ICHECK. keeps_by_cases. Qed.

Lemma keeps_context_build_pipeline m vctx device_id func_name num_pack_args :
  keeps context_ (build_pipeline m vctx device_id func_name num_pack_args).
Proof.
  unfold build_pipeline.
  repeat first
    [ progress intros
    | progress cbv zeta
    | apply keeps_context_AllocateUniformBuffer | apply keeps_context_VULKAN_CALL_create
    | apply keeps_context_ICHECK
    | apply keeps_ret | apply keeps_fail | apply keeps_bind | apply keeps_if
    | match goal with
      | |- keeps _ (match ?x with _ => _ end) => destruct x
      end ].
Qed.

Lemma ecache_lookup_store m device_id func_name pe :
  ecache_lookup (ecache_store m device_id func_name pe) device_id func_name = Some pe.
Proof.
  unfold ecache_lookup, ecache_store. cbn [ecache_].
  rewrite lookup_insert_eq. cbn. apply lookup_insert_eq.
Qed.

Lemma ecache_lookup_store_other m device_id func_name pe device_id' func_name' :
  (device_id', func_name') <> (device_id, func_name) ->
  ecache_lookup (ecache_store m device_id func_name pe) device_id' func_name'
  = ecache_lookup m device_id' func_name'.
Proof.
  intros Hne. unfold ecache_lookup, ecache_store. cbn [ecache_].
  destruct (decide (device_id' = device_id)) as [->|Hd].
  - rewrite lookup_insert_eq. cbn.
    rewrite lookup_insert_ne by congruence.
    destruct (ecache_ m !! device_id); cbn; [reflexivity | apply lookup_empty].
  - rewrite lookup_insert_ne by congruence. reflexivity.
Qed.

End PipelineCache.

(** X19.  The pipeline cache of a module: after [GetPipeline] has returned a
    pipeline for a function on a device, asking again (in the world it left,
    with any [num_pack_args]) returns the same pipeline and changes neither
    the module nor the world, so nothing is built twice.  The call leaves the
    shader and function tables of the module and the cache entries of every
    other (device, function) pair as they were. *)
Theorem GetPipeline_cache_round_trip :
  forall m device_id func_name num_pack_args w pe m' w',
    Rt.GetPipeline m device_id func_name num_pack_args w = (Rt.Ok (pe, m'), w') ->
    (forall num_pack_args',
       Rt.GetPipeline m' device_id func_name num_pack_args' w' = (Rt.Ok (pe, m'), w')) /\
    Rt.smap_ m' = Rt.smap_ m /\ Rt.fmap_ m' = Rt.fmap_ m /\
    (forall device_id' func_name',
       (device_id', func_name') <> (device_id, func_name) ->
       Rt.ecache_lookup m' device_id' func_name' = Rt.ecache_lookup m device_id' func_name').
Proof.
  intros m device_id func_name num_pack_args w pe m' w' H. unfold Rt.GetPipeline in H.
  invert_bind H as vctx w0 Hcontext. apply context_Ok_inv in Hcontext as (-> & Hid & Hctx).
  assert (Hagain : forall m1 n, Rt.context_ w' = Rt.context_ w ->
            Rt.ecache_lookup m1 device_id func_name = Some pe ->
            Rt.GetPipeline m1 device_id func_name n w' = (Rt.Ok (pe, m1), w')).
  { intros m1 n Hsame Hhit. unfold Rt.GetPipeline.
    rewrite (bind_Ok _ _ _ _ _ (context_run _ _ _ Hid ltac:(rewrite Hsame; exact Hctx))).
    rewrite Hhit. reflexivity. }
  destruct (Rt.ecache_lookup m device_id func_name) as [cp|] eqn:Hcached.
  - injection H as <- <- <-. repeat split; auto.
  - invert_bind H as pe0 w1 Hbuild. injection H as <- <- <-.
    split; [|repeat split; auto using ecache_lookup_store_other].
    intros n. apply Hagain; [|apply ecache_lookup_store].
    exact (keeps_context_build_pipeline _ _ _ _ _ _ _ _ Hbuild).
Qed.

Lemma GetPipeline_cache_round_trip_witness :
  exists pe m' w',
    Rt.GetPipeline (Sample.sample_module "src") 0 "copy_kernel" 1 Sample.immediate_world
    = (Rt.Ok (pe, m'), w') /\
    Rt.GetPipeline m' 0 "copy_kernel" 1 w' = (Rt.Ok (pe, m'), w').
Proof.
  assert (Hok : Rt.is_Ok (fst (Rt.GetPipeline (Sample.sample_module "src") 0 "copy_kernel" 1
                                 Sample.immediate_world)) = true)
    by (vm_compute; reflexivity).
  destruct (Rt.GetPipeline (Sample.sample_module "src") 0 "copy_kernel" 1
              Sample.immediate_world) as [[[pe m']|e] w'] eqn:Hrun; [|discriminate Hok].
  exists pe, m', w'. split; [reflexivity|].
  exact (proj1 (GetPipeline_cache_round_trip _ _ _ _ _ _ _ _ Hrun) 1).
Defined.




(** ** Scalar arguments of a pipeline *)

Section ScalarArguments.
Import Rt.

Lemma AllocateUniformBuffer_post id size w u w' :
  entry_coherent (uniform_buffers_ (thread w) !! id) ->
  AllocateUniformBuffer id size w = (Ok u, w') ->
  exists ubo,
    uniform_buffers_ (thread w') !! id = Some ubo /\ host_addr ubo <> 0 /\ size <= hv_size ubo.
Proof.
  intros Hcoh H. unfold AllocateUniformBuffer in H.
  invert_bind H as vctx w0 Hctx. apply context_Ok_inv in Hctx as (-> & _ & _).
  invert_bind H as idx w1 Hfind.
  pose proof (keeps_thread_FindMemoryType _ _ _ _ _ _ Hfind) as Ht1.
  invert_bind H as buf w2 Hget. injection H as _ <-.
  apply GetOrAllocate_post in Hget as (Hentry & Haddr & Hsize & _).
  2:{ cbn [cache_map]. rewrite Ht1. exact Hcoh. }
  exists buf. auto.
Qed.

Lemma keeps_thread_ICHECK b what : keeps thread (ICHECK b what).
Proof. unfold ICHECK. keeps_by_cases. Qed.

Lemma count_pod_arguments (types : list DLDataType) :
  Z.of_nat (length types - length (List.filter is_handle types))
  = Z.of_nat (length (List.filter (fun t => negb (is_handle t)) types)).
Proof.
  pose proof (List.filter_length is_handle types). lia.
Qed.

End ScalarArguments.

(** X21.  How a newly built pipeline provides for the scalar arguments of its
    function ([num_pod] of them, the arguments that are not opaque handles).
    The pipeline uses a uniform buffer exactly when bit 0 of the shader's
    flag is set.  If it does, the thread's uniform buffer for the device
    exists when [GetPipeline] returns, is mapped, and holds at least
    [8 * num_pod] bytes.  If it does not and there is a scalar argument, the
    push-constant range of [8 * num_pack_args] bytes (as a [uint32_t]) is
    within the device's [maxPushConstantsSize]. *)
Theorem pipeline_scalar_arguments :
  forall m device_id func_name num_pack_args w pe m' w' fit,
    Rt.ecache_lookup m device_id func_name = None ->
    Rt.fmap_ m !! func_name = Some fit ->
    24 * Z.of_nat (length (Rt.arg_types fit)) < 4294967296 ->
    entry_coherent (Rt.uniform_buffers_ (Rt.thread w) !! device_id) ->
    Rt.GetPipeline m device_id func_name num_pack_args w = (Rt.Ok (pe, m'), w') ->
    let num_pod :=
      Z.of_nat (length (List.filter (fun t => negb (is_handle t)) (Rt.arg_types fit))) in
    exists vctx sit,
      Rt.context_ w !! Z.to_nat device_id = Some vctx /\
      Rt.smap_ m !! func_name = Some sit /\
      Rt.use_ubo pe = Z.testbit (Rt.flag sit) 0 /\
      if Rt.use_ubo pe then
        exists ubo,
          Rt.uniform_buffers_ (Rt.thread w') !! device_id = Some ubo /\
          Rt.host_addr ubo <> 0 /\ num_pod * 8 <= Rt.hv_size ubo
      else
        0 < num_pod ->
        Rt.u32 (8 * num_pack_args)
        <= Caps.maxPushConstantsSize (Caps.limits (Rt.phy_device_prop vctx)).
Proof.
  intros m device_id func_name num_pack_args w pe m' w' fit Hmiss Hfit Hlen Hcoh H num_pod.
  unfold Rt.GetPipeline in H.
  invert_bind H as vctx w0 Hcontext. apply context_Ok_inv in Hcontext as (-> & Hid & Hctx).
  rewrite Hmiss in H. invert_bind H as pe0 wb Hbuild. injection H as <- _ <-.
  unfold Rt.build_pipeline in Hbuild.
  destruct (Rt.smap_ m !! func_name) as [sit|] eqn:Hsit.
  2:{ apply bind_Ok_inv in Hbuild as (? & ? & Hf & _). discriminate Hf. }
  invert_bind Hbuild as sit' w0 Hret. apply ret_inv in Hret as ([= ->] & ->).
  invert_bind Hbuild as pe_shader w1 Hshader.
  pose proof (keeps_thread_VULKAN_CALL_create _ _ _ _ Hshader) as Ht1.
  rewrite Hfit in Hbuild.
  invert_bind Hbuild as fit' w1' Hret. apply ret_inv in Hret as ([= ->] & ->).
  pose proof (scan_arg_types_from (Rt.arg_types fit) 0 0 ltac:(lia) ltac:(lia)) as Hscan.
  cbv zeta in Hscan. cbn [seq map Nat.add] in Hscan.
  change (Z.of_nat 0) with 0 in Hscan.
  change (storage_pool_sizes 0) with (@nil Rt.VkDescriptorPoolSize) in Hscan.
  rewrite Hscan in Hbuild. clear Hscan.
  rewrite count_pod_arguments in Hbuild. fold num_pod in Hbuild.
  set (pe_use_ubo := truthy (Z.land (Rt.flag sit) (Z.shiftl 1 Rt.kUseUBO))) in *.
  assert (Hbit : pe_use_ubo = Z.testbit (Rt.flag sit) 0).
  { unfold pe_use_ubo, truthy. change (Z.shiftl 1 Rt.kUseUBO) with 1.
    rewrite <- land_1_testbit.
    change 1 with (Z.ones 1) at 1 2. rewrite Z.land_ones by lia. change (2 ^ 1) with 2.
    pose proof (Z.mod_pos_bound (Rt.flag sit) 2 ltac:(lia)).
    destruct (Z.eqb_spec (Rt.flag sit mod 2) 0), (Z.eqb_spec (Rt.flag sit mod 2) (Z.ones 1));
      cbn in *; try reflexivity; lia. }
  invert_bind Hbuild as a w2 Hubo.
  assert (Hw2 : if pe_use_ubo
                then exists ubo, Rt.uniform_buffers_ (Rt.thread w2) !! device_id = Some ubo /\
                                 Rt.host_addr ubo <> 0 /\ num_pod * 8 <= Rt.hv_size ubo
                else True).
  { destruct pe_use_ubo; [|exact I].
    invert_bind Hubo as u w2' Halloc.
    apply ret_inv in Hubo as (_ & ->).
    apply AllocateUniformBuffer_post in Halloc; [exact Halloc|].
    rewrite Ht1. exact Hcoh. }
  invert_bind Hbuild as layout w3 Hlayout.
  pose proof (keeps_thread_VULKAN_CALL_create _ _ _ _ Hlayout) as Ht3.
  invert_bind Hbuild as pool_set w4 Hpool.
  assert (Ht4 : Rt.thread w4 = Rt.thread w3).
  { destruct (Rt.UseImmediate vctx); cbn [negb] in Hpool.
    - apply ret_inv in Hpool as (_ & ->). reflexivity.
    - invert_bind Hpool as pool w3' Hp.
      invert_bind Hpool as set w3'' Hs. apply ret_inv in Hpool as (_ & ->).
      rewrite (keeps_thread_VULKAN_CALL_create _ _ _ _ Hs).
      exact (keeps_thread_VULKAN_CALL_create _ _ _ _ Hp). }
  invert_bind Hbuild as ranges w5 Hranges.
  assert (Hw5 : Rt.thread w5 = Rt.thread w4 /\
                (pe_use_ubo = false -> 0 < num_pod ->
                 Rt.u32 (8 * num_pack_args)
                 <= Caps.maxPushConstantsSize (Caps.limits (Rt.phy_device_prop vctx)))).
  { destruct ((0 <? num_pod * Rt.sizeof_ArgUnion64) && negb pe_use_ubo) eqn:Hcond.
    - invert_bind Hranges as u w4' Hcheck. apply ICHECK_Ok_inv in Hcheck as (Hle & ->).
      apply ret_inv in Hranges as (_ & ->). split; [reflexivity|].
      intros _ _. cbn [Rt.pc_size] in Hle. apply Z.leb_le in Hle. exact Hle.
    - apply ret_inv in Hranges as (_ & ->). split; [reflexivity|].
      intros Hno Hpos. rewrite Hno in Hcond. cbn [negb] in Hcond.
      rewrite andb_true_r in Hcond. apply Z.ltb_ge in Hcond.
      unfold Rt.sizeof_ArgUnion64 in Hcond. lia. }
  destruct Hw5 as (Ht5 & Hfits).
  invert_bind Hbuild as pl w6 Hpl.
  pose proof (keeps_thread_VULKAN_CALL_create _ _ _ _ Hpl) as Ht6.
  invert_bind Hbuild as pipe w7 Hpipe.
  pose proof (keeps_thread_VULKAN_CALL_create _ _ _ _ Hpipe) as Ht7.
  invert_bind Hbuild as tpl w8 Htpl.
  assert (Ht8 : Rt.thread w8 = Rt.thread w7).
  { destruct (Rt.UseImmediate vctx).
    - exact (keeps_thread_VULKAN_CALL_create _ _ _ _ Htpl).
    - apply ret_inv in Htpl as (_ & ->). reflexivity. }
  apply ret_inv in Hbuild as ([= ->] & ->).
  exists vctx, sit. split; [exact Hctx|]. split; [reflexivity|]. cbn [Rt.use_ubo].
  split; [exact Hbit|].
  destruct pe_use_ubo.
  - rewrite Ht8, Ht7, Ht6, Ht5, Ht4, Ht3. exact Hw2.
  - apply Hfits. reflexivity.
Qed.

Lemma pipeline_scalar_arguments_witness :
  exists pe m' w',
    Rt.GetPipeline (Sample.sample_module "src") 0 "copy_kernel" 1 Sample.immediate_world
    = (Rt.Ok (pe, m'), w') /\
    Rt.use_ubo pe = false /\ Rt.u32 (8 * 1) <= 128.
Proof.
  assert (Hok : Rt.is_Ok (fst (Rt.GetPipeline (Sample.sample_module "src") 0 "copy_kernel" 1
                                 Sample.immediate_world)) = true)
    by (vm_compute; reflexivity).
  destruct (Rt.GetPipeline (Sample.sample_module "src") 0 "copy_kernel" 1
              Sample.immediate_world) as [[[pe m']|e] w'] eqn:Hrun; [|discriminate Hok].
  destruct (pipeline_scalar_arguments (Sample.sample_module "src") 0 "copy_kernel" 1
              Sample.immediate_world pe m' w' _
              (VulkanModuleCreate_cache_empty _ _ _ _ _) eq_refl
              ltac:(vm_compute; reflexivity) ltac:(intros b Hb; discriminate Hb) Hrun)
    as (vctx & sit & Hctx & Hsit & Hubo & Hfits).
  injection Hctx as <-. injection Hsit as <-.
  change (Rt.use_ubo pe = false) in Hubo. rewrite Hubo in Hfits.
  exists pe, m', w'. split; [reflexivity|]. split; [exact Hubo|].
  apply Hfits. vm_compute. reflexivity.
Defined.

(** ** Copies between device buffers *)

Section DeviceCopy.
Import Rt.

Let quiet := fun c : VkCall => is_host_side c = false.

Lemma no_host_side_device_copy from from_offset to to_offset size dev_from dev_to :
  emits_only quiet
    (s <- Stream (device_id dev_from);;
     Launch s (copy_device_to_device from from_offset to to_offset size dev_from dev_to)).
Proof.
  unfold Launch, copy_device_to_device, Stream, begin_recording, stream_deref, context,
    new_VulkanStream, set_stream, deref_VulkanBuffer, ICHECK, VULKAN_CALL_create, VULKAN_CALL,
    vk_void.
  emits_concrete.
Qed.

End DeviceCopy.

(** X22.  A copy between two Vulkan buffers is only recorded: however the call
    ends, it adds to the log no host copy, no mapping, flush or invalidation
    of memory, no queue submission, no wait on a fence and no
    synchronisation of the stream. *)
Theorem device_copy_is_asynchronous :
  forall from from_offset to to_offset size dev_from dev_to type_hint stream w r w',
    Rt.device_type dev_from = Rt.kDLVulkan -> Rt.device_type dev_to = Rt.kDLVulkan ->
    Rt.CopyDataFromTo from from_offset to to_offset size dev_from dev_to type_hint stream w
    = (r, w') ->
    exists new,
      Rt.calls (Rt.drv w') = (Rt.calls (Rt.drv w) ++ new)%list /\
      List.filter is_host_side new = [].
Proof.
  intros from from_offset to to_offset size dev_from dev_to type_hint stream w r w' Hfrom Hto.
  unfold Rt.CopyDataFromTo. rewrite Hfrom, Hto. cbn [Z.eqb Pos.eqb Rt.kDLVulkan andb].
  apply emits_only_filter. apply emits_bind.
  - unfold Rt.ICHECK. emits_concrete.
  - intros _. apply no_host_side_device_copy.
Qed.

Lemma device_copy_is_asynchronous_witness :
  exists new,
    Rt.calls (Rt.drv (snd (Rt.CopyDataFromTo 1 0 2 0 8 Sample.vulkan0 Sample.vulkan0
                             Sample.float32 0 (Sample.busy_world ∅ []))))
    = (Rt.calls (Rt.drv (Sample.busy_world ∅ [])) ++ new)%list /\
    List.filter is_host_side new = [].
Proof.
  apply (device_copy_is_asynchronous 1 0 2 0 8 Sample.vulkan0 Sample.vulkan0 Sample.float32 0
           (Sample.busy_world ∅ [])
           (fst (Rt.CopyDataFromTo 1 0 2 0 8 Sample.vulkan0 Sample.vulkan0 Sample.float32 0
                   (Sample.busy_world ∅ [])))).
  - reflexivity.
  - reflexivity.
  - apply surjective_pairing.
Defined.

(** ** Kernel launches *)

Section CachedLaunch.
Import Rt.

Let quiet := fun c : VkCall => is_build_work c = false.

Lemma no_build_buffer_infos args count : forall i, emits_only quiet (buffer_infos args i count).
Proof.
  induction count as [|count IH]; intros i; cbn [buffer_infos].
  - apply emits_ret.
  - unfold arg_handle, deref_VulkanBuffer.
    repeat first
      [ progress intros | apply IH
      | apply emits_ret | apply emits_fail | apply emits_get | apply emits_bind
      | match goal with
        | |- emits_only _ (match ?x with _ => _ end) => destruct x
        end ].
Qed.

Lemma no_build_assemble f pl id args :
  emits_only quiet (assemble_descriptor_buffers f pl id args).
Proof.
  unfold assemble_descriptor_buffers. apply emits_bind; [apply no_build_buffer_infos|].
  unfold GetUniformBuffer, ICHECK, deref_VulkanBuffer. emits_concrete.
Qed.

Lemma no_build_launch f (m : VulkanModuleNode) pl vctx args pack_args id :
  emits_only quiet
    (descriptor_buffers <- assemble_descriptor_buffers f pl id args;;
     if UseImmediate vctx then
       s <- Stream id;;
       Launch s (immediate_kernel f pl (thread_axis_cfg_Extract f args) descriptor_buffers id
                   pack_args);;
       ret (f, m)
     else
       s <- Stream id;;
       LaunchDeferred s (deferred_initializer vctx pl descriptor_buffers)
         (deferred_kernel f pl (thread_axis_cfg_Extract f args)
            (read_slots pack_args (num_pack_args_ f))
            (Z.of_nat (num_pack_args_ f) * sizeof_ArgUnion64) id)
         {| descriptor_set_ := descriptor_set pl;
            buffers_ := map bi_buffer descriptor_buffers |};;
       ret (f, m)).
Proof.
  apply emits_bind; [apply no_build_assemble|]. intros descriptor_buffers.
  unfold Launch, LaunchDeferred, immediate_kernel, deferred_kernel, deferred_initializer,
    post_dispatch_barrier, Stream, begin_recording, stream_deref, context, new_VulkanStream,
    set_stream, GetUniformBuffer, ICHECK, VULKAN_CALL_create, VULKAN_CALL, vk_void.
  emits_concrete.
Qed.

End CachedLaunch.

(** X23.  A kernel call that finds its pipeline in the function's own cache
    builds nothing: however the call ends, it creates no pipeline object,
    allocates and maps no buffer, and does not synchronise the stream; when
    it succeeds, the function and the module it returns are the ones it was
    given. *)
Theorem cached_launch_builds_nothing :
  forall f m args pack_args pl w r w',
    Rt.scache_ f !! Rt.te_device_id (Rt.thread w) = Some pl ->
    Rt.VulkanWrappedFunc_call f m args pack_args w = (r, w') ->
    (exists new,
       Rt.calls (Rt.drv w') = (Rt.calls (Rt.drv w) ++ new)%list /\
       List.filter is_build_work new = []) /\
    (forall f' m', r = Rt.Ok (f', m') -> f' = f /\ m' = m).
Proof.
  intros f m args pack_args pl w r w' Hhit H. unfold Rt.VulkanWrappedFunc_call in H.
  unfold Rt.bind at 1 in H. unfold Rt.get at 1 in H. cbv beta iota in H.
  destruct (Rt.ICHECK (Rt.te_device_id (Rt.thread w) <? Rt.kVulkanMaxNumDevice)
              "device_id < kVulkanMaxNumDevice" w) as [[u|e] w0] eqn:Hcheck.
  2:{ rewrite (bind_Fail _ _ _ _ _ Hcheck) in H. injection H as <- <-.
      unfold Rt.ICHECK in Hcheck. destruct (_ <? _); [discriminate|].
      injection Hcheck as _ <-. split; [|discriminate].
      exists []. rewrite app_nil_r. auto. }
  apply ICHECK_Ok_inv in Hcheck as Hw0. destruct Hw0 as [_ ->].
  rewrite (bind_Ok _ _ _ _ _ Hcheck) in H.
  destruct (Rt.context (Rt.te_device_id (Rt.thread w)) w) as [[vctx|e] w0] eqn:Hcontext.
  2:{ rewrite (bind_Fail _ _ _ _ _ Hcontext) in H. injection H as <- <-.
      unfold Rt.context, Rt.bind, Rt.get in Hcontext.
      destruct (if _ <=? _ then _ else _); [discriminate|].
      injection Hcontext as _ <-. split; [|discriminate].
      exists []. rewrite app_nil_r. auto. }
  apply context_Ok_inv in Hcontext as Hw0. destruct Hw0 as (-> & _ & _).
  rewrite (bind_Ok _ _ _ _ _ Hcontext), Hhit in H.
  unfold Rt.bind at 1 in H. cbn [Rt.ret] in H. cbv beta iota in H.
  split.
  - eapply emits_only_filter; [|exact H]. apply no_build_launch.
  - intros f' m' ->.
    invert_bind H as infos w1 Hassemble.
    destruct (Rt.UseImmediate vctx).
    + invert_bind H as s w2 Hs. invert_bind H as u1 w3 Hl. injection H as <- <- _. auto.
    + invert_bind H as s w2 Hs. invert_bind H as u1 w3 Hl. injection H as <- <- _. auto.
Qed.

Lemma cached_launch_builds_nothing_witness :
  exists new,
    Rt.calls (Rt.drv (snd (Rt.VulkanWrappedFunc_call
                             (Rt.set_scache Sample.copy_kernel_func 0
                                {| Rt.shader := 1; Rt.descriptor_set_layout := 2;
                                   Rt.descriptor_pool := 0; Rt.descriptor_set := 0;
                                   Rt.pipeline_layout := 3; Rt.pipeline := 4;
                                   Rt.descriptor_update_template := 5; Rt.use_ubo := false |})
                             (Sample.sample_module "src") [1; 2] (fun _ => 1024)
                             (Sample.busy_world ∅ Sample.push_extensions))))
    = (Rt.calls (Rt.drv (Sample.busy_world ∅ Sample.push_extensions)) ++ new)%list /\
    List.filter is_build_work new = [].
Proof.
  set (pl := {| Rt.shader := 1; Rt.descriptor_set_layout := 2;
                Rt.descriptor_pool := 0; Rt.descriptor_set := 0;
                Rt.pipeline_layout := 3; Rt.pipeline := 4;
                Rt.descriptor_update_template := 5; Rt.use_ubo := false |}).
  set (f := Rt.set_scache Sample.copy_kernel_func 0 pl).
  set (w := Sample.busy_world ∅ Sample.push_extensions).
  apply (cached_launch_builds_nothing f (Sample.sample_module "src") [1; 2]
           (fun _ => 1024) pl w
           (fst (Rt.VulkanWrappedFunc_call f (Sample.sample_module "src") [1; 2]
                   (fun _ => 1024) w))).
  - vm_compute. reflexivity.
  - apply surjective_pairing.
Defined.

Section DispatchRuns.
Import Rt.

Let quiet := fun c : VkCall => is_dispatch c = false.









Lemma keeps_thread_initializer vctx pl infos :
  keeps thread (deferred_initializer vctx pl infos).
Proof. unfold deferred_initializer, vk_void, log. keeps_by_cases. Qed.






End DispatchRuns.


